(** * PyHEADTAIL [particles/generators.py]: longitudinal bucket matching

    A shallow embedding of [StationaryExponential] and [RFBucket] from
    [src/particles/generators.py], with the properties the specification
    states about them, and of the Gaussian and uniform generators of the
    same file, with further properties read off the code.

    Numbers.  The source computes with NumPy [float64] values.  They are
    modelled as ideal real numbers extended with the three IEEE special
    values a NumPy operation can return without raising ([inf], [-inf],
    [nan]).  [np.exp] overflows to [inf] as it does on doubles; rounding,
    overflow in the other operations and the sign of zero are outside the
    model.  A literal is the real number it denotes: the tolerance [1e-4]
    of the matching loop is the real 1/10000, which the double of the
    source exceeds by less than 5e-21.  The two values [dblquad] returns
    are Python floats, whose division raises on a zero divisor.

    Arrays.  A NumPy array is a list, and a function the source applies to
    an array is applied to each entry.

    Effects.  [print] statements append to a log, exceptions abort the
    computation with the log written so far, the attribute writes to the
    [StationaryExponential] object and to the particle buffer are explicit
    state passing, and the global [np.random] stream is a sequence of draws
    read at a position. *)

From Stdlib Require Import Reals Lra Lia List Bool String Arith Sorted.
Import ListNotations.

Local Open Scope R_scope.

(** ** NumPy [float64] arithmetic *)

Inductive float64 : Type :=
| Fin (r : R)
| PInf
| NInf
| NaN.

Coercion Fin : R >-> float64.

Module Np.

(** The infinity that carries the sign of [s]; [nan] when there is none. *)
Definition signed_inf (s : R) : float64 :=
  if Req_dec_T s 0 then NaN else if Rlt_dec 0 s then PInf else NInf.

Definition neg (a : float64) : float64 :=
  match a with
  | Fin x => Fin (- x)
  | PInf => NInf
  | NInf => PInf
  | NaN => NaN
  end.

Definition add (a b : float64) : float64 :=
  match a, b with
  | NaN, _ | _, NaN => NaN
  | Fin x, Fin y => Fin (x + y)
  | PInf, NInf | NInf, PInf => NaN
  | PInf, _ | _, PInf => PInf
  | NInf, _ | _, NInf => NInf
  end.

Definition sub (a b : float64) : float64 := add a (neg b).

Definition mul (a b : float64) : float64 :=
  match a, b with
  | NaN, _ | _, NaN => NaN
  | Fin x, Fin y => Fin (x * y)
  | Fin x, PInf | PInf, Fin x => signed_inf x
  | Fin x, NInf | NInf, Fin x => signed_inf (- x)
  | PInf, PInf | NInf, NInf => PInf
  | PInf, NInf | NInf, PInf => NInf
  end.

(** True division ([from __future__ import division]).  NumPy does not
    raise on a zero divisor: it returns [nan] or an infinity. *)
Definition div (a b : float64) : float64 :=
  match a, b with
  | NaN, _ | _, NaN => NaN
  | Fin x, Fin y => if Req_dec_T y 0 then signed_inf x else Fin (x / y)
  | Fin _, _ => Fin 0
  | PInf, Fin y => if Rlt_dec y 0 then NInf else PInf
  | NInf, Fin y => if Rlt_dec y 0 then PInf else NInf
  | _, _ => NaN
  end.

Definition abs (a : float64) : float64 :=
  match a with
  | Fin x => Fin (Rabs x)
  | PInf | NInf => PInf
  | NaN => NaN
  end.

(** The largest double whose exponential is still a finite double:
    [np.exp] returns [inf] for every double above it. *)
Definition exp_max : R := 709.782712893384.

Definition exp (a : float64) : float64 :=
  match a with
  | Fin x => if Rlt_dec exp_max x then PInf else Fin (Rtrigo_def.exp x)
  | PInf => PInf
  | NInf => Fin 0
  | NaN => NaN
  end.

Definition sqrt (a : float64) : float64 :=
  match a with
  | Fin x => if Rlt_dec x 0 then NaN else Fin (R_sqrt.sqrt x)
  | PInf => PInf
  | NInf | NaN => NaN
  end.

(** Comparisons: every comparison with [nan] is [False]. *)
Definition lt (a b : float64) : bool :=
  match a, b with
  | NaN, _ | _, NaN => false
  | Fin x, Fin y => if Rlt_dec x y then true else false
  | NInf, Fin _ | NInf, PInf | Fin _, PInf => true
  | _, _ => false
  end.

Definition gt (a b : float64) : bool := lt b a.

(** [np.amax] of two entries: [nan] propagates. *)
Definition maximum (a b : float64) : float64 :=
  match a, b with
  | NaN, _ | _, NaN => NaN
  | _, _ => if lt a b then b else a
  end.

End Np.

Declare Scope np_scope.
Delimit Scope np_scope with np.
Bind Scope np_scope with float64.
Infix "+" := Np.add : np_scope.
Infix "-" := Np.sub : np_scope.
Infix "*" := Np.mul : np_scope.
Infix "/" := Np.div : np_scope.
Notation "- x" := (Np.neg x) : np_scope.

(** ** [StationaryExponential] *)

Module StationaryExponential.

(** The attributes of the object: [H], [H0] and [Hmax]. *)
Record t : Type := mk {
  H : float64 -> float64 -> float64;
  H0 : float64;
  Hmax : float64
}.

(** [__init__(self, H)] *)
Definition init (H : float64 -> float64 -> float64) : t :=
  {| H := H; H0 := Fin 1; Hmax := H (Fin 0) (Fin 0) |}.

(** [function(self, z, dp)] *)
Definition function (self : t) (z dp : float64) : float64 :=
  ((Np.exp (H self z dp / H0 self) - Fin 1)
   / (Np.exp (Hmax self / H0 self) - Fin 1))%np.

(** The attribute writes [psi.H0 = v] and [psi.Hmax = v]. *)
Definition set_H0 (self : t) (v : float64) : t :=
  {| H := H self; H0 := v; Hmax := Hmax self |}.

Definition set_Hmax (self : t) (v : float64) : t :=
  {| H := H self; H0 := H0 self; Hmax := v |}.

End StationaryExponential.

(** ** Effects: console output and exceptions *)

Module Py.

(** One item of a [print] statement, and one [print] statement.  String
    literals are kept as the source writes them, escapes included. *)
Inductive item : Type :=
| Str (s : string)
| Flt (v : float64)
| Int (n : nat).

Definition event : Type := list item.

Inductive exn : Type :=
| NameError (name : string)
| ValueError (msg : string)
| ZeroDivisionError (msg : string).

(** How a call ends: it returns, it raises, or it is still running when
    the fuel given to an unbounded loop is used up. *)
Inductive result (A : Type) : Type :=
| Ok (a : A)
| Raise (e : exn)
| Running.

Arguments Ok {A} a.
Arguments Raise {A} e.
Arguments Running {A}.

(** A computation: what it printed, and how it ended. *)
Definition M (A : Type) : Type := (list event * result A)%type.

Definition ret {A} (a : A) : M A := ([], Ok a).

Definition bind {A B} (c : M A) (k : A -> M B) : M B :=
  match c with
  | (out, Ok a) => let (out', r) := k a in (out ++ out', r)
  | (out, Raise e) => (out, Raise e)
  | (out, Running) => (out, Running)
  end.

Definition print (e : event) : M unit := ([e], Ok tt).

Definition raise {A} (e : exn) : M A := ([], Raise e).

Definition output {A} (c : M A) : list event := fst c.
Definition outcome {A} (c : M A) : result A := snd c.

End Py.

Import Py.

Notation "x <- c ;; k" := (Py.bind c (fun x => k))
  (at level 61, c at next level, right associativity).
Notation "c ;;; k" := (Py.bind c (fun _ => k))
  (at level 61, right associativity).

(** ** NumPy arrays and the SciPy routines *)

Module Array.

(** [np.linspace(start, stop, num)]: [arange(0, num) * step + start] with
    the last entry overwritten by [stop]. *)
Definition linspace (start stop : float64) (num : nat) : list float64 :=
  match num with
  | O => []
  | S O => [start]
  | S div =>
      let step := ((stop - start) / Fin (INR div))%np in
      map (fun k => (Fin (INR k) * step + start)%np) (seq 0 div) ++ [stop]
  end.

(** [a[k]] for an index the caller keeps in range. *)
Definition getitem (a : list float64) (k : nat) : float64 := nth k a NaN.

(** [a[k] = v] for an index the caller keeps in range. *)
Fixpoint setitem (a : list float64) (k : nat) (v : float64) : list float64 :=
  match a, k with
  | [], _ => []
  | _ :: a', O => v :: a'
  | w :: a', S k' => w :: setitem a' k' v
  end.

Definition zeros (n : nat) : list float64 := repeat (Fin 0) n.

(** [np.amax(a)]; an empty array has no maximum. *)
Definition amax (a : list float64) : M float64 :=
  match a with
  | [] => Py.raise (ValueError "zero-size array to reduction operation maximum which has no identity")
  | v :: a' => Py.ret (fold_left Np.maximum a' v)
  end.

(** [d * (y[1:] + y[:-1]) / 2.0] with [d = diff(x)]. *)
Fixpoint trapezoids (y x : list float64) : list float64 :=
  match y, x with
  | y0 :: ((y1 :: _) as y'), x0 :: ((x1 :: _) as x') =>
      ((x1 - x0) * (y1 + y0) / Fin 2)%np :: trapezoids y' x'
  | _, _ => []
  end.

Fixpoint cumsum_from (acc : float64) (a : list float64) : list float64 :=
  match a with
  | [] => []
  | v :: a' => let acc' := (acc + v)%np in acc' :: cumsum_from acc' a'
  end.

Definition cumsum (a : list float64) : list float64 :=
  match a with
  | [] => []
  | v :: a' => v :: cumsum_from v a'
  end.

(** [scipy.integrate.cumtrapz(y, x)] *)
Definition cumtrapz (y x : list float64) : list float64 :=
  cumsum (trapezoids y x).

(** [a[-1]] of a non-empty array. *)
Definition last (a : list float64) : float64 := List.last a NaN.

End Array.

(** The SciPy routines the source calls and does not define:
    [dblquad(func, a, b, gfun, hfun)] returns the integral and an error
    estimate, [romb(y, dx)] the Romberg integral of samples, and
    [interp2d(x, y, z)] the interpolant that is then called at a point. *)
Class SciPy : Type := {
  dblquad : (float64 -> float64 -> float64) -> float64 -> float64 ->
            (float64 -> float64) -> (float64 -> float64) -> float64 * float64;
  romb : list float64 -> float64 -> float64;
  interp2d : list float64 -> list float64 -> list (list float64) ->
             float64 -> float64 -> float64
}.

(** ** The particle buffer *)

Module Particles.

Record t : Type := mk {
  x : list float64;
  xp : list float64;
  y : list float64;
  yp : list float64;
  z : list float64;
  dp : list float64;
  n_macroparticles : nat;
  psi : option StationaryExponential.t
}.

(** [particles.z = v], [particles.dp = v], [particles.psi = f] with [f] the
    bound method [function] of the object [o]. *)
Definition set_z (p : t) (v : list float64) : t :=
  mk (x p) (xp p) (y p) (yp p) v (dp p) (n_macroparticles p) (psi p).

Definition set_dp (p : t) (v : list float64) : t :=
  mk (x p) (xp p) (y p) (yp p) (z p) v (n_macroparticles p) (psi p).

Definition set_psi (p : t) (o : StationaryExponential.t) : t :=
  mk (x p) (xp p) (y p) (yp p) (z p) (dp p) (n_macroparticles p) (Some o).

End Particles.

(** ** [RFBucket] *)

Module RFBucket.

Module SE := StationaryExponential.

(** What [__init__] reads from its [rfsystem] argument. *)
Record rfsystem : Type := {
  rf_circumference : float64;
  rf_hamiltonian : float64 -> float64 -> float64;
  rf_separatrix : float64 -> float64;
  rf_z_extrema : list float64;
  rf_z_sep : float64 * float64;
  rf_p_sep : float64;
  rf_H0 : float64 -> float64
}.

(** The three methods [self._compute_std] can be bound to. *)
Inductive strategy : Type := Quad | Cumtrapz | Romberg.

Record t : Type := {
  sigma_z : float64;
  circumference : float64;
  hamiltonian : float64 -> float64 -> float64;
  separatrix : float64 -> float64;
  z_extrema : list float64;
  z_sep : float64 * float64;
  p_sep : float64;
  H0 : float64 -> float64;
  _compute_std : strategy
}.

(** [__init__(self, sigma_z, rfsystem)] *)
Definition init (sigma_z : float64) (rfsystem : rfsystem) : t :=
  {| sigma_z := sigma_z;
     circumference := rf_circumference rfsystem;
     hamiltonian := rf_hamiltonian rfsystem;
     separatrix := rf_separatrix rfsystem;
     z_extrema := rf_z_extrema rfsystem;
     z_sep := rf_z_sep rfsystem;
     p_sep := rf_p_sep rfsystem;
     H0 := rf_H0 rfsystem;
     _compute_std := Cumtrapz |}.

Section Methods.

Context {scipy : SciPy}.

Local Open Scope np_scope.

(** [x ** 2] *)
Definition square (x : float64) : float64 := x * x.

(** The integrals [Q] and [V] of [_compute_std_quad]. *)
Definition quad_integrals (psi : float64 -> float64 -> float64)
    (p_sep : float64 -> float64) (xmin xmax : float64)
    : float64 * float64 :=
  let '(Q, error) :=
    dblquad (fun y x => psi x y) xmin xmax
            (fun x => Fin 0) (fun x => p_sep x) in
  let '(V, error) :=
    dblquad (fun y x => square x * psi x y) xmin xmax
            (fun x => Fin 0) (fun x => p_sep x) in
  (Q, V).

Definition float_division_by_zero : exn :=
  ZeroDivisionError "float division by zero".

(** [V/Q] for the two Python floats [dblquad] returns: unlike NumPy,
    Python raises on a divisor that is zero. *)
Definition float_div (V Q : float64) : M float64 :=
  match Q with
  | Fin q =>
      if Req_dec_T q 0 then Py.raise float_division_by_zero
      else Py.ret (V / Q)
  | _ => Py.ret (V / Q)
  end.

(** [_compute_std_quad(self, psi, p_sep, xmin, xmax)] *)
Definition _compute_std_quad (psi : float64 -> float64 -> float64)
    (p_sep : float64 -> float64) (xmin xmax : float64) : M float64 :=
  let '(Q, V) := quad_integrals psi p_sep xmin xmax in
  r <- float_div V Q ;;
  Py.ret (Np.sqrt r).

(** One pass of [for x in x_arr] in [_compute_std_cumtrapz]. *)
Definition cumtrapz_slice (psi : float64 -> float64 -> float64)
    (p_sep : float64 -> float64) (QV : float64 * float64) (x : float64)
    : float64 * float64 :=
  let '(Q, V) := QV in
  let y := Array.linspace (Fin 0) (p_sep x) 257 in
  let z := map (psi x) y in
  let Q := Q + Array.last (Array.cumtrapz z y) in
  let z := map (fun p => square x * p) (map (psi x) y) in
  let V := V + Array.last (Array.cumtrapz z y) in
  (Q, V).

(** The sums [Q] and [V] of [_compute_std_cumtrapz] after [Q *= dx] and
    [V *= dx]. *)
Definition cumtrapz_integrals (psi : float64 -> float64 -> float64)
    (p_sep : float64 -> float64) (xmin xmax : float64)
    : float64 * float64 :=
  let x_arr := Array.linspace xmin xmax 257 in
  let dx := Array.getitem x_arr 1 - Array.getitem x_arr 0 in
  let '(Q, V) := fold_left (cumtrapz_slice psi p_sep) x_arr (Fin 0, Fin 0) in
  let Q := Q * dx in
  let V := V * dx in
  (Q, V).

(** [_compute_std_cumtrapz(self, psi, p_sep, xmin, xmax)] *)
Definition _compute_std_cumtrapz (psi : float64 -> float64 -> float64)
    (p_sep : float64 -> float64) (xmin xmax : float64) : M float64 :=
  let '(Q, V) := cumtrapz_integrals psi p_sep xmin xmax in
  Py.ret (Np.sqrt (V / Q)).

(** One pass of [for x in x_arr] in [_compute_std_romberg]. *)
Definition romberg_slice (psi : float64 -> float64 -> float64)
    (p_sep : float64 -> float64) (QV : float64 * float64) (x : float64)
    : float64 * float64 :=
  let '(Q, V) := QV in
  let y := Array.linspace (Fin 0) (p_sep x) 257 in
  let dy := Array.getitem y 1 - Array.getitem y 0 in
  let z := map (psi x) y in
  let Q := Q + romb z dy in
  let z := map (fun p => square x * p) (map (psi x) y) in
  let V := V + romb z dy in
  (Q, V).

(** The sums [Q] and [V] of [_compute_std_romberg] after [Q *= dx] and
    [V *= dx]. *)
Definition romberg_integrals (psi : float64 -> float64 -> float64)
    (p_sep : float64 -> float64) (xmin xmax : float64)
    : float64 * float64 :=
  let x_arr := Array.linspace xmin xmax 257 in
  let dx := Array.getitem x_arr 1 - Array.getitem x_arr 0 in
  let '(Q, V) := fold_left (romberg_slice psi p_sep) x_arr (Fin 0, Fin 0) in
  let Q := Q * dx in
  let V := V * dx in
  (Q, V).

(** [_compute_std_romberg(self, psi, p_sep, xmin, xmax)] *)
Definition _compute_std_romberg (psi : float64 -> float64 -> float64)
    (p_sep : float64 -> float64) (xmin xmax : float64) : M float64 :=
  let '(Q, V) := romberg_integrals psi p_sep xmin xmax in
  Py.ret (Np.sqrt (V / Q)).

(** The three methods by name. *)
Definition method (st : strategy) :
    (float64 -> float64 -> float64) -> (float64 -> float64) ->
    float64 -> float64 -> M float64 :=
  match st with
  | Quad => _compute_std_quad
  | Cumtrapz => _compute_std_cumtrapz
  | Romberg => _compute_std_romberg
  end.

(** The integrals each of them divides. *)
Definition integrals (st : strategy) :
    (float64 -> float64 -> float64) -> (float64 -> float64) ->
    float64 -> float64 -> float64 * float64 :=
  match st with
  | Quad => quad_integrals
  | Cumtrapz => cumtrapz_integrals
  | Romberg => romberg_integrals
  end.

(** The call [self._compute_std(psi, p_sep, xmin, xmax)]. *)
Definition call_compute_std (self : t) :
    (float64 -> float64 -> float64) -> (float64 -> float64) ->
    float64 -> float64 -> M float64 :=
  method (_compute_std self).

Definition too_long_warning : event :=
  [Str "\n*** WARNING! Bunch appears to be too long for bucket!\n"].

(** The three lines that follow each estimate in [_test_maximum_std]. *)
Definition report_maximum (sigma zS : float64) : M unit :=
  Py.print [Str "\n--> Maximum rms bunch length in bucket:"; Flt zS;
            Str " m.\n"] ;;;
  if Np.gt sigma (zS * Fin 0.95) then Py.print too_long_warning
  else Py.ret tt.

(** [_test_maximum_std(self, psi, sigma)].  The decorator [@profile] is the
    line profiler's, which calls the method unchanged.  The method returns
    nothing; the model returns the state it leaves [psi] in. *)
Definition _test_maximum_std (self : t) (psi : SE.t) (sigma : float64)
    : M SE.t :=
  let psi := SE.set_H0 psi (H0 self (circumference self)) in
  zS <- _compute_std_quad (SE.function psi) (separatrix self)
          (fst (z_sep self)) (snd (z_sep self)) ;;
  report_maximum sigma zS ;;;
  zS <- _compute_std_cumtrapz (SE.function psi) (separatrix self)
          (fst (z_sep self)) (snd (z_sep self)) ;;
  report_maximum sigma zS ;;;
  zS <- _compute_std_romberg (SE.function psi) (separatrix self)
          (fst (z_sep self)) (snd (z_sep self)) ;;
  report_maximum sigma zS ;;;
  Py.ret psi.

(** The variables of the [while] loop of [_set_target_std]; [z0] is not
    among them, it is never assigned again. *)
Record matcher : Type := {
  m_psi : SE.t;
  m_zH : float64;
  m_eps : float64;
  m_counter : nat
}.

Definition too_many_steps : list event :=
  [ [Str "\n*** WARNING: too many interation steps! There are several possible reasons for that:"];
    [Str "1. Is the Hamiltonian correct?"];
    [Str "2. Is the stationary distribution function convex around zero?"];
    [Str "3. Is the bunch too long to fit into the bucket?"];
    [Str "4. Is this algorithm not qualified?"];
    [Str "Aborting..."] ].

(** [sys.exit(-1)]: the module never imports [sys], so looking the name up
    raises [NameError] before [exit] is reached. *)
Definition sys_exit : M matcher :=
  Py.raise (NameError "sys").

(** The body of the [while] loop. *)
Definition iteration (self : t) (z0 : float64) (m : matcher) : M matcher :=
  zS <- call_compute_std self (SE.function (m_psi m)) (separatrix self)
          (fst (z_sep self)) (snd (z_sep self)) ;;
  let eps := zS - z0 in
  Py.print [Int (m_counter m); Flt (m_zH m); Flt zS; Flt eps] ;;;
  let zH := m_zH m - Fin 0.5 * eps in
  let psi := SE.set_H0 (m_psi m) (H0 self zH) in
  let counter := S (m_counter m) in
  if (100 <? counter)%nat then (too_many_steps, Ok tt) ;;; sys_exit
  else Py.ret {| m_psi := psi; m_zH := zH; m_eps := eps;
                 m_counter := counter |}.

(** [while abs(eps) > 1e-4: ...] run for at most [fuel] passes. *)
Fixpoint while_loop (fuel : nat) (self : t) (z0 : float64) (m : matcher)
    : M matcher :=
  if Np.gt (Np.abs (m_eps m)) (Fin 1e-4) then
    match fuel with
    | O => ([], Running)
    | S fuel' => m' <- iteration self z0 m ;; while_loop fuel' self z0 m'
    end
  else Py.ret m.

(** The assignments of [_set_target_std] between its first [print] and
    the loop: [counter = 0], [z0 = sigma], [eps = 1], [zH = z0] and
    [psi.H0 = self.H0(zH)]. *)
Definition start (self : t) (psi : SE.t) (sigma : float64) : matcher :=
  let counter := O in
  let z0 := sigma in
  let eps := Fin 1 in
  let zH := z0 in
  let psi := SE.set_H0 psi (H0 self zH) in
  {| m_psi := psi; m_zH := zH; m_eps := eps; m_counter := counter |}.

(** [_set_target_std] from its second statement on: the iterative solve.
    It returns the bound method [psi.function]; the model returns the
    object it is bound to.  The loop leaves within 101 passes, so the fuel
    is never used up. *)
Definition solve (self : t) (psi : SE.t) (sigma : float64) : M SE.t :=
  Hmax <- Array.amax (map (fun z => hamiltonian self z (Fin 0))
                          (z_extrema self)) ;;
  let psi := SE.set_Hmax psi Hmax in
  Py.print [Str "Iterative evaluation of bunch length..."] ;;;
  m <- while_loop 101 self sigma (start self psi sigma) ;;
  Py.print [Str "*** Converged!\n"] ;;;
  Py.ret (m_psi m).

(** [_set_target_std(self, psi, sigma)] *)
Definition _set_target_std (self : t) (psi : SE.t) (sigma : float64)
    : M SE.t :=
  psi <- _test_maximum_std self psi sigma ;;
  solve self psi sigma.

(** The global [np.random] generator: the stream its seed fixes, and how
    many draws were taken from it. *)
Record RandomState : Type := {
  stream : nat -> R;
  position : nat
}.

(** [np.random.random()] *)
Definition random (g : RandomState) : float64 * RandomState :=
  (Fin (stream g (position g)),
   {| stream := stream g; position := S (position g) |}).

(** The local variables of the rejection loop of [generate], the generator
    and the particle buffer the method was handed. *)
Record sampler : Type := {
  s_x : list float64;
  s_y : list float64;
  s_i : nat;
  s_j : nat;
  s_random : RandomState;
  s_particles : Particles.t
}.

(** The body of [while j < particles.n_macroparticles].  The guard keeps
    [j] below the length of [x] and [y], which stay [n_macroparticles]
    long. *)
Definition rejection (xmin lx ymin ly : float64)
    (psi_interp : float64 -> float64 -> float64) (s : sampler) : sampler :=
  let '(r, g) := random (s_random s) in
  let u := xmin + lx * r in
  let '(r, g) := random g in
  let v := ymin + ly * r in
  let '(s', g) := random g in
  let i := S (s_i s) in
  if Np.lt s' (psi_interp u v) then
    {| s_x := Array.setitem (s_x s) (s_j s) u;
       s_y := Array.setitem (s_y s) (s_j s) v;
       s_i := i; s_j := S (s_j s);
       s_random := g; s_particles := s_particles s |}
  else
    {| s_x := s_x s; s_y := s_y s; s_i := i; s_j := s_j s;
       s_random := g; s_particles := s_particles s |}.

(** The loop run for at most [fuel] passes. *)
Fixpoint rejection_loop (fuel : nat) (xmin lx ymin ly : float64)
    (psi_interp : float64 -> float64 -> float64) (s : sampler) : sampler :=
  match fuel with
  | O => s
  | S fuel' =>
      if (s_j s <? Particles.n_macroparticles (s_particles s))%nat then
        rejection_loop fuel' xmin lx ymin ly psi_interp
          (rejection xmin lx ymin ly psi_interp s)
      else s
  end.

(** The values [generate] computes between the matching and the loop. *)
Definition xmin (self : t) : float64 := fst (z_sep self).
Definition xmax (self : t) : float64 := snd (z_sep self).
Definition ymin (self : t) : float64 := - p_sep self.
Definition ymax (self : t) : float64 := p_sep self.
Definition lx (self : t) : float64 := xmax self - xmin self.
Definition ly (self : t) : float64 := ymax self - ymin self.

(** [psi_interp = interp2d(xx, yy, psi(XX, YY))] on the 129 x 129 grid. *)
Definition psi_interp (self : t) (psi : SE.t) : float64 -> float64 -> float64 :=
  let nx := 128%nat in
  let ny := 128%nat in
  let xx := Array.linspace (xmin self) (xmax self) (nx + 1) in
  let yy := Array.linspace (ymin self) (ymax self) (ny + 1) in
  let HH := map (fun yv => map (fun xv => SE.function psi xv yv) xx) yy in
  interp2d xx yy HH.

(** [generate(self, particles)]: what was printed, how the call ended
    within [fuel] passes of the rejection loop, and the particle buffer as
    it is at that point. *)
Definition generate (self : t) (particles : Particles.t) (g : RandomState)
    (fuel : nat) : M unit * Particles.t :=
  match _set_target_std self (SE.init (hamiltonian self)) (sigma_z self) with
  | (out, Ok psi) =>
      let x := Array.zeros (Particles.n_macroparticles particles) in
      let y := Array.zeros (Particles.n_macroparticles particles) in
      let s :=
        rejection_loop fuel (xmin self) (lx self) (ymin self) (ly self)
          (psi_interp self psi)
          {| s_x := x; s_y := y; s_i := O; s_j := O;
             s_random := g; s_particles := particles |} in
      if (s_j s <? Particles.n_macroparticles (s_particles s))%nat then
        ((out, Running), s_particles s)
      else
        ((out, Ok tt),
         Particles.set_psi
           (Particles.set_dp (Particles.set_z (s_particles s) (s_x s))
                             (s_y s))
           psi)
  | (out, Raise e) => ((out, Raise e), particles)
  | (out, Running) => ((out, Running), particles)
  end.

End Methods.

End RFBucket.

(** ** Grids between finite ends *)

Module Grid.

(** The entries of [np.linspace(a, b, div + 1)] for finite [a] and [b]. *)
Definition points (a b : R) (div : nat) : list R :=
  (map (fun k => INR k * ((b - a) / INR div) + a) (seq 0 div) ++ [b])%list.

(** The sum of [w * x * x] over a list, on top of [v]. *)
Definition weighted_squares (w : R) (xs : list R) (v : R) : R :=
  fold_left (fun v x => v + x * x * w) xs v.

End Grid.

(** ** The course of the matching loop *)

Module Matching.

Import RFBucket.

Section Course.

Context {scipy : SciPy}.

Local Open Scope np_scope.

(** The estimate the loop body computes when the object is in state
    [psi]. *)
Definition estimate (self : t) (psi : SE.t) : float64 :=
  match Py.outcome (call_compute_std self (SE.function psi) (separatrix self)
                      (fst (z_sep self)) (snd (z_sep self))) with
  | Ok zS => zS
  | _ => NaN
  end.

(** The call of the loop body returns its estimate.  The trapezoid and
    the Romberg rule always do; the quadrature raises when its [Q] is 0. *)
Definition estimated (self : t) (psi : SE.t) : Prop :=
  call_compute_std self (SE.function psi) (separatrix self)
    (fst (z_sep self)) (snd (z_sep self))
  = Py.ret (estimate self psi).

(** The normalisation [Q] of the first estimate of the pre-check. *)
Definition precheck_Q (self : t) (psi : SE.t) : float64 :=
  fst (quad_integrals
         (SE.function (SE.set_H0 psi (H0 self (circumference self))))
         (separatrix self) (fst (z_sep self)) (snd (z_sep self))).

(** The variables after one more pass of the loop body. *)
Definition next (self : t) (z0 : float64) (m : matcher) : matcher :=
  let zS := estimate self (m_psi m) in
  let eps := zS - z0 in
  let zH := m_zH m - Fin 0.5 * eps in
  {| m_psi := SE.set_H0 (m_psi m) (H0 self zH); m_zH := zH; m_eps := eps;
     m_counter := S (m_counter m) |}.

(** The variables after [k] passes. *)
Fixpoint after (k : nat) (self : t) (z0 : float64) (m : matcher) : matcher :=
  match k with
  | O => m
  | S k' => next self z0 (after k' self z0 m)
  end.

(** The test of the [while] statement. *)
Definition guard (m : matcher) : bool :=
  Np.gt (Np.abs (m_eps m)) (Fin 1e-4).

(** What the three estimates of the pre-check print. *)
Definition report (sigma zS : float64) : list event :=
  Py.output (report_maximum sigma zS).

End Course.

End Matching.

(** ** The course of the rejection loop *)

Module Sampling.

Import RFBucket.

Section Proposals.

Context {scipy : SciPy}.

Local Open Scope np_scope.

(** One pass draws a point [(u, v)] and a level [s]. *)
Record proposal : Type := {
  p_u : float64;
  p_v : float64;
  p_s : float64
}.

(** The draws of pass [k] (counted from 0) when the loop starts with the
    generator in state [g]. *)
Definition nth_proposal (self : t) (g : RandomState) (k : nat) : proposal :=
  {| p_u := xmin self + lx self * Fin (stream g (position g + 3 * k));
     p_v := ymin self + ly self * Fin (stream g (position g + 3 * k + 1));
     p_s := Fin (stream g (position g + 3 * k + 2)) |}.

(** The test [s < psi_interp(u, v)]. *)
Definition accepted (interp : float64 -> float64 -> float64) (p : proposal)
    : bool :=
  Np.lt (p_s p) (interp (p_u p) (p_v p)).

(** The proposals accepted among the first [i]. *)
Definition accepted_among (self : t)
    (interp : float64 -> float64 -> float64) (g : RandomState) (i : nat)
    : list proposal :=
  filter (accepted interp) (map (nth_proposal self g) (seq 0 i)).

(** The sampling as the specification words it, for the box
    [a, b] x [-p, p]: proposal [k] spreads two draws of the generator over
    the sides of the box and keeps a third as the level [s]. *)
Definition box_proposal (a b p : R) (g : RandomState) (k : nat) : proposal :=
  {| p_u := Fin (a + (b - a) * stream g (position g + 3 * k));
     p_v := Fin (- p + (p - - p) * stream g (position g + 3 * k + 1));
     p_s := Fin (stream g (position g + 3 * k + 2)) |}.

(** The interpolant of the density [psi] on the 129 x 129 grid of that
    box. *)
Definition box_interp (a b p : R) (psi : SE.t)
    : float64 -> float64 -> float64 :=
  let xx := Array.linspace (Fin a) (Fin b) 129 in
  let yy := Array.linspace (Fin (- p)) (Fin p) 129 in
  interp2d xx yy (map (fun yv => map (fun xv => SE.function psi xv yv) xx) yy).

(** The variables on entry to the loop. *)
Definition initial (particles : Particles.t) (g : RandomState) : sampler :=
  {| s_x := Array.zeros (Particles.n_macroparticles particles);
     s_y := Array.zeros (Particles.n_macroparticles particles);
     s_i := O; s_j := O; s_random := g; s_particles := particles |}.

(** What the variables are after [s_i s] passes that started from
    [initial particles g]. *)
Definition consistent (self : t) (interp : float64 -> float64 -> float64)
    (particles : Particles.t) (g : RandomState) (s : sampler) : Prop :=
  let n := Particles.n_macroparticles particles in
  let acc := accepted_among self interp g (s_i s) in
  s_particles s = particles
  /\ stream (s_random s) = stream g
  /\ position (s_random s) = (position g + 3 * s_i s)%nat
  /\ s_j s = List.length acc
  /\ (s_j s <= n)%nat
  /\ s_x s = (map p_u acc ++ Array.zeros (n - s_j s))%list
  /\ s_y s = (map p_v acc ++ Array.zeros (n - s_j s))%list.

(** Two runs on buffers that ask for as many macroparticles, with
    generators whose draws to come are the same. *)
Definition alike (s s' : sampler) : Prop :=
  s_x s = s_x s' /\ s_y s = s_y s' /\ s_i s = s_i s' /\ s_j s = s_j s'
  /\ Particles.n_macroparticles (s_particles s)
     = Particles.n_macroparticles (s_particles s')
  /\ forall k, stream (s_random s) (position (s_random s) + k)
               = stream (s_random s') (position (s_random s') + k).

(** A finite number between two bounds. *)
Definition between (lo hi : R) (a : float64) : Prop :=
  match a with
  | Fin r => (lo <= r <= hi)%R
  | _ => False
  end.

End Proposals.

End Sampling.

(** ** Example inputs *)

Module Example.

Import RFBucket.

Local Open Scope np_scope.

(** Coarse stand-ins for the SciPy routines: a one-point rule, the first
    entry of the Romberg table, and the value at the first grid node.  On
    data that is the same at every node, as in the examples that go
    through the sampling loop, the last is what every interpolant
    returns; and the one-point rule has [Q = 0] where the separatrix
    function is 0, as the quadrature has. *)
#[local] Instance coarse : SciPy := {|
  dblquad func a b gfun hfun :=
    ((b - a) * (hfun a - gfun a) * func (gfun a) a, Fin 0);
  romb y dx :=
    (hd NaN y + Array.last y) / Fin 2 * (Fin (INR (List.length y - 1)) * dx);
  interp2d x y z u v := hd NaN (hd [] z)
|}.

(** A flat Hamiltonian on the box [-1, 1] x [-1, 1]: the density is
    uniform whatever the scale. *)
Definition flat : rfsystem :=
  {| rf_circumference := Fin 2;
     rf_hamiltonian := fun z dp => Fin 1;
     rf_separatrix := fun z => Fin 1;
     rf_z_extrema := [Fin 0];
     rf_z_sep := (Fin (-1), Fin 1);
     rf_p_sep := Fin 1;
     rf_H0 := fun z => Fin 1 |}.

(** The same with a separatrix function that is 0 everywhere. *)
Definition closed : rfsystem :=
  {| rf_circumference := Fin 2;
     rf_hamiltonian := fun z dp => Fin 1;
     rf_separatrix := fun z => Fin 0;
     rf_z_extrema := [Fin 0];
     rf_z_sep := (Fin (-1), Fin 1);
     rf_p_sep := Fin 1;
     rf_H0 := fun z => Fin 1 |}.

(** A harmonic well centred at [z = 1]: the Hamiltonian is 1 at its
    extremum [(1, 0)] and 0 on the circle of radius 1 around it, which
    passes through the origin. *)
Definition shifted : rfsystem :=
  {| rf_circumference := Fin 2;
     rf_hamiltonian :=
       fun z dp => Fin 1 - (z - Fin 1) * (z - Fin 1) - dp * dp;
     rf_separatrix :=
       fun z => Np.sqrt (Fin 1 - (z - Fin 1) * (z - Fin 1));
     rf_z_extrema := [Fin 1];
     rf_z_sep := (Fin 0, Fin 2);
     rf_p_sep := Fin 1;
     rf_H0 := fun z => Fin 1 |}.


(** The objects the loop passes through with a flat Hamiltonian. *)
Definition is_flat (psi : SE.t) : Prop :=
  (forall z dp, SE.H psi z dp = Fin 1)
  /\ SE.H0 psi = Fin 1 /\ SE.Hmax psi = Fin 1.

(** The RMS length of the uniform density on the 257-point grid. *)
Definition flat_std : R := sqrt (43 / 128).

(** An empty particle buffer that asks for [n] macroparticles. *)
Definition buffer (n : nat) : Particles.t :=
  Particles.mk [] [] [] [] [] [] n None.

(** A stream of draws in [0, 1): 1/2, 1/3, 1/4, ... *)
Definition draws : RandomState :=
  {| stream := fun k => (/ (INR k + 2))%R; position := O |}.

(** The same draws to come, from a generator that is one draw into the
    stream 1, 1/2, 1/3, ... *)
Definition draws' : RandomState :=
  {| stream := fun k => (/ (INR k + 1))%R; position := 1 |}.

End Example.

(** ** Trapezoid sums over the reals *)

Module Quadrature.

(** The composite trapezoid sum of [g] over the abscissae [ys]. *)
Fixpoint trapz (g : R -> R) (ys : list R) : R :=
  match ys with
  | y0 :: ((y1 :: _) as tl) => (y1 - y0) * (g y1 + g y0) / 2 + trapz g tl
  | _ => 0
  end.

(** The sum of a list of reals. *)
Definition total (l : list R) : R := fold_right Rplus 0 l.

(** The sums one slice adds to [Q] and to [V] when the density is [f] and
    the separatrix function is [s] on finite arguments. *)
Definition slice_Q (f : R -> R -> R) (s : R -> R) (x : R) : R :=
  trapz (f x) (Grid.points 0 (s x) 256).

Definition slice_V (f : R -> R -> R) (s : R -> R) (x : R) : R :=
  trapz (fun y => x * x * f x y) (Grid.points 0 (s x) 256).

(** [Q] and [V] before the final division, between finite ends. *)
Definition Q (f : R -> R -> R) (s : R -> R) (a b : R) : R :=
  total (map (slice_Q f s) (Grid.points a b 256)) * ((b - a) / INR 256).

Definition V (f : R -> R -> R) (s : R -> R) (a b : R) : R :=
  total (map (slice_V f s) (Grid.points a b 256)) * ((b - a) / INR 256).

End Quadrature.

(** ** Vectors of draws and the other attributes of the buffer *)

Module Draws.

Import RFBucket.

(** [rand(n)] and [randn(n)]: the next [n] entries of the stream of the
    generator, and the generator past them.  For [np.random.rand] the
    stream is the one [np.random.random] reads; for the [randn] of a
    [RandomState] it is the stream of normal deviates its seed fixes. *)
Definition take (g : RandomState) (n : nat) : list float64 * RandomState :=
  (map (fun k => Fin (stream g (position g + k))) (seq 0 n),
   {| stream := stream g; position := position g + n |}).

(** [c * a] and [c + a * d] for an array [a]. *)
Definition scale (c : float64) (a : list float64) : list float64 :=
  map (fun v => (c * v)%np) a.

Definition affine (c d : float64) (a : list float64) : list float64 :=
  map (fun v => (c + v * d)%np) a.

End Draws.

Module Beam.

Import Particles.

(** [beam.x = v], [beam.xp = v], [beam.y = v] and [beam.yp = v]. *)
Definition set_x (p : t) (v : list float64) : t :=
  mk v (xp p) (y p) (yp p) (z p) (dp p) (n_macroparticles p) (psi p).

Definition set_xp (p : t) (v : list float64) : t :=
  mk (x p) v (y p) (yp p) (z p) (dp p) (n_macroparticles p) (psi p).

Definition set_y (p : t) (v : list float64) : t :=
  mk (x p) (xp p) v (yp p) (z p) (dp p) (n_macroparticles p) (psi p).

Definition set_yp (p : t) (v : list float64) : t :=
  mk (x p) (xp p) (y p) v (z p) (dp p) (n_macroparticles p) (psi p).

End Beam.

(** ** [UniformX], [UniformY] and [UniformZ] *)

Module UniformX.

Import RFBucket.

Record t : Type := { x_min : float64; x_max : float64 }.

(** [__init__(self, x_min, x_max)] *)
Definition init (x_min x_max : float64) : t :=
  {| x_min := x_min; x_max := x_max |}.

(** [generate(self, particles)], with the global generator before and
    after. *)
Definition generate (self : t) (particles : Particles.t) (g : RandomState)
    : Particles.t * RandomState :=
  let dx := (x_max self - x_min self)%np in
  let '(r, g) := Draws.take g (Particles.n_macroparticles particles) in
  let particles := Beam.set_x particles (Draws.affine (x_min self) dx r) in
  let particles :=
    Beam.set_xp particles (Draws.scale (Fin 0) (Particles.x particles)) in
  (particles, g).

End UniformX.

Module UniformY.

Import RFBucket.

Record t : Type := { y_min : float64; y_max : float64 }.

(** [__init__(self, y_min, y_max)] *)
Definition init (y_min y_max : float64) : t :=
  {| y_min := y_min; y_max := y_max |}.

(** [generate(self, particles)] *)
Definition generate (self : t) (particles : Particles.t) (g : RandomState)
    : Particles.t * RandomState :=
  let dy := (y_max self - y_min self)%np in
  let '(r, g) := Draws.take g (Particles.n_macroparticles particles) in
  let particles := Beam.set_y particles (Draws.affine (y_min self) dy r) in
  let particles :=
    Beam.set_yp particles (Draws.scale (Fin 0) (Particles.y particles)) in
  (particles, g).

End UniformY.

Module UniformZ.

Import RFBucket.

Record t : Type := { z_min : float64; z_max : float64 }.

(** [__init__(self, z_min, z_max)] *)
Definition init (z_min z_max : float64) : t :=
  {| z_min := z_min; z_max := z_max |}.

(** [generate(self, particles)] *)
Definition generate (self : t) (particles : Particles.t) (g : RandomState)
    : Particles.t * RandomState :=
  let dz := (z_max self - z_min self)%np in
  let '(r, g) := Draws.take g (Particles.n_macroparticles particles) in
  let particles :=
    Particles.set_z particles (Draws.affine (z_min self) dz r) in
  let particles :=
    Particles.set_dp particles (Draws.scale (Fin 0) (Particles.z particles)) in
  (particles, g).

End UniformZ.

(** ** [GaussianX], [GaussianY] and [GaussianZ] *)

Module GaussianX.

Import RFBucket.

Record t : Type := {
  sigma_x : float64;
  sigma_xp : float64;
  random_state : RandomState
}.

(** [__init__(self, sigma_x, sigma_xp, generator_seed)]; [deviates] is the
    stream of normal deviates that [RandomState.seed(generator_seed)]
    fixes. *)
Definition init (sigma_x sigma_xp : float64) (deviates : nat -> R) : t :=
  {| sigma_x := sigma_x; sigma_xp := sigma_xp;
     random_state := {| stream := deviates; position := O |} |}.

(** [from_optics(cls, alpha_x, beta_x, epsn_x, betagamma, generator_seed)],
    with the scalars as NumPy floats. *)
Definition from_optics (alpha_x beta_x epsn_x betagamma : float64)
    (deviates : nat -> R) : t :=
  let sigma_x := Np.sqrt (beta_x * epsn_x * Fin 1e-6 / betagamma)%np in
  let sigma_xp := (sigma_x / beta_x)%np in
  init sigma_x sigma_xp deviates.

(** [generate(self, beam)]: the object with its generator moved on, and
    the buffer. *)
Definition generate (self : t) (beam : Particles.t) : t * Particles.t :=
  let '(d, rs) :=
    Draws.take (random_state self) (Particles.n_macroparticles beam) in
  let beam := Beam.set_x beam (Draws.scale (sigma_x self) d) in
  let '(d, rs) := Draws.take rs (Particles.n_macroparticles beam) in
  let beam := Beam.set_xp beam (Draws.scale (sigma_xp self) d) in
  ({| sigma_x := sigma_x self; sigma_xp := sigma_xp self;
      random_state := rs |}, beam).

End GaussianX.

Module GaussianY.

Import RFBucket.

Record t : Type := {
  sigma_y : float64;
  sigma_yp : float64;
  random_state : RandomState
}.

(** [__init__(self, sigma_y, sigma_yp, generator_seed)] *)
Definition init (sigma_y sigma_yp : float64) (deviates : nat -> R) : t :=
  {| sigma_y := sigma_y; sigma_yp := sigma_yp;
     random_state := {| stream := deviates; position := O |} |}.

(** [from_optics(cls, alpha_y, beta_y, epsn_y, betagamma, generator_seed)] *)
Definition from_optics (alpha_y beta_y epsn_y betagamma : float64)
    (deviates : nat -> R) : t :=
  let sigma_y := Np.sqrt (beta_y * epsn_y * Fin 1e-6 / betagamma)%np in
  let sigma_yp := (sigma_y / beta_y)%np in
  init sigma_y sigma_yp deviates.

(** [generate(self, beam)] *)
Definition generate (self : t) (beam : Particles.t) : t * Particles.t :=
  let '(d, rs) :=
    Draws.take (random_state self) (Particles.n_macroparticles beam) in
  let beam := Beam.set_y beam (Draws.scale (sigma_y self) d) in
  let '(d, rs) := Draws.take rs (Particles.n_macroparticles beam) in
  let beam := Beam.set_yp beam (Draws.scale (sigma_yp self) d) in
  ({| sigma_y := sigma_y self; sigma_yp := sigma_yp self;
      random_state := rs |}, beam).

End GaussianY.

Module GaussianZ.

Import RFBucket.

(** [is_accepted] is [None] or a callable on [(z, dp, beam)]. *)
Record t : Type := {
  sigma_z : float64;
  sigma_dp : float64;
  is_accepted : option (float64 -> float64 -> Particles.t -> bool);
  random_state : RandomState
}.

(** [__init__(self, sigma_z, sigma_dp, is_accepted, generator_seed)] *)
Definition init (sigma_z sigma_dp : float64)
    (is_accepted : option (float64 -> float64 -> Particles.t -> bool))
    (deviates : nat -> R) : t :=
  {| sigma_z := sigma_z; sigma_dp := sigma_dp; is_accepted := is_accepted;
     random_state := {| stream := deviates; position := O |} |}.

Section Constants.

(** [scipy.constants.e], the elementary charge. *)
Variable e : float64.

(** [from_optics(cls, beta_z, epsn_z, p0, is_accepted, generator_seed)] *)
Definition from_optics (beta_z epsn_z p0 : float64)
    (is_accepted : option (float64 -> float64 -> Particles.t -> bool))
    (deviates : nat -> R) : t :=
  let sigma_z :=
    Np.sqrt (beta_z * epsn_z / (Fin 4 * Fin PI) * e / p0)%np in
  let sigma_dp := (sigma_z / beta_z)%np in
  init sigma_z sigma_dp is_accepted deviates.

End Constants.

(** The variables a call leaves behind: how it ended, the buffer and the
    generator of the object. *)
Record run : Type := {
  ended : result unit;
  beam : Particles.t;
  generator : RandomState
}.

(** [a[i] = v] for an array [v] on the right: NumPy stores the entry of an
    array of size 1, and raises [ValueError] for one of any other size. *)
Definition setitem_array (a : list float64) (i : nat) (v : list float64)
    : option (list float64) :=
  match v with
  | [w] => Some (Array.setitem a i w)
  | _ => None
  end.

Definition sequence_error : exn :=
  ValueError "setting an array element with a sequence.".

(** The [while] loop of [_redistribute] for the index [i], run for at most
    [fuel] passes. *)
Fixpoint resample (fuel : nat) (sigma_z sigma_dp : float64)
    (accept : float64 -> float64 -> Particles.t -> bool) (n i : nat)
    (beam : Particles.t) (rs : RandomState) : run :=
  if accept (Array.getitem (Particles.z beam) i)
            (Array.getitem (Particles.dp beam) i) beam
  then {| ended := Ok tt; beam := beam; generator := rs |}
  else
    match fuel with
    | O => {| ended := Running; beam := beam; generator := rs |}
    | S fuel' =>
        let '(d, rs) := Draws.take rs n in
        match setitem_array (Particles.z beam) i (Draws.scale sigma_z d) with
        | None =>
            {| ended := Raise sequence_error; beam := beam; generator := rs |}
        | Some z =>
            let beam := Particles.set_z beam z in
            let '(d, rs) := Draws.take rs n in
            match setitem_array (Particles.dp beam) i
                    (Draws.scale sigma_dp d) with
            | None =>
                {| ended := Raise sequence_error; beam := beam;
                   generator := rs |}
            | Some dp =>
                resample fuel' sigma_z sigma_dp accept n i
                  (Particles.set_dp beam dp) rs
            end
        end
    end.

(** [for i in xrange(n)] over the indices still to visit. *)
Fixpoint redistribute_from (fuel : nat) (sigma_z sigma_dp : float64)
    (accept : float64 -> float64 -> Particles.t -> bool) (n : nat)
    (indices : list nat) (beam : Particles.t) (rs : RandomState) : run :=
  match indices with
  | [] => {| ended := Ok tt; beam := beam; generator := rs |}
  | i :: indices' =>
      let r := resample fuel sigma_z sigma_dp accept n i beam rs in
      match ended r with
      | Ok _ =>
          redistribute_from fuel sigma_z sigma_dp accept n indices'
            (GaussianZ.beam r) (generator r)
      | _ => r
      end
  end.

(** The test of the [while] statement of [_redistribute], before its
    [not]. *)
Definition passes (accept : float64 -> float64 -> Particles.t -> bool)
    (beam : Particles.t) (i : nat) : bool :=
  accept (Array.getitem (Particles.z beam) i)
         (Array.getitem (Particles.dp beam) i) beam.

(** The buffer after the two assignments that open [generate]. *)
Definition drawn (self : t) (beam : Particles.t) : Particles.t :=
  let n := Particles.n_macroparticles beam in
  let '(d1, rs) := Draws.take (random_state self) n in
  let '(d2, rs) := Draws.take rs n in
  Particles.set_dp (Particles.set_z beam (Draws.scale (sigma_z self) d1))
                   (Draws.scale (sigma_dp self) d2).

(** [_redistribute(self, beam)], called with [is_accepted] set. *)
Definition _redistribute (fuel : nat) (self : t)
    (accept : float64 -> float64 -> Particles.t -> bool)
    (beam : Particles.t) : run :=
  let n := Particles.n_macroparticles beam in
  redistribute_from fuel (sigma_z self) (sigma_dp self) accept n (seq 0 n)
    beam (random_state self).

(** [generate(self, beam)] *)
Definition generate (fuel : nat) (self : t) (beam : Particles.t) : run :=
  let '(d, rs) :=
    Draws.take (random_state self) (Particles.n_macroparticles beam) in
  let beam := Particles.set_z beam (Draws.scale (sigma_z self) d) in
  let '(d, rs) := Draws.take rs (Particles.n_macroparticles beam) in
  let beam := Particles.set_dp beam (Draws.scale (sigma_dp self) d) in
  let self :=
    {| sigma_z := sigma_z self; sigma_dp := sigma_dp self;
       is_accepted := is_accepted self; random_state := rs |} in
  match is_accepted self with
  | Some accept => _redistribute fuel self accept beam
  | None => {| ended := Ok tt; beam := beam; generator := rs |}
  end.

End GaussianZ.

(** ** More example inputs *)

Module Samples.

Import RFBucket.

Local Open Scope np_scope.

(** The flat Hamiltonian with no extremum listed. *)
Definition no_extrema : rfsystem :=
  {| rf_circumference := Fin 2;
     rf_hamiltonian := fun z dp => Fin 1;
     rf_separatrix := fun z => Fin 1;
     rf_z_extrema := [];
     rf_z_sep := (Fin (-1), Fin 1);
     rf_p_sep := Fin 1;
     rf_H0 := fun z => Fin 1 |}.

(** The flat Hamiltonian with a scale [H0(z) = z * z]: a short target
    gives a scale so small that [exp(Hmax / H0)] overflows. *)
Definition stiff : rfsystem :=
  {| rf_circumference := Fin 2;
     rf_hamiltonian := fun z dp => Fin 1;
     rf_separatrix := fun z => Fin 1;
     rf_z_extrema := [Fin 0];
     rf_z_sep := (Fin (-1), Fin 1);
     rf_p_sep := Fin 1;
     rf_H0 := fun z => z * z |}.

(** A step in the Hamiltonian beyond the box: -1 on the box
    [-1, 1] x [-1, 1] and 1 at the extremum listed, [z = 3].  The density
    is then the same negative number all over the box. *)
Definition inverted : rfsystem :=
  {| rf_circumference := Fin 2;
     rf_hamiltonian :=
       fun z dp => if Np.lt (Fin 2) z then Fin 1 else Fin (-1);
     rf_separatrix := fun z => Fin 1;
     rf_z_extrema := [Fin 3];
     rf_z_sep := (Fin (-1), Fin 1);
     rf_p_sep := Fin 1;
     rf_H0 := fun z => Fin 1 |}.

(** The objects the loop passes through with that Hamiltonian, and their
    density on the box. *)
Definition is_inverted (psi : SE.t) : Prop :=
  SE.H psi = rf_hamiltonian inverted
  /\ SE.H0 psi = Fin 1 /\ SE.Hmax psi = Fin 1.

Definition depth : R := (exp (-1 / 1) - 1) / (exp (1 / 1) - 1).

(** A buffer that was filled before and asks for [n] macroparticles. *)
Definition used (n : nat) : Particles.t :=
  Particles.mk [Fin 1] [Fin 2] [] [] [Fin 3; Fin 4; Fin 5] [Fin 6] n None.

(** Acceptance tests for [GaussianZ]: every finite [z], and none. *)
Definition finite (z dp : float64) (beam : Particles.t) : bool :=
  match z with
  | Fin _ => true
  | _ => false
  end.

Definition none (z dp : float64) (beam : Particles.t) : bool := false.

(** A stream of deviates: 0, 1, 2, ... *)
Definition ramp (k : nat) : R := INR k.

(** A test on [z] alone, and a stream of deviates whose first fails it:
    2, 0, 0, ... *)
Definition below_one (z dp : float64) (beam : Particles.t) : bool :=
  Np.lt z (Fin 1).

Definition steps (k : nat) : R :=
  match k with
  | O => 2
  | S _ => 0
  end.

End Samples.

(** * Properties *)

(** ** Arithmetic on finite values *)

Module NpFacts.

Lemma div_fin (x y : R) : y <> 0 -> Np.div (Fin x) (Fin y) = Fin (x / y).
Proof.
  intros Hy. unfold Np.div. destruct (Req_dec_T y 0) as [E | _].
  - contradiction.
  - reflexivity.
Qed.

Lemma div_zero (x : R) : Np.div (Fin x) (Fin 0) = Np.signed_inf x.
Proof.
  unfold Np.div. destruct (Req_dec_T 0 0) as [_ | N].
  - reflexivity.
  - exfalso. apply N. reflexivity.
Qed.

Lemma signed_inf_zero : Np.signed_inf 0 = NaN.
Proof.
  unfold Np.signed_inf. destruct (Req_dec_T 0 0) as [_ | N].
  - reflexivity.
  - exfalso. apply N. reflexivity.
Qed.

Lemma sub_fin (x y : R) : Np.sub (Fin x) (Fin y) = Fin (x - y).
Proof. reflexivity. Qed.

Lemma sqrt_fin (x : R) : 0 <= x -> Np.sqrt (Fin x) = Fin (sqrt x).
Proof.
  intros Hx. unfold Np.sqrt. destruct (Rlt_dec x 0) as [L | _].
  - lra.
  - reflexivity.
Qed.

Lemma lt_fin (x y : R) : Np.lt (Fin x) (Fin y) = true <-> x < y.
Proof.
  unfold Np.lt. destruct (Rlt_dec x y) as [L | N]; split; intros H0.
  - exact L.
  - reflexivity.
  - discriminate H0.
  - contradiction.
Qed.

Lemma lt_fin_false (x y : R) : Np.lt (Fin x) (Fin y) = false <-> y <= x.
Proof.
  unfold Np.lt. destruct (Rlt_dec x y) as [L | N]; split; intros H0.
  - discriminate H0.
  - lra.
  - lra.
  - reflexivity.
Qed.

Lemma exp_gt_1 (x : R) : 0 < x -> 1 < exp x.
Proof.
  intros Hx. rewrite <- exp_0. apply exp_increasing. exact Hx.
Qed.

Lemma exp_max_bounds : 709 < Np.exp_max < 710.
Proof. unfold Np.exp_max. lra. Qed.

(** Below the overflow threshold [np.exp] is the exponential. *)
Lemma exp_fin (x : R) : x <= Np.exp_max -> Np.exp (Fin x) = Fin (exp x).
Proof.
  intros Hx. unfold Np.exp. destruct (Rlt_dec Np.exp_max x) as [L | _].
  - lra.
  - reflexivity.
Qed.

(** Above it [np.exp] returns [inf]. *)
Lemma exp_overflow (x : R) : Np.exp_max < x -> Np.exp (Fin x) = PInf.
Proof.
  intros Hx. unfold Np.exp. destruct (Rlt_dec Np.exp_max x) as [_ | N].
  - reflexivity.
  - contradiction.
Qed.

Lemma exp_small (x : R) : x <= 709 -> Np.exp (Fin x) = Fin (exp x).
Proof.
  intros Hx. apply exp_fin. pose proof exp_max_bounds. lra.
Qed.

Lemma add_nan_r (a : float64) : Np.add a NaN = NaN.
Proof. destruct a; reflexivity. Qed.

Lemma mul_nan_r (a : float64) : Np.mul a NaN = NaN.
Proof. destruct a; reflexivity. Qed.

Lemma div_by_zero (a : float64) :
  Np.div a (Fin 0) = NaN \/ Np.div a (Fin 0) = PInf
  \/ Np.div a (Fin 0) = NInf.
Proof.
  destruct a as [x | | |].
  - rewrite div_zero. unfold Np.signed_inf.
    destruct (Req_dec_T x 0); [left; reflexivity |].
    destruct (Rlt_dec 0 x); [right; left | right; right]; reflexivity.
  - right. left. cbn. destruct (Rlt_dec 0 0) as [L | _]; [lra | reflexivity].
  - right. right. cbn. destruct (Rlt_dec 0 0) as [L | _]; [lra | reflexivity].
  - left. reflexivity.
Qed.

End NpFacts.

(** ** [StationaryExponential.function] *)

Module StationaryExponentialFacts.

Import StationaryExponential.

(** [exp(x) - 1] vanishes only at 0. *)
Lemma expm1_neq_0 (x : R) : x <> 0 -> exp x - 1 <> 0.
Proof.
  intros Nx. pose proof (exp_ineq1 x Nx) as I1.
  destruct (Rlt_dec 0 x) as [P | P].
  - lra.
  - assert (x < 0) as Neg by lra.
    pose proof (exp_increasing _ _ Neg) as I2. rewrite exp_0 in I2. lra.
Qed.

Lemma quotient_neq_0 (hm h0 : R) : h0 <> 0 -> hm <> 0 -> hm / h0 <> 0.
Proof.
  intros N0 Nm. unfold Rdiv. apply Rmult_integral_contrapositive_currified.
  - exact Nm.
  - apply Rinv_neq_0_compat. exact N0.
Qed.

(** On finite values with a scale and a maximum that are not zero, and
    short of the overflow of [np.exp], the method computes the quotient
    over the reals. *)
Lemma function_fin (self : t) (z dp : float64) (h h0 hm : R) :
  H self z dp = Fin h -> H0 self = Fin h0 -> Hmax self = Fin hm ->
  h0 <> 0 -> hm <> 0 ->
  h / h0 <= Np.exp_max -> hm / h0 <= Np.exp_max ->
  function self z dp = Fin ((exp (h / h0) - 1) / (exp (hm / h0) - 1)).
Proof.
  intros EH E0 Em N0 Nm Sh Sm. unfold function. rewrite EH, E0, Em.
  rewrite !NpFacts.div_fin by assumption.
  rewrite !NpFacts.exp_fin by assumption.
  rewrite !NpFacts.sub_fin. apply NpFacts.div_fin.
  apply expm1_neq_0. apply quotient_neq_0; assumption.
Qed.

(** Where [Hmax / H0] and [H / H0] are both past the overflow of [np.exp]
    the method divides [inf] by [inf]. *)
Lemma function_overflow (self : t) (z dp : float64) (h h0 hm : R) :
  H self z dp = Fin h -> H0 self = Fin h0 -> Hmax self = Fin hm ->
  h0 <> 0 ->
  Np.exp_max < h / h0 -> Np.exp_max < hm / h0 ->
  function self z dp = NaN.
Proof.
  intros EH E0 Em N0 Sh Sm. unfold function. rewrite EH, E0, Em.
  rewrite !NpFacts.div_fin by assumption.
  rewrite !NpFacts.exp_overflow by assumption. reflexivity.
Qed.






End StationaryExponentialFacts.

(** ** How the variance estimators end *)

Module EstimatorFacts.

Import RFBucket Matching.

Section Returns.

Context {scipy : SciPy}.

Lemma zero_or_not (Q : float64) : Q = Fin 0 \/ Q <> Fin 0.
Proof.
  destruct Q as [q | | |]; try (right; discriminate).
  destruct (Req_dec_T q 0) as [-> | N].
  - left. reflexivity.
  - right. intros E. injection E as E. contradiction.
Qed.

(** The division of Python floats raises on a zero divisor and on no
    other. *)
Lemma float_div_zero (V : float64) :
  float_div V (Fin 0) = Py.raise float_division_by_zero.
Proof.
  unfold float_div. destruct (Req_dec_T 0 0) as [_ | N].
  - reflexivity.
  - exfalso. apply N. reflexivity.
Qed.

Lemma float_div_nonzero (V Q : float64) :
  Q <> Fin 0 -> float_div V Q = Py.ret (Np.div V Q).
Proof.
  intros N. unfold float_div. destruct Q as [q | | |]; try reflexivity.
  destruct (Req_dec_T q 0) as [-> | _].
  - exfalso. apply N. reflexivity.
  - reflexivity.
Qed.

Lemma quad_raises psi p_sep xmin xmax :
  fst (quad_integrals psi p_sep xmin xmax) = Fin 0 ->
  _compute_std_quad psi p_sep xmin xmax = Py.raise float_division_by_zero.
Proof.
  unfold _compute_std_quad.
  destruct (quad_integrals _ _ _ _) as [Q V]. cbn [fst]. intros ->.
  rewrite float_div_zero. reflexivity.
Qed.

Lemma quad_returns psi p_sep xmin xmax :
  fst (quad_integrals psi p_sep xmin xmax) <> Fin 0 ->
  _compute_std_quad psi p_sep xmin xmax
  = Py.ret (Np.sqrt (Np.div (snd (quad_integrals psi p_sep xmin xmax))
                            (fst (quad_integrals psi p_sep xmin xmax)))).
Proof.
  unfold _compute_std_quad.
  destruct (quad_integrals _ _ _ _) as [Q V]. cbn [fst snd]. intros N.
  rewrite (float_div_nonzero V Q N). reflexivity.
Qed.

Lemma cumtrapz_returns psi p_sep xmin xmax :
  _compute_std_cumtrapz psi p_sep xmin xmax
  = Py.ret (Np.sqrt (Np.div (snd (cumtrapz_integrals psi p_sep xmin xmax))
                            (fst (cumtrapz_integrals psi p_sep xmin xmax)))).
Proof.
  unfold _compute_std_cumtrapz.
  destruct (cumtrapz_integrals _ _ _ _) as [Q V]. reflexivity.
Qed.

Lemma romberg_returns psi p_sep xmin xmax :
  _compute_std_romberg psi p_sep xmin xmax
  = Py.ret (Np.sqrt (Np.div (snd (romberg_integrals psi p_sep xmin xmax))
                            (fst (romberg_integrals psi p_sep xmin xmax)))).
Proof.
  unfold _compute_std_romberg.
  destruct (romberg_integrals _ _ _ _) as [Q V]. reflexivity.
Qed.

(** Each of the three either returns a number, printing nothing, or raises
    the error of the division. *)
Lemma method_cases st psi p_sep xmin xmax :
  (exists zS, method st psi p_sep xmin xmax = Py.ret zS)
  \/ method st psi p_sep xmin xmax = Py.raise float_division_by_zero.
Proof.
  destruct st; cbn [method].
  - destruct (zero_or_not (fst (quad_integrals psi p_sep xmin xmax)))
      as [Z | N].
    + right. apply quad_raises. exact Z.
    + left. eexists. apply quad_returns. exact N.
  - left. eexists. apply cumtrapz_returns.
  - left. eexists. apply romberg_returns.
Qed.

(** A call that returned is the estimate. *)
Lemma call_ok self psi out zS :
  call_compute_std self (SE.function psi) (separatrix self)
    (fst (z_sep self)) (snd (z_sep self)) = (out, Ok zS) ->
  estimated self psi.
Proof.
  intros E. unfold estimated, estimate.
  destruct (method_cases (_compute_std self) (SE.function psi)
              (separatrix self) (fst (z_sep self)) (snd (z_sep self)))
    as [[z R] | R]; unfold call_compute_std in *; rewrite R in *.
  - reflexivity.
  - discriminate E.
Qed.

Lemma call_cases self psi :
  estimated self psi
  \/ call_compute_std self (SE.function psi) (separatrix self)
       (fst (z_sep self)) (snd (z_sep self))
     = Py.raise float_division_by_zero.
Proof.
  destruct (method_cases (_compute_std self) (SE.function psi)
              (separatrix self) (fst (z_sep self)) (snd (z_sep self)))
    as [[z R] | R].
  - left. apply (call_ok self psi [] z). exact R.
  - right. exact R.
Qed.

(** The estimate of an object that is not bound to the quadrature. *)
Lemma call_estimate self psi :
  _compute_std self <> Quad -> estimated self psi.
Proof.
  intros N. unfold estimated, estimate, call_compute_std.
  destruct (_compute_std self); cbn [method].
  - contradiction.
  - rewrite cumtrapz_returns. reflexivity.
  - rewrite romberg_returns. reflexivity.
Qed.

Lemma init_estimated sigma rf psi : estimated (init sigma rf) psi.
Proof. apply call_estimate. discriminate. Qed.

End Returns.

End EstimatorFacts.

(** ** The matching loop *)

Module MatchingFacts.

Import RFBucket Matching.

Section Loop.

Context {scipy : SciPy}.

Local Open Scope np_scope.

(** One pass of the body: the line it prints, then either the abort or the
    next values of the variables. *)
Lemma iteration_next self z0 m :
  estimated self (m_psi m) ->
  iteration self z0 m
  = if (100 <? S (m_counter m))%nat then
      ([Int (m_counter m); Flt (m_zH m); Flt (estimate self (m_psi m));
        Flt (estimate self (m_psi m) - z0)] :: too_many_steps,
       Raise (NameError "sys"))
    else
      ([[Int (m_counter m); Flt (m_zH m); Flt (estimate self (m_psi m));
         Flt (estimate self (m_psi m) - z0)]],
       Ok (next self z0 m)).
Proof.
  intros E. unfold iteration. rewrite E.
  destruct (100 <? S (m_counter m))%nat; reflexivity.
Qed.

(** A pass whose estimate raises ends there, with nothing printed. *)
Lemma iteration_raises self z0 m e :
  call_compute_std self (SE.function (m_psi m)) (separatrix self)
    (fst (z_sep self)) (snd (z_sep self)) = Py.raise e ->
  iteration self z0 m = Py.raise e.
Proof. intros E. unfold iteration. rewrite E. reflexivity. Qed.

Lemma after_next k self z0 m :
  after k self z0 (next self z0 m) = after (S k) self z0 m.
Proof.
  induction k as [| k IH]; cbn.
  - reflexivity.
  - rewrite IH. reflexivity.
Qed.

Lemma outcome_bind_ok {A B} (out : list event) (a : A) (k : A -> M B) :
  Py.outcome (Py.bind (out, Ok a) k) = Py.outcome (k a).
Proof. unfold Py.bind. destruct (k a) as [out' r]. reflexivity. Qed.

Lemma output_bind_ok {A B} (out : list event) (a : A) (k : A -> M B) :
  Py.output (Py.bind (out, Ok a) k) = (out ++ Py.output (k a))%list.
Proof. unfold Py.bind. destruct (k a) as [out' r]. reflexivity. Qed.

(** A test that holds up to a bound, or a first place where it fails. *)
Lemma first_failure (p : nat -> bool) (n : nat) :
  (forall k, (k <= n)%nat -> p k = true)
  \/ (exists k, (k <= n)%nat /\ p k = false
                /\ forall j, (j < k)%nat -> p j = true).
Proof.
  induction n as [| n IH].
  - destruct (p O) eqn:E.
    + left. intros k Hk. replace k with O by lia. exact E.
    + right. exists O. repeat split; [lia | exact E | intros j Hj; lia].
  - destruct IH as [All | [k [Hk [F Before]]]].
    + destruct (p (S n)) eqn:E.
      * left. intros k Hk. destruct (Nat.eq_dec k (S n)) as [-> | Nk].
        -- exact E.
        -- apply All. lia.
      * right. exists (S n). repeat split; [lia | exact E |].
        intros j Hj. apply All. lia.
    + right. exists k. repeat split; [lia | exact F | exact Before].
Qed.

(** The loop returns the variables of the first pass at which the test
    fails, when there is one before the counter passes 100. *)
Lemma while_loop_leaves k : forall fuel self z0 m,
  (m_counter m + k <= 100)%nat ->
  (101 <= m_counter m + fuel)%nat ->
  guard (after k self z0 m) = false ->
  (forall j, (j < k)%nat -> guard (after j self z0 m) = true) ->
  (forall j, (j < k)%nat -> estimated self (m_psi (after j self z0 m))) ->
  Py.outcome (while_loop fuel self z0 m) = Ok (after k self z0 m).
Proof.
  induction k as [| k IH]; intros fuel self z0 m Hk Hf Stop Before Est.
  - change (after O self z0 m) with m in Stop. unfold guard in Stop.
    destruct fuel as [| fuel]; cbn [while_loop]; rewrite Stop; reflexivity.
  - destruct fuel as [| fuel]; [lia |].
    pose proof (Before O ltac:(lia)) as G0.
    change (after O self z0 m) with m in G0. unfold guard in G0.
    cbn [while_loop].
    rewrite G0, (iteration_next self z0 m (Est O ltac:(lia))).
    replace (100 <? S (m_counter m))%nat with false
      by (symmetry; apply Nat.ltb_ge; lia).
    rewrite outcome_bind_ok, <- after_next. apply IH.
    + cbn. lia.
    + cbn. lia.
    + rewrite after_next. exact Stop.
    + intros j Hj. rewrite after_next. apply Before. lia.
    + intros j Hj. rewrite after_next. apply Est. lia.
Qed.

(** What the loop prints on such a run: one line per pass. *)
Lemma while_loop_one_pass fuel self z0 m :
  (m_counter m < 100)%nat ->
  guard m = true -> estimated self (m_psi m) ->
  guard (next self z0 m) = false ->
  while_loop (S fuel) self z0 m
  = ([[Int (m_counter m); Flt (m_zH m); Flt (estimate self (m_psi m));
       Flt (estimate self (m_psi m) - z0)]],
     Ok (next self z0 m)).
Proof.
  intros Hc G E Stop. unfold guard in G, Stop.
  cbn [while_loop]. rewrite G, (iteration_next self z0 m E).
  replace (100 <? S (m_counter m))%nat with false
    by (symmetry; apply Nat.ltb_ge; lia).
  destruct fuel as [| fuel]; cbn [while_loop Py.bind]; rewrite Stop;
    reflexivity.
Qed.

(** A loop that returns has left at the first pass whose test failed, and
    every estimate before was returned. *)
Lemma while_loop_returns fuel : forall self z0 m r,
  Py.outcome (while_loop fuel self z0 m) = Ok r ->
  exists k,
    r = after k self z0 m
    /\ guard (after k self z0 m) = false
    /\ (forall j, (j < k)%nat -> guard (after j self z0 m) = true)
    /\ (k = O \/ m_counter m + k <= 100)%nat.
Proof.
  induction fuel as [| fuel IH]; intros self z0 m r Run.
  - cbn [while_loop] in Run.
    destruct (Np.gt (Np.abs (m_eps m)) (Fin 1e-4)) eqn:G.
    + discriminate Run.
    + injection Run as <-. exists O.
      split; [reflexivity |]. split; [exact G |].
      split; [intros j Hj; lia | left; reflexivity].
  - cbn [while_loop] in Run.
    destruct (Np.gt (Np.abs (m_eps m)) (Fin 1e-4)) eqn:G.
    + destruct (EstimatorFacts.call_cases self (m_psi m)) as [E | E].
      * rewrite (iteration_next self z0 m E) in Run.
        destruct (100 <? S (m_counter m))%nat eqn:C.
        -- discriminate Run.
        -- apply Nat.ltb_ge in C. rewrite outcome_bind_ok in Run.
           destruct (IH self z0 (next self z0 m) r Run)
             as [k [Er [Stop [Before Hk]]]].
           rewrite after_next in Er, Stop.
           exists (S k). split; [exact Er |]. split; [exact Stop |]. split.
           ++ intros j Hj. destruct j as [| j]; [exact G |].
              rewrite <- after_next. apply Before. lia.
           ++ right. destruct Hk as [-> | Hk]; [lia |]. cbn in Hk. lia.
      * rewrite (iteration_raises self z0 m _ E) in Run. discriminate Run.
    + injection Run as <-. exists O.
      split; [reflexivity |]. split; [exact G |].
      split; [intros j Hj; lia | left; reflexivity].
Qed.

(** The loop aborts when the test holds at every pass until the counter
    passes 100. *)
Lemma while_loop_aborts fuel : forall self z0 m,
  (m_counter m <= 100)%nat ->
  (101 <= m_counter m + fuel)%nat ->
  (forall k, (m_counter m + k <= 100)%nat ->
             guard (after k self z0 m) = true) ->
  (forall k, (m_counter m + k <= 100)%nat ->
             estimated self (m_psi (after k self z0 m))) ->
  Py.outcome (while_loop fuel self z0 m) = Raise (NameError "sys")
  /\ exists out, Py.output (while_loop fuel self z0 m)
                 = (out ++ too_many_steps)%list.
Proof.
  induction fuel as [| fuel IH]; intros self z0 m Hc Hf All Est; [lia |].
  pose proof (All O ltac:(lia)) as G0.
  change (after O self z0 m) with m in G0. unfold guard in G0.
  cbn [while_loop].
  rewrite G0, (iteration_next self z0 m (Est O ltac:(lia))).
  destruct (100 <? S (m_counter m))%nat eqn:E.
  - split.
    + reflexivity.
    + eexists [_]. reflexivity.
  - apply Nat.ltb_ge in E.
    rewrite outcome_bind_ok, output_bind_ok.
    destruct (IH self z0 (next self z0 m)) as [R [out O]].
    + cbn. lia.
    + cbn. lia.
    + intros k Hk. rewrite after_next. apply All. cbn in Hk. lia.
    + intros k Hk. rewrite after_next. apply Est. cbn in Hk. lia.
    + split.
      * exact R.
      * rewrite O. eexists (_ :: out). reflexivity.
Qed.

Lemma bind_ret {A B} (a : A) (k : A -> M B) : Py.bind (Py.ret a) k = k a.
Proof. unfold Py.bind, Py.ret. destruct (k a) as [out r]. reflexivity. Qed.

Lemma outcome_bind {A B} (c : M A) (a : A) (k : A -> M B) :
  Py.outcome c = Ok a -> Py.outcome (Py.bind c k) = Py.outcome (k a).
Proof.
  destruct c as [out r]. cbn. intros ->. apply outcome_bind_ok.
Qed.

Lemma outcome_bind_raise {A B} (c : M A) (e : exn) (k : A -> M B) :
  Py.outcome c = Raise e ->
  Py.outcome (Py.bind c k) = Raise e /\ Py.output (Py.bind c k) = Py.output c.
Proof.
  destruct c as [out r]. cbn. intros ->. split; reflexivity.
Qed.

Lemma report_maximum_eq sigma zS :
  report_maximum sigma zS = (report sigma zS, Ok tt).
Proof.
  unfold report, report_maximum.
  destruct (Np.gt sigma (zS * Fin 0.95)); reflexivity.
Qed.

Lemma report_warning sigma zS :
  In too_long_warning (report sigma zS)
  <-> Np.gt sigma (zS * Fin 0.95) = true.
Proof.
  unfold report, report_maximum.
  destruct (Np.gt sigma (zS * Fin 0.95)); cbn; split; intros Hw.
  - reflexivity.
  - right. left. reflexivity.
  - destruct Hw as [Hw | []]. discriminate Hw.
  - discriminate Hw.
Qed.

(** The pre-check when the quadrature finds [Q = 0]: the division raises
    before anything is printed. *)
Lemma test_maximum_std_raises self psi sigma :
  precheck_Q self psi = Fin 0 ->
  _test_maximum_std self psi sigma = Py.raise float_division_by_zero.
Proof.
  intros Z. unfold _test_maximum_std.
  rewrite (EstimatorFacts.quad_raises _ _ _ _ Z). reflexivity.
Qed.

(** The pre-check otherwise: the scale is set, the three estimates are
    computed in that state and reported, and the call returns. *)
Lemma test_maximum_std_run self psi sigma :
  precheck_Q self psi <> Fin 0 ->
  exists zq zc zr,
    let psi' := SE.set_H0 psi (H0 self (circumference self)) in
    _compute_std_quad (SE.function psi') (separatrix self)
      (fst (z_sep self)) (snd (z_sep self)) = Py.ret zq
    /\ _compute_std_cumtrapz (SE.function psi') (separatrix self)
         (fst (z_sep self)) (snd (z_sep self)) = Py.ret zc
    /\ _compute_std_romberg (SE.function psi') (separatrix self)
         (fst (z_sep self)) (snd (z_sep self)) = Py.ret zr
    /\ _test_maximum_std self psi sigma
       = ((report sigma zq ++ report sigma zc ++ report sigma zr)%list,
          Ok psi').
Proof.
  intros N.
  set (psi' := SE.set_H0 psi (H0 self (circumference self))).
  pose proof (EstimatorFacts.quad_returns (SE.function psi') (separatrix self)
                (fst (z_sep self)) (snd (z_sep self)) N) as Eq.
  pose proof (EstimatorFacts.cumtrapz_returns (SE.function psi')
                (separatrix self) (fst (z_sep self)) (snd (z_sep self)))
    as Ec.
  pose proof (EstimatorFacts.romberg_returns (SE.function psi')
                (separatrix self) (fst (z_sep self)) (snd (z_sep self)))
    as Er.
  eexists. eexists. eexists. cbv zeta. fold psi'.
  split; [exact Eq |]. split; [exact Ec |]. split; [exact Er |].
  unfold _test_maximum_std. fold psi'. rewrite Eq, Ec, Er.
  rewrite !bind_ret, !report_maximum_eq. cbn [Py.bind Py.ret].
  rewrite !app_nil_r. reflexivity.
Qed.

(** A pre-check that returned had a [Q] that is not 0. *)
Lemma test_maximum_std_ok self psi sigma p :
  Py.outcome (_test_maximum_std self psi sigma) = Ok p ->
  precheck_Q self psi <> Fin 0.
Proof.
  intros E Z. rewrite (test_maximum_std_raises self psi sigma Z) in E.
  discriminate E.
Qed.


(** [Hmax] is not written by the loop. *)
Lemma after_Hmax k self z0 m :
  SE.Hmax (m_psi (after k self z0 m)) = SE.Hmax (m_psi m).
Proof.
  induction k as [| k IH]; cbn.
  - reflexivity.
  - exact IH.
Qed.

Lemma guard_start self psi sigma : guard (start self psi sigma) = true.
Proof.
  change (Np.lt (Fin 1e-4) (Fin (Rabs 1)) = true).
  apply NpFacts.lt_fin. rewrite Rabs_R1. lra.
Qed.

(** The iterative solve overwrites the scale before it reads it. *)
Lemma solve_scale self psi v sigma :
  solve self (SE.set_H0 psi v) sigma = solve self psi sigma.
Proof. reflexivity. Qed.

Lemma set_target_std_solve self psi sigma :
  precheck_Q self psi <> Fin 0 ->
  Py.outcome (_set_target_std self psi sigma)
    = Py.outcome (solve self psi sigma)
  /\ Py.output (_set_target_std self psi sigma)
     = (Py.output (_test_maximum_std self psi sigma)
        ++ Py.output (solve self psi sigma))%list.
Proof.
  intros N.
  destruct (test_maximum_std_run self psi sigma N)
    as [zq [zc [zr [_ [_ [_ E]]]]]].
  unfold _set_target_std. rewrite E.
  rewrite outcome_bind_ok, output_bind_ok, solve_scale. split; reflexivity.
Qed.

Lemma set_target_std_raises self psi sigma :
  precheck_Q self psi = Fin 0 ->
  _set_target_std self psi sigma = Py.raise float_division_by_zero.
Proof.
  intros Z. unfold _set_target_std.
  rewrite (test_maximum_std_raises self psi sigma Z). reflexivity.
Qed.

(** A matching that returned went through a pre-check that returned. *)
Lemma set_target_std_ok self psi sigma psi_f :
  Py.outcome (_set_target_std self psi sigma) = Ok psi_f ->
  precheck_Q self psi <> Fin 0.
Proof.
  intros E Z. rewrite (set_target_std_raises self psi sigma Z) in E.
  discriminate E.
Qed.

Lemma solve_leaves self psi sigma hmax k :
  Array.amax (map (fun z => hamiltonian self z (Fin 0)) (z_extrema self))
    = Py.ret hmax ->
  (k <= 100)%nat ->
  guard (after k self sigma (start self (SE.set_Hmax psi hmax) sigma))
    = false ->
  (forall j, (j < k)%nat ->
     guard (after j self sigma (start self (SE.set_Hmax psi hmax) sigma))
       = true) ->
  (forall j, (j < k)%nat ->
     estimated self
       (m_psi (after j self sigma
                 (start self (SE.set_Hmax psi hmax) sigma)))) ->
  Py.outcome (solve self psi sigma)
  = Ok (m_psi (after k self sigma (start self (SE.set_Hmax psi hmax) sigma))).
Proof.
  intros Ha Hk Stop Before Est. unfold solve. rewrite Ha, bind_ret.
  unfold Py.print. rewrite outcome_bind_ok.
  assert (Py.outcome (while_loop 101 self sigma
                        (start self (SE.set_Hmax psi hmax) sigma))
          = Ok (after k self sigma (start self (SE.set_Hmax psi hmax) sigma)))
    as W.
  { apply while_loop_leaves.
    - cbn. lia.
    - cbn. lia.
    - exact Stop.
    - exact Before.
    - exact Est. }
  rewrite (outcome_bind _ _ _ W). reflexivity.
Qed.

(** A solve that returned: the loop was left at the first pass whose test
    failed, one of the first 100. *)
Lemma solve_returns self psi sigma hmax psi_f :
  Array.amax (map (fun z => hamiltonian self z (Fin 0)) (z_extrema self))
    = Py.ret hmax ->
  Py.outcome (solve self psi sigma) = Ok psi_f ->
  exists k,
    (1 <= k <= 100)%nat
    /\ psi_f = m_psi (after k self sigma
                        (start self (SE.set_Hmax psi hmax) sigma))
    /\ guard (after k self sigma (start self (SE.set_Hmax psi hmax) sigma))
       = false
    /\ (forall j, (j < k)%nat ->
          guard (after j self sigma
                   (start self (SE.set_Hmax psi hmax) sigma)) = true).
Proof.
  intros Ha Run. unfold solve in Run. rewrite Ha, bind_ret in Run.
  unfold Py.print in Run. rewrite outcome_bind_ok in Run.
  destruct (while_loop 101 self sigma
              (start self (SE.set_Hmax psi hmax) sigma)) as [out [r | e |]]
    eqn:W; cbn in Run; try discriminate Run.
  injection Run as <-.
  destruct (while_loop_returns 101 self sigma _ r
              ltac:(rewrite W; reflexivity))
    as [k [Er [Stop [Before Hk]]]].
  exists k. split.
  - destruct k as [| k].
    + change (guard (start self (SE.set_Hmax psi hmax) sigma) = false)
        in Stop.
      rewrite guard_start in Stop. discriminate Stop.
    + destruct Hk as [Z | Hk]; [discriminate Z |]. cbn in Hk. lia.
  - rewrite Er. split; [reflexivity |]. split; [exact Stop | exact Before].
Qed.

Lemma solve_aborts self psi sigma hmax :
  Array.amax (map (fun z => hamiltonian self z (Fin 0)) (z_extrema self))
    = Py.ret hmax ->
  (forall k, (k <= 100)%nat ->
     guard (after k self sigma (start self (SE.set_Hmax psi hmax) sigma))
       = true) ->
  (forall k, (k <= 100)%nat ->
     estimated self
       (m_psi (after k self sigma
                 (start self (SE.set_Hmax psi hmax) sigma)))) ->
  Py.outcome (solve self psi sigma) = Raise (NameError "sys")
  /\ exists out, Py.output (solve self psi sigma)
                 = (out ++ too_many_steps)%list.
Proof.
  intros Ha All Est. unfold solve. rewrite Ha, bind_ret.
  unfold Py.print. rewrite outcome_bind_ok, output_bind_ok.
  destruct (while_loop_aborts 101 self sigma
              (start self (SE.set_Hmax psi hmax) sigma))
    as [R [out O]].
  - cbn. lia.
  - cbn. lia.
  - intros k Hk. apply All. cbn in Hk. lia.
  - intros k Hk. apply Est. cbn in Hk. lia.
  - destruct (outcome_bind_raise _ _
                (fun m => Py.print [Str "*** Converged!\n"] ;;;
                          Py.ret (m_psi m))
                R) as [R' O'].
    split.
    + exact R'.
    + unfold Py.print in O'. rewrite O', O. eexists (_ :: out). reflexivity.
Qed.

End Loop.

End MatchingFacts.

(** ** What the specification states about the matcher *)

Module MatcherProperties.

Import RFBucket Matching MatchingFacts.

Section Statements.

Context {scipy : SciPy}.

Local Open Scope np_scope.


(** C6.  The pre-check sets the scale to [H0(circumference)] and computes
    in that state three estimates of the largest RMS length, by quadrature,
    by the trapezoid rule and by Romberg's, in this order.  When the [Q] of
    the quadrature is 0 its division raises [ZeroDivisionError]: nothing is
    printed and [_set_target_std] ends there.  Otherwise the pre-check
    returns, after each estimate it has printed the warning exactly when
    [sigma > zS * 0.95] for that estimate, and [_set_target_std] goes on to
    the iterative solve whatever was printed. *)
Theorem feasibility_check self psi sigma :
  let psi' := SE.set_H0 psi (H0 self (circumference self)) in
  (precheck_Q self psi = Fin 0
   /\ _test_maximum_std self psi sigma = Py.raise float_division_by_zero
   /\ _set_target_std self psi sigma = Py.raise float_division_by_zero)
  \/ (precheck_Q self psi <> Fin 0
      /\ exists zq zc zr,
           _compute_std_quad (SE.function psi') (separatrix self)
             (fst (z_sep self)) (snd (z_sep self)) = Py.ret zq
           /\ _compute_std_cumtrapz (SE.function psi') (separatrix self)
                (fst (z_sep self)) (snd (z_sep self)) = Py.ret zc
           /\ _compute_std_romberg (SE.function psi') (separatrix self)
                (fst (z_sep self)) (snd (z_sep self)) = Py.ret zr
           /\ _test_maximum_std self psi sigma
              = ((report sigma zq ++ report sigma zc ++ report sigma zr)%list,
                 Ok psi')
           /\ (In too_long_warning (report sigma zq)
               <-> Np.gt sigma (zq * Fin 0.95) = true)
           /\ (In too_long_warning (report sigma zc)
               <-> Np.gt sigma (zc * Fin 0.95) = true)
           /\ (In too_long_warning (report sigma zr)
               <-> Np.gt sigma (zr * Fin 0.95) = true)
           /\ Py.outcome (_set_target_std self psi sigma)
              = Py.outcome (solve self psi sigma)
           /\ Py.output (_set_target_std self psi sigma)
              = (Py.output (_test_maximum_std self psi sigma)
                 ++ Py.output (solve self psi sigma))%list).
Proof.
  intros psi'.
  destruct (EstimatorFacts.zero_or_not (precheck_Q self psi)) as [Z | N].
  - left. split; [exact Z |]. split.
    + apply test_maximum_std_raises. exact Z.
    + apply set_target_std_raises. exact Z.
  - right. split; [exact N |].
    destruct (test_maximum_std_run self psi sigma N)
      as [zq [zc [zr [Eq [Ec [Er E]]]]]].
    destruct (set_target_std_solve self psi sigma N) as [Eo Eout].
    exists zq, zc, zr.
    split; [exact Eq |]. split; [exact Ec |]. split; [exact Er |].
    split; [exact E |].
    split; [apply report_warning |]. split; [apply report_warning |].
    split; [apply report_warning |]. split; [exact Eo | exact Eout].
Qed.

End Statements.

End MatcherProperties.

(** ** The composite trapezoid estimate of a uniform density *)

Module CumtrapzFacts.

Import RFBucket.

Lemma last_cumsum_from (l : list float64) : forall t d,
  List.last (t :: Array.cumsum_from t l) d = fold_left Np.add l t.
Proof.
  induction l as [| v l IH]; intros t d.
  - reflexivity.
  - change (List.last (Np.add t v :: Array.cumsum_from (Np.add t v) l) d
            = fold_left Np.add l (Np.add t v)).
    apply IH.
Qed.

Lemma last_cumsum (t : float64) (l : list float64) :
  Array.last (Array.cumsum (t :: l)) = fold_left Np.add l t.
Proof. apply last_cumsum_from. Qed.

Lemma last_default {A} (l : list A) : forall a d,
  List.last (a :: l) d = List.last l a.
Proof.
  induction l as [| b l IH]; intros a d.
  - reflexivity.
  - change (List.last (b :: l) d = List.last (b :: l) a).
    rewrite !IH. reflexivity.
Qed.

Lemma trapezoids_cons y0 y1 ys x0 x1 xs :
  Array.trapezoids (y0 :: y1 :: ys) (x0 :: x1 :: xs)
  = Np.div (Np.mul (Np.sub x1 x0) (Np.add y1 y0)) (Fin 2)
    :: Array.trapezoids (y1 :: ys) (x1 :: xs).
Proof. reflexivity. Qed.

(** Trapezoids under a constant integrand telescope. *)
Lemma fold_trapezoids_const (c : R) (ys : list R) : forall y0 acc,
  fold_left Np.add
    (Array.trapezoids (map (fun _ => Fin c) (y0 :: ys)) (map Fin (y0 :: ys)))
    (Fin acc)
  = Fin (acc + c * (List.last ys y0 - y0)).
Proof.
  induction ys as [| y1 ys IH]; intros y0 acc.
  - cbn. f_equal. lra.
  - cbn [map]. rewrite trapezoids_cons. cbn [fold_left].
    change (Np.sub (Fin y1) (Fin y0)) with (Fin (y1 - y0)).
    change (Np.add (Fin c) (Fin c)) with (Fin (c + c)).
    change (Np.mul (Fin (y1 - y0)) (Fin (c + c)))
      with (Fin ((y1 - y0) * (c + c))).
    rewrite NpFacts.div_fin by lra.
    change (Np.add (Fin acc) (Fin ((y1 - y0) * (c + c) / 2)))
      with (Fin (acc + (y1 - y0) * (c + c) / 2)).
    change (Fin y1 :: map Fin ys) with (map Fin (y1 :: ys)).
    change (Fin c :: map (fun _ : R => Fin c) ys)
      with (map (fun _ : R => Fin c) (y1 :: ys)).
    rewrite IH, last_default. f_equal. field.
Qed.

Lemma last_cumtrapz_const (c y0 : R) (tl : list R) :
  tl <> [] ->
  Array.last (Array.cumtrapz (map (fun _ => Fin c) (y0 :: tl))
                             (map Fin (y0 :: tl)))
  = Fin (c * (List.last tl y0 - y0)).
Proof.
  destruct tl as [| y1 ys]; intros Ne; [contradiction |].
  unfold Array.cumtrapz. cbn [map]. rewrite trapezoids_cons, last_cumsum.
  change (Np.sub (Fin y1) (Fin y0)) with (Fin (y1 - y0)).
  change (Np.add (Fin c) (Fin c)) with (Fin (c + c)).
  change (Np.mul (Fin (y1 - y0)) (Fin (c + c)))
    with (Fin ((y1 - y0) * (c + c))).
  rewrite NpFacts.div_fin by lra.
  change (Fin y1 :: map Fin ys) with (map Fin (y1 :: ys)).
  change (Fin c :: map (fun _ : R => Fin c) ys)
    with (map (fun _ : R => Fin c) (y1 :: ys)).
  rewrite fold_trapezoids_const, last_default. f_equal. field.
Qed.

(** [np.linspace] between finite ends. *)
Lemma linspace_points (a b : R) (n : nat) :
  Array.linspace (Fin a) (Fin b) (S (S n)) = map Fin (Grid.points a b (S n)).
Proof.
  unfold Array.linspace, Grid.points.
  change (Np.sub (Fin b) (Fin a)) with (Fin (b - a)).
  rewrite NpFacts.div_fin by (apply not_0_INR; discriminate).
  rewrite map_app, map_map. reflexivity.
Qed.

Lemma points_cons (a b : R) (n : nat) :
  Grid.points a b (S n)
  = INR 0 * ((b - a) / INR (S n)) + a
    :: (map (fun k => INR k * ((b - a) / INR (S n)) + a) (seq 1 n) ++ [b])%list.
Proof. reflexivity. Qed.

Lemma points_length (a b : R) (n : nat) :
  List.length (Grid.points a b n) = S n.
Proof.
  unfold Grid.points. rewrite length_app, length_map, length_seq. cbn. lia.
Qed.

Section Uniform.

Context {scipy : SciPy}.

Variable psi : float64 -> float64 -> float64.
Variable p_sep : float64 -> float64.
Variables c s : R.

Hypothesis psi_uniform : forall x y, psi (Fin x) (Fin y) = Fin c.
Hypothesis p_sep_uniform : forall x, p_sep (Fin x) = Fin s.

(** One slice of a density that is [c] everywhere under a separatrix that
    is [s] everywhere. *)
Lemma cumtrapz_slice_uniform (Q V x : R) :
  cumtrapz_slice psi p_sep (Fin Q, Fin V) (Fin x)
  = (Fin (Q + c * s), Fin (V + x * x * (c * s))).
Proof.
  unfold cumtrapz_slice. rewrite p_sep_uniform.
  rewrite (linspace_points 0 s 255), !map_map.
  rewrite (map_ext (fun y => psi (Fin x) (Fin y)) (fun _ => Fin c))
    by (intros y; apply psi_uniform).
  rewrite (map_ext (fun y => Np.mul (square (Fin x)) (psi (Fin x) (Fin y)))
                   (fun _ => Fin (x * x * c)))
    by (intros y; rewrite psi_uniform; reflexivity).
  rewrite points_cons.
  rewrite !last_cumtrapz_const by (intros E; apply app_eq_nil in E;
                                   destruct E as [_ E]; discriminate E).
  rewrite !last_last. cbn [Np.add]. change (INR 0) with 0.
  f_equal; f_equal; unfold Rdiv; ring.
Qed.

Lemma fold_slices_uniform (xs : list R) : forall Q V,
  fold_left (cumtrapz_slice psi p_sep) (map Fin xs) (Fin Q, Fin V)
  = (Fin (Q + INR (List.length xs) * (c * s)),
     Fin (Grid.weighted_squares (c * s) xs V)).
Proof.
  induction xs as [| x xs IH]; intros Q V.
  - cbn [map fold_left List.length]. change (INR 0) with 0.
    replace (Q + 0 * (c * s)) with Q by ring. reflexivity.
  - cbn [map fold_left]. rewrite cumtrapz_slice_uniform, IH.
    cbn [List.length]. rewrite S_INR.
    replace (Q + c * s + INR (List.length xs) * (c * s))
      with (Q + (INR (List.length xs) + 1) * (c * s)) by ring.
    reflexivity.
Qed.

(** The integrals between finite ends [a] and [b]. *)
Lemma cumtrapz_uniform (a b : R) :
  cumtrapz_integrals psi p_sep (Fin a) (Fin b)
  = (Fin (INR 257 * (c * s) * ((b - a) / INR 256)),
     Fin (Grid.weighted_squares (c * s) (Grid.points a b 256) 0
          * ((b - a) / INR 256))).
Proof.
  unfold cumtrapz_integrals.
  rewrite (linspace_points a b 255), fold_slices_uniform, points_length.
  replace (Array.getitem (map Fin (Grid.points a b 256)) 1)
    with (Fin (INR 1 * ((b - a) / INR 256) + a)) by reflexivity.
  replace (Array.getitem (map Fin (Grid.points a b 256)) 0)
    with (Fin (INR 0 * ((b - a) / INR 256) + a)) by reflexivity.
  change (INR 1) with 1. change (INR 0) with 0.
  cbn [Np.sub Np.add Np.neg Np.mul].
  set (st := (b - a) / INR 256).
  set (W := Grid.weighted_squares (c * s) (Grid.points a b 256) 0).
  replace (W * (1 * st + a + - (0 * st + a))) with (W * st) by ring.
  replace ((0 + INR 257 * (c * s)) * (1 * st + a + - (0 * st + a)))
    with (INR 257 * (c * s) * st) by ring.
  reflexivity.
Qed.

End Uniform.

(** The same for a density that is [c] where the grid lies: on the
    slices at the positions [inside]. *)
Section Region.

Context {scipy : SciPy}.

Variable psi : float64 -> float64 -> float64.
Variable p_sep : float64 -> float64.
Variables c s : R.
Variable inside : R -> Prop.

Hypothesis psi_uniform :
  forall x y, inside x -> psi (Fin x) (Fin y) = Fin c.
Hypothesis p_sep_uniform : forall x, p_sep (Fin x) = Fin s.

Lemma cumtrapz_slice_region (Q V x : R) :
  inside x ->
  cumtrapz_slice psi p_sep (Fin Q, Fin V) (Fin x)
  = (Fin (Q + c * s), Fin (V + x * x * (c * s))).
Proof.
  intros I. unfold cumtrapz_slice. rewrite p_sep_uniform.
  rewrite (linspace_points 0 s 255), !map_map.
  rewrite (map_ext (fun y => psi (Fin x) (Fin y)) (fun _ => Fin c))
    by (intros y; apply psi_uniform; exact I).
  rewrite (map_ext (fun y => Np.mul (square (Fin x)) (psi (Fin x) (Fin y)))
                   (fun _ => Fin (x * x * c)))
    by (intros y; rewrite psi_uniform by exact I; reflexivity).
  rewrite points_cons.
  rewrite !last_cumtrapz_const by (intros E; apply app_eq_nil in E;
                                   destruct E as [_ E]; discriminate E).
  rewrite !last_last. cbn [Np.add]. change (INR 0) with 0.
  f_equal; f_equal; unfold Rdiv; ring.
Qed.

Lemma fold_slices_region (xs : list R) : forall Q V,
  Forall inside xs ->
  fold_left (cumtrapz_slice psi p_sep) (map Fin xs) (Fin Q, Fin V)
  = (Fin (Q + INR (List.length xs) * (c * s)),
     Fin (Grid.weighted_squares (c * s) xs V)).
Proof.
  induction xs as [| x xs IH]; intros Q V I.
  - cbn [map fold_left List.length]. change (INR 0) with 0.
    replace (Q + 0 * (c * s)) with Q by ring. reflexivity.
  - inversion I as [| ? ? Ix Ixs]; subst.
    cbn [map fold_left]. rewrite cumtrapz_slice_region by exact Ix.
    rewrite IH by exact Ixs.
    cbn [List.length]. rewrite S_INR.
    replace (Q + c * s + INR (List.length xs) * (c * s))
      with (Q + (INR (List.length xs) + 1) * (c * s)) by ring.
    reflexivity.
Qed.

Lemma cumtrapz_region (a b : R) :
  Forall inside (Grid.points a b 256) ->
  cumtrapz_integrals psi p_sep (Fin a) (Fin b)
  = (Fin (INR 257 * (c * s) * ((b - a) / INR 256)),
     Fin (Grid.weighted_squares (c * s) (Grid.points a b 256) 0
          * ((b - a) / INR 256))).
Proof.
  intros I. unfold cumtrapz_integrals.
  rewrite (linspace_points a b 255), fold_slices_region by exact I.
  rewrite points_length.
  replace (Array.getitem (map Fin (Grid.points a b 256)) 1)
    with (Fin (INR 1 * ((b - a) / INR 256) + a)) by reflexivity.
  replace (Array.getitem (map Fin (Grid.points a b 256)) 0)
    with (Fin (INR 0 * ((b - a) / INR 256) + a)) by reflexivity.
  change (INR 1) with 1. change (INR 0) with 0.
  cbn [Np.sub Np.add Np.neg Np.mul].
  set (st := (b - a) / INR 256).
  set (W := Grid.weighted_squares (c * s) (Grid.points a b 256) 0).
  replace (W * (1 * st + a + - (0 * st + a))) with (W * st) by ring.
  replace ((0 + INR 257 * (c * s)) * (1 * st + a + - (0 * st + a)))
    with (INR 257 * (c * s) * st) by ring.
  reflexivity.
Qed.

End Region.

(** Trapezoids over a grid of zero width add nothing. *)
Lemma fold_trapezoids_flat (g : R -> R) (ys : list R) : forall y0 acc,
  Forall (fun y => y = 0) (y0 :: ys) ->
  fold_left Np.add
    (Array.trapezoids (map (fun y => Fin (g y)) (y0 :: ys))
                      (map Fin (y0 :: ys)))
    (Fin acc)
  = Fin acc.
Proof.
  induction ys as [| y1 ys IH]; intros y0 acc Flat.
  - reflexivity.
  - cbn [map]. rewrite trapezoids_cons. cbn [fold_left].
    change (Np.sub (Fin y1) (Fin y0)) with (Fin (y1 - y0)).
    change (Np.add (Fin (g y1)) (Fin (g y0))) with (Fin (g y1 + g y0)).
    change (Np.mul (Fin (y1 - y0)) (Fin (g y1 + g y0)))
      with (Fin ((y1 - y0) * (g y1 + g y0))).
    rewrite NpFacts.div_fin by lra.
    change (Np.add (Fin acc) (Fin ((y1 - y0) * (g y1 + g y0) / 2)))
      with (Fin (acc + (y1 - y0) * (g y1 + g y0) / 2)).
    inversion Flat as [| ? ? E0 Flat1]; subst.
    inversion Flat1 as [| ? ? E1 Flat2]; subst.
    replace (acc + (0 - 0) * (g 0 + g 0) / 2) with acc by (unfold Rdiv; ring).
    change (Fin 0 :: map Fin ys) with (map Fin (0 :: ys)).
    change (Fin (g 0) :: map (fun y => Fin (g y)) ys)
      with (map (fun y => Fin (g y)) (0 :: ys)).
    apply IH. exact Flat1.
Qed.

Lemma last_cumtrapz_flat (g : R -> R) (y0 : R) (tl : list R) :
  tl <> [] ->
  Forall (fun y => y = 0) (y0 :: tl) ->
  Array.last (Array.cumtrapz (map (fun y => Fin (g y)) (y0 :: tl))
                             (map Fin (y0 :: tl)))
  = Fin 0.
Proof.
  destruct tl as [| y1 ys]; intros Ne Flat; [contradiction |].
  unfold Array.cumtrapz. cbn [map]. rewrite trapezoids_cons, last_cumsum.
  change (Np.sub (Fin y1) (Fin y0)) with (Fin (y1 - y0)).
  change (Np.add (Fin (g y1)) (Fin (g y0))) with (Fin (g y1 + g y0)).
  change (Np.mul (Fin (y1 - y0)) (Fin (g y1 + g y0)))
    with (Fin ((y1 - y0) * (g y1 + g y0))).
  rewrite NpFacts.div_fin by lra.
  inversion Flat as [| ? ? E0 Flat1]; subst.
  inversion Flat1 as [| ? ? E1 Flat2]; subst.
  replace ((0 - 0) * (g 0 + g 0) / 2) with 0 by (unfold Rdiv; ring).
  change (Fin 0 :: map Fin ys) with (map Fin (0 :: ys)).
  change (Fin (g 0) :: map (fun y => Fin (g y)) ys)
    with (map (fun y => Fin (g y)) (0 :: ys)).
  apply fold_trapezoids_flat. exact Flat1.
Qed.

Lemma points_flat (n : nat) : Forall (fun y => y = 0) (Grid.points 0 0 n).
Proof.
  unfold Grid.points. apply Forall_app. split.
  - apply Forall_forall. intros y Hy. apply in_map_iff in Hy.
    destruct Hy as [k [<- _]]. unfold Rdiv. ring.
  - constructor; [reflexivity | constructor].
Qed.

Section Degenerate.

Context {scipy : SciPy}.

Variable psi : float64 -> float64 -> float64.
Variable p_sep : float64 -> float64.
Variable f : R -> R -> R.

Hypothesis psi_finite : forall x y, psi (Fin x) (Fin y) = Fin (f x y).
Hypothesis p_sep_zero : forall x, p_sep (Fin x) = Fin 0.

(** A slice under a separatrix that is 0 adds nothing to [Q] and [V]. *)
Lemma cumtrapz_slice_zero (Q V x : R) :
  cumtrapz_slice psi p_sep (Fin Q, Fin V) (Fin x) = (Fin Q, Fin V).
Proof.
  unfold cumtrapz_slice. rewrite p_sep_zero.
  rewrite (linspace_points 0 0 255), !map_map.
  rewrite (map_ext (fun y => psi (Fin x) (Fin y)) (fun y => Fin (f x y)))
    by (intros y; apply psi_finite).
  rewrite (map_ext (fun y => Np.mul (square (Fin x)) (psi (Fin x) (Fin y)))
                   (fun y => Fin (x * x * f x y)))
    by (intros y; rewrite psi_finite; reflexivity).
  pose proof (points_flat 256) as Flat. rewrite points_cons in Flat |- *.
  rewrite (last_cumtrapz_flat (fun y => f x y))
    by (try exact Flat; intros E; apply app_eq_nil in E;
        destruct E as [_ E]; discriminate E).
  rewrite (last_cumtrapz_flat (fun y => x * x * f x y))
    by (try exact Flat; intros E; apply app_eq_nil in E;
        destruct E as [_ E]; discriminate E).
  cbn [Np.add]. rewrite !Rplus_0_r. reflexivity.
Qed.

Lemma fold_slices_zero (xs : list R) : forall Q V,
  fold_left (cumtrapz_slice psi p_sep) (map Fin xs) (Fin Q, Fin V)
  = (Fin Q, Fin V).
Proof.
  induction xs as [| x xs IH]; intros Q V.
  - reflexivity.
  - cbn [map fold_left]. rewrite cumtrapz_slice_zero. apply IH.
Qed.

(** Both integrals are 0, and the estimate is [nan]. *)
Lemma cumtrapz_integrals_zero (a b : R) :
  cumtrapz_integrals psi p_sep (Fin a) (Fin b) = (Fin 0, Fin 0).
Proof.
  unfold cumtrapz_integrals.
  rewrite (linspace_points a b 255), fold_slices_zero.
  replace (Array.getitem (map Fin (Grid.points a b 256)) 1)
    with (Fin (INR 1 * ((b - a) / INR 256) + a)) by reflexivity.
  replace (Array.getitem (map Fin (Grid.points a b 256)) 0)
    with (Fin (INR 0 * ((b - a) / INR 256) + a)) by reflexivity.
  cbn [Np.sub Np.add Np.neg Np.mul]. rewrite Rmult_0_l. reflexivity.
Qed.

Lemma cumtrapz_zero (a b : R) :
  _compute_std_cumtrapz psi p_sep (Fin a) (Fin b) = Py.ret NaN.
Proof.
  unfold _compute_std_cumtrapz. rewrite cumtrapz_integrals_zero.
  rewrite NpFacts.div_zero, NpFacts.signed_inf_zero. reflexivity.
Qed.

End Degenerate.

(** A grid of two points or more starts with two entries. *)
Lemma linspace_two (a b : float64) (n : nat) :
  exists e0 e1 rest, Array.linspace a b (S (S n)) = e0 :: e1 :: rest.
Proof.
  unfold Array.linspace. rewrite <- cons_seq. cbn [map app].
  destruct n as [| n].
  - eexists. eexists. eexists. reflexivity.
  - rewrite <- cons_seq. cbn [map app].
    eexists. eexists. eexists. reflexivity.
Qed.

Lemma fold_add_nan (l : list float64) : fold_left Np.add l NaN = NaN.
Proof.
  induction l as [| v l IH].
  - reflexivity.
  - cbn [fold_left]. exact IH.
Qed.

(** The last cumulative trapezoid sum of samples that are all [nan]. *)
Lemma last_cumtrapz_nan (x0 x1 : float64) (xs : list float64) :
  Array.last (Array.cumtrapz (map (fun _ => NaN) (x0 :: x1 :: xs))
                             (x0 :: x1 :: xs))
  = NaN.
Proof.
  unfold Array.cumtrapz. cbn [map]. rewrite trapezoids_cons, last_cumsum.
  cbn [Np.add]. rewrite NpFacts.mul_nan_r. apply fold_add_nan.
Qed.

Section Undefined.

Context {scipy : SciPy}.

Variable psi : float64 -> float64 -> float64.
Variable p_sep : float64 -> float64.

Hypothesis psi_nan : forall x y, psi x y = NaN.

(** One slice of a density that is [nan] everywhere. *)
Lemma cumtrapz_slice_nan (Q V x : float64) :
  cumtrapz_slice psi p_sep (Q, V) x = (Np.add Q NaN, Np.add V NaN).
Proof.
  unfold cumtrapz_slice.
  destruct (linspace_two (Fin 0) (p_sep x) 255) as [y0 [y1 [ys Ey]]].
  change 257%nat with (S (S 255)). rewrite Ey, map_map.
  rewrite (map_ext (psi x) (fun _ => NaN)) by (intros y; apply psi_nan).
  rewrite (map_ext (fun y => Np.mul (square x) (psi x y)) (fun _ => NaN))
    by (intros y; rewrite psi_nan; apply NpFacts.mul_nan_r).
  rewrite !last_cumtrapz_nan. reflexivity.
Qed.

Lemma fold_slices_nan (xs : list float64) :
  fold_left (cumtrapz_slice psi p_sep) xs (NaN, NaN) = (NaN, NaN).
Proof.
  induction xs as [| x xs IH].
  - reflexivity.
  - cbn [fold_left]. rewrite cumtrapz_slice_nan. exact IH.
Qed.

(** The estimate of such a density is [nan], whatever the ends and the
    separatrix. *)
Lemma cumtrapz_nan (a b : float64) :
  _compute_std_cumtrapz psi p_sep a b = Py.ret NaN.
Proof.
  unfold _compute_std_cumtrapz, cumtrapz_integrals.
  destruct (linspace_two a b 255) as [x0 [x1 [xs Ex]]].
  change 257%nat with (S (S 255)). rewrite Ex.
  cbn [fold_left]. rewrite !cumtrapz_slice_nan.
  rewrite !NpFacts.add_nan_r, fold_slices_nan. reflexivity.
Qed.

End Undefined.

End CumtrapzFacts.

(** ** The example inputs *)

Module ExampleFacts.

Import RFBucket Matching.

#[local] Existing Instance Example.coarse.

Lemma weighted_squares_app w xs ys v :
  Grid.weighted_squares w (xs ++ ys) v
  = Grid.weighted_squares w ys (Grid.weighted_squares w xs v).
Proof. unfold Grid.weighted_squares. apply fold_left_app. Qed.

(** The sum of the squares of an arithmetic progression. *)
Lemma squares_closed_form (w st a : R) (n : nat) (v : R) :
  Grid.weighted_squares w (map (fun k => INR k * st + a) (seq 0 n)) v
  = v + w * (INR n * a * a + a * st * INR n * (INR n - 1)
             + st * st * (INR n - 1) * INR n * (2 * INR n - 1) / 6).
Proof.
  induction n as [| n IH].
  - cbn. field.
  - rewrite seq_S, map_app, weighted_squares_app, IH.
    cbn [map Nat.add]. unfold Grid.weighted_squares at 1. cbn [fold_left].
    rewrite S_INR. field.
Qed.

Lemma INR_256 : INR 256 = 256.
Proof. rewrite INR_IZR_INZ. reflexivity. Qed.

Lemma INR_257 : INR 257 = 257.
Proof. rewrite INR_IZR_INZ. reflexivity. Qed.

Lemma flat_squares :
  Grid.weighted_squares (1 * 1) (Grid.points (-1) 1 256) 0 = 33153 / 384.
Proof.
  unfold Grid.points. rewrite weighted_squares_app, squares_closed_form.
  unfold Grid.weighted_squares. cbn [fold_left]. rewrite INR_256. field.
Qed.

(** The density of a flat Hamiltonian is 1 everywhere. *)
Lemma flat_density (psi : SE.t) (z dp : float64) :
  SE.H psi z dp = Fin 1 -> SE.H0 psi = Fin 1 -> SE.Hmax psi = Fin 1 ->
  SE.function psi z dp = Fin 1.
Proof.
  intros EH E0 Em.
  pose proof NpFacts.exp_max_bounds as B.
  rewrite (StationaryExponentialFacts.function_fin psi z dp 1 1 1)
    by (assumption || lra).
  f_equal. pose proof (NpFacts.exp_gt_1 (1 / 1) ltac:(lra)) as G.
  field. lra.
Qed.

(** The composite trapezoid estimate of the uniform density on the box
    [-1, 1] x [0, 1]. *)
Lemma flat_estimate (psi : float64 -> float64 -> float64) :
  (forall x y, psi (Fin x) (Fin y) = Fin 1) ->
  _compute_std_cumtrapz psi (fun _ => Fin 1) (Fin (-1)) (Fin 1)
  = Py.ret (Fin Example.flat_std).
Proof.
  intros U. unfold _compute_std_cumtrapz.
  rewrite (CumtrapzFacts.cumtrapz_uniform psi (fun _ => Fin 1) 1 1 U
             (fun _ => eq_refl) (-1) 1).
  rewrite flat_squares, INR_256, INR_257.
  rewrite NpFacts.div_fin by lra.
  replace (33153 / 384 * ((1 - -1) / 256) / (257 * (1 * 1) * ((1 - -1) / 256)))
    with (43 / 128) by field.
  rewrite NpFacts.sqrt_fin by lra. reflexivity.
Qed.

Lemma flat_std_bounds : 0.57 < Example.flat_std < 0.58.
Proof.
  unfold Example.flat_std. split.
  - rewrite <- (sqrt_square 0.57) by lra. apply sqrt_lt_1_alt. lra.
  - rewrite <- (sqrt_square 0.58) by lra. apply sqrt_lt_1_alt. lra.
Qed.

Lemma flat_start (rf : rfsystem) (sigma : float64) :
  rf_hamiltonian rf = (fun _ _ => Fin 1) -> rf_H0 rf = (fun _ => Fin 1) ->
  Example.is_flat (m_psi (start (init sigma rf)
                    (SE.set_Hmax (SE.init (hamiltonian (init sigma rf)))
                                 (Fin 1))
                    sigma)).
Proof.
  intros EH E0. unfold Example.is_flat, start, init, SE.set_Hmax, SE.set_H0,
    SE.init. cbn [m_psi SE.H SE.H0 SE.Hmax hamiltonian H0].
  rewrite EH, E0. repeat split.
Qed.

Lemma flat_next (rf : rfsystem) (sigma z0 : float64) (m : matcher) :
  rf_H0 rf = (fun _ => Fin 1) ->
  Example.is_flat (m_psi m) -> Example.is_flat (m_psi (next (init sigma rf) z0 m)).
Proof.
  intros E0 [EH [_ Em]]. unfold Example.is_flat, next, init, SE.set_H0.
  cbn [m_psi SE.H SE.H0 SE.Hmax H0]. rewrite E0. repeat split.
  - exact EH.
  - exact Em.
Qed.

Lemma flat_bucket_estimate (sigma : float64) (psi : SE.t) :
  Example.is_flat psi -> estimate (init sigma Example.flat) psi = Fin Example.flat_std.
Proof.
  intros [EH [E0 Em]]. unfold estimate, call_compute_std.
  change (method (_compute_std (init sigma Example.flat)))
    with _compute_std_cumtrapz.
  change (separatrix (init sigma Example.flat)) with (fun _ : float64 => Fin 1).
  change (fst (z_sep (init sigma Example.flat))) with (Fin (-1)).
  change (snd (z_sep (init sigma Example.flat))) with (Fin 1).
  rewrite flat_estimate.
  - reflexivity.
  - intros x y. apply flat_density; [apply EH | exact E0 | exact Em].
Qed.

Lemma closed_bucket_estimate (sigma : float64) (psi : SE.t) :
  Example.is_flat psi -> estimate (init sigma Example.closed) psi = NaN.
Proof.
  intros [EH [E0 Em]]. unfold estimate, call_compute_std.
  change (method (_compute_std (init sigma Example.closed)))
    with _compute_std_cumtrapz.
  change (separatrix (init sigma Example.closed))
    with (fun _ : float64 => Fin 0).
  change (fst (z_sep (init sigma Example.closed))) with (Fin (-1)).
  change (snd (z_sep (init sigma Example.closed))) with (Fin 1).
  rewrite (CumtrapzFacts.cumtrapz_zero (SE.function psi) (fun _ => Fin 0)
             (fun _ _ => 1)).
  - reflexivity.
  - intros x y. apply flat_density; [apply EH | exact E0 | exact Em].
  - reflexivity.
Qed.

Lemma flat_amax (rf : rfsystem) (sigma : float64) :
  rf_hamiltonian rf = (fun _ _ => Fin 1) -> rf_z_extrema rf = [Fin 0] ->
  Array.amax (map (fun z => hamiltonian (init sigma rf) z (Fin 0))
                  (z_extrema (init sigma rf)))
  = Py.ret (Fin 1).
Proof.
  intros EH Ez. unfold init. cbn [hamiltonian z_extrema].
  rewrite EH, Ez. reflexivity.
Qed.

(** The first pass with a flat Hamiltonian, whatever the estimate [zS]. *)
Lemma flat_first_pass (rf : rfsystem) (s : R) (zS : float64) :
  rf_hamiltonian rf = (fun _ _ => Fin 1) -> rf_H0 rf = (fun _ => Fin 1) ->
  (forall psi, Example.is_flat psi -> estimate (init (Fin s) rf) psi = zS) ->
  let self := init (Fin s) rf in
  let m1 := after 1 self (Fin s)
              (start self (SE.set_Hmax (SE.init (hamiltonian self)) (Fin 1))
                     (Fin s)) in
  Example.is_flat (m_psi m1)
  /\ m_eps m1 = Np.sub zS (Fin s)
  /\ m_zH m1 = Np.sub (Fin s) (Np.mul (Fin 0.5) (Np.sub zS (Fin s)))
  /\ m_counter m1 = 1%nat.
Proof.
  intros EH E0 Est self m1.
  set (m0 := start self (SE.set_Hmax (SE.init (hamiltonian self)) (Fin 1))
                   (Fin s)) in *.
  assert (Example.is_flat (m_psi m0)) as F0 by (apply flat_start; assumption).
  assert (estimate self (m_psi m0) = zS) as E1 by (apply Est; exact F0).
  split; [| split; [| split]].
  - apply flat_next; assumption.
  - change (m_eps m1) with (Np.sub (estimate self (m_psi m0)) (Fin s)).
    rewrite E1. reflexivity.
  - change (m_zH m1)
      with (Np.sub (Fin s)
              (Np.mul (Fin 0.5) (Np.sub (estimate self (m_psi m0)) (Fin s)))).
    rewrite E1. reflexivity.
  - reflexivity.
Qed.


(** The pre-check of the flat example: the one-point rule of the stand-in
    gives [Q = 2], and the pre-check of the closed one [Q = 0]. *)
Lemma flat_precheck (sigma : float64) :
  precheck_Q (init sigma Example.flat)
    (SE.init (hamiltonian (init sigma Example.flat)))
  = Fin ((1 - -1) * (1 - 0) * 1).
Proof.
  unfold precheck_Q, quad_integrals. cbn [dblquad Example.coarse fst].
  change (separatrix (init sigma Example.flat) (Fin (-1))) with (Fin 1).
  rewrite flat_density by reflexivity. reflexivity.
Qed.

Lemma flat_precheck_returns (sigma : float64) :
  precheck_Q (init sigma Example.flat)
    (SE.init (hamiltonian (init sigma Example.flat)))
  <> Fin 0.
Proof. rewrite flat_precheck. intros E. injection E as E. lra. Qed.

Lemma closed_precheck (sigma : float64) :
  precheck_Q (init sigma Example.closed)
    (SE.init (hamiltonian (init sigma Example.closed)))
  = Fin 0.
Proof.
  unfold precheck_Q, quad_integrals. cbn [dblquad Example.coarse fst].
  change (separatrix (init sigma Example.closed) (Fin (-1))) with (Fin 0).
  rewrite flat_density by reflexivity.
  change (Fin ((1 + - -1) * (0 + - 0) * 1) = Fin 0). f_equal. ring.
Qed.

(** A run that leaves the loop after its first pass. *)
Lemma flat_leaves_at_first (rf : rfsystem) (s : R) (zS : float64) :
  rf_hamiltonian rf = (fun _ _ => Fin 1) -> rf_H0 rf = (fun _ => Fin 1) ->
  rf_z_extrema rf = [Fin 0] ->
  precheck_Q (init (Fin s) rf) (SE.init (rf_hamiltonian rf)) <> Fin 0 ->
  (forall psi, Example.is_flat psi -> estimate (init (Fin s) rf) psi = zS) ->
  Np.gt (Np.abs (Np.sub zS (Fin s))) (Fin 1e-4) = false ->
  let self := init (Fin s) rf in
  let m1 := after 1 self (Fin s)
              (start self (SE.set_Hmax (SE.init (hamiltonian self)) (Fin 1))
                     (Fin s)) in
  Py.outcome (_set_target_std self (SE.init (hamiltonian self)) (sigma_z self))
  = Ok (m_psi m1)
  /\ m_eps m1 = Np.sub zS (Fin s).
Proof.
  intros EH E0 Ez Pre Est Small self m1.
  destruct (flat_first_pass rf s zS EH E0 Est) as [_ [Eeps _]].
  fold self in Eeps. fold m1 in Eeps. split; [| exact Eeps].
  change (sigma_z self) with (Fin s).
  destruct (MatchingFacts.set_target_std_solve self
              (SE.init (hamiltonian self)) (Fin s) Pre) as [-> _].
  unfold m1.
  apply (MatchingFacts.solve_leaves self (SE.init (hamiltonian self))
           (Fin s) (Fin 1) 1).
  - apply flat_amax; assumption.
  - lia.
  - fold m1. unfold guard. rewrite Eeps. exact Small.
  - intros j Hj. replace j with O by lia. apply MatchingFacts.guard_start.
  - intros j Hj. apply EstimatorFacts.init_estimated.
Qed.

(** C6, counterexample.  With a separatrix function that is 0 everywhere
    the quadrature of the pre-check finds [Q = 0]: the pre-check raises
    [ZeroDivisionError] before it has printed an estimate or a warning, and
    [_set_target_std] ends there, so the matching does not proceed. *)
Lemma closed_precheck_raises :
  let self := init (Fin 1) Example.closed in
  let psi := SE.init (hamiltonian self) in
  precheck_Q self psi = Fin 0
  /\ _test_maximum_std self psi (sigma_z self)
     = ([], Raise (ZeroDivisionError "float division by zero"))
  /\ _set_target_std self psi (sigma_z self)
     = ([], Raise (ZeroDivisionError "float division by zero")).
Proof.
  intros self psi. pose proof (closed_precheck (Fin 1)) as Z.
  split; [exact Z |]. split.
  - apply (MatchingFacts.test_maximum_std_raises self psi _ Z).
  - apply (MatchingFacts.set_target_std_raises self psi _ Z).
Qed.

(** C7, counterexample.  With a separatrix function that is 0 everywhere
    both sums are 0, and the composite trapezoid estimate returns [nan]: it
    raises nothing. *)
Lemma zero_separatrix_returns_nan :
  let self := init (Fin 1) Example.closed in
  let psi := SE.set_Hmax (SE.init (hamiltonian self)) (Fin 1) in
  cumtrapz_integrals (SE.function psi) (separatrix self)
    (fst (z_sep self)) (snd (z_sep self)) = (Fin 0, Fin 0)
  /\ call_compute_std self (SE.function psi) (separatrix self)
       (fst (z_sep self)) (snd (z_sep self)) = ([], Ok NaN).
Proof.
  intros self psi.
  assert (forall x y, SE.function psi (Fin x) (Fin y) = Fin 1) as U.
  { intros x y. apply flat_density; reflexivity. }
  split.
  - apply (CumtrapzFacts.cumtrapz_integrals_zero (SE.function psi)
             (fun _ => Fin 0) (fun _ _ => 1) U (fun _ => eq_refl) (-1) 1).
  - apply (CumtrapzFacts.cumtrapz_zero (SE.function psi)
             (fun _ => Fin 0) (fun _ _ => 1) U (fun _ => eq_refl) (-1) 1).
Qed.

End ExampleFacts.

(** ** What the specification states about the estimators and [Hmax] *)

Module EstimatorProperties.

Import RFBucket Matching.

#[local] Existing Instance Example.coarse.

(** C7, as the code has it.  No strategy looks at the sign of [Q].  With
    [Q = 0] the quadrature raises the [ZeroDivisionError] of its division
    of Python floats, while the trapezoid and the Romberg strategy raise
    nothing and return [np.sqrt(V / Q)], which is [nan] or [inf] then.
    With [Q < 0] none of the three raises: each returns
    [np.sqrt(V / Q)]. *)
Theorem degenerate_normalization {scipy : SciPy} st psi p_sep xmin xmax
    (q : R) (V : float64) :
  integrals st psi p_sep xmin xmax = (Fin q, V) -> q <= 0 ->
  (st = Quad /\ q = 0
   /\ method st psi p_sep xmin xmax = Py.raise float_division_by_zero)
  \/ ((st <> Quad \/ q < 0)
      /\ method st psi p_sep xmin xmax = Py.ret (Np.sqrt (Np.div V (Fin q)))
      /\ (q < 0 \/ Np.sqrt (Np.div V (Fin q)) = NaN
          \/ Np.sqrt (Np.div V (Fin q)) = PInf)).
Proof.
  intros E Hq.
  assert (q = 0 ->
          Np.sqrt (Np.div V (Fin q)) = NaN
          \/ Np.sqrt (Np.div V (Fin q)) = PInf) as Zero.
  { intros ->.
    destruct (NpFacts.div_by_zero V) as [D | [D | D]]; rewrite D.
    - left. reflexivity.
    - right. reflexivity.
    - left. reflexivity. }
  assert (q < 0 \/ Np.sqrt (Np.div V (Fin q)) = NaN
          \/ Np.sqrt (Np.div V (Fin q)) = PInf) as Value.
  { destruct Hq as [L | Z]; [left; exact L | right; apply Zero; exact Z]. }
  destruct st; cbn [method]; cbn [integrals] in E.
  - destruct Hq as [L | Z].
    + right. split; [right; exact L |]. split; [| exact Value].
      rewrite EstimatorFacts.quad_returns; rewrite E; cbn [fst snd].
      * reflexivity.
      * intros F. injection F as F. lra.
    + left. split; [reflexivity |]. split; [exact Z |].
      apply EstimatorFacts.quad_raises. rewrite E, Z. reflexivity.
  - right. split; [left; discriminate |]. split; [| exact Value].
    rewrite EstimatorFacts.cumtrapz_returns, E. reflexivity.
  - right. split; [left; discriminate |]. split; [| exact Value].
    rewrite EstimatorFacts.romberg_returns, E. reflexivity.
Qed.

(** The composite trapezoid sums under a separatrix function that is 0. *)
Lemma degenerate_normalization_witness :
  let psi := StationaryExponential.mk (fun _ _ => Fin 1) (Fin 1) (Fin 1) in
  let call := method Cumtrapz (SE.function psi) (fun _ => Fin 0) (Fin (-1))
                (Fin 1) in
  (Cumtrapz = Quad /\ 0 = 0 /\ call = Py.raise float_division_by_zero)
  \/ ((Cumtrapz <> Quad \/ 0 < 0)
      /\ call = Py.ret (Np.sqrt (Np.div (Fin 0) (Fin 0)))
      /\ (0 < 0 \/ Np.sqrt (Np.div (Fin 0) (Fin 0)) = NaN
          \/ Np.sqrt (Np.div (Fin 0) (Fin 0)) = PInf)).
Proof.
  intros psi call.
  apply (degenerate_normalization Cumtrapz (SE.function psi)
           (fun _ => Fin 0) (Fin (-1)) (Fin 1) 0 (Fin 0)).
  - apply (CumtrapzFacts.cumtrapz_integrals_zero (SE.function psi)
             (fun _ => Fin 0) (fun _ _ => 1)).
    + intros x y. apply ExampleFacts.flat_density; reflexivity.
    + reflexivity.
  - lra.
Defined.

(** C4 at the input [Example.shifted], a harmonic well centred at [z = 1]
    whose Hamiltonian is 0 at the origin and 1 at its extremum.  The
    pre-check computes its three estimates with the object in a state whose
    [Hmax] is still the [H(0, 0)] of the constructor, not the maximum over
    the extrema that the iterative solve sets afterwards and keeps at every
    pass: in the pre-check the density at the extremum is [inf], where the
    solve has it at 1. *)
Theorem precheck_uses_origin :
  let self := init (Fin 1) Example.shifted in
  let psi0 := SE.init (hamiltonian self) in
  let psi' := SE.set_H0 psi0 (H0 self (circumference self)) in
  (exists zq zc zr,
     _compute_std_quad (SE.function psi') (separatrix self)
       (fst (z_sep self)) (snd (z_sep self)) = Py.ret zq
     /\ _compute_std_cumtrapz (SE.function psi') (separatrix self)
          (fst (z_sep self)) (snd (z_sep self)) = Py.ret zc
     /\ _compute_std_romberg (SE.function psi') (separatrix self)
          (fst (z_sep self)) (snd (z_sep self)) = Py.ret zr
     /\ _test_maximum_std self psi0 (sigma_z self)
        = ((report (sigma_z self) zq ++ report (sigma_z self) zc
            ++ report (sigma_z self) zr)%list, Ok psi'))
  /\ SE.Hmax psi' = hamiltonian self (Fin 0) (Fin 0)
  /\ SE.Hmax psi' = Fin 0
  /\ Array.amax (map (fun z => hamiltonian self z (Fin 0)) (z_extrema self))
     = Py.ret (Fin 1)
  /\ (forall k,
        SE.Hmax (m_psi (after k self (sigma_z self)
                          (start self (SE.set_Hmax psi' (Fin 1))
                                 (sigma_z self))))
        = Fin 1)
  /\ SE.function psi' (Fin 1) (Fin 0) = PInf
  /\ SE.function (SE.set_Hmax psi' (Fin 1)) (Fin 1) (Fin 0) = Fin 1.
Proof.
  intros self psi0 psi'.
  assert (hamiltonian self (Fin 0) (Fin 0) = Fin 0) as At0.
  { change (Fin (1 - (0 - 1) * (0 - 1) - 0 * 0) = Fin 0). f_equal. ring. }
  assert (hamiltonian self (Fin 1) (Fin 0) = Fin 1) as At1.
  { change (Fin (1 - (1 - 1) * (1 - 1) - 0 * 0) = Fin 1). f_equal. ring. }
  assert (SE.Hmax psi' = Fin 0) as Em by exact At0.
  pose proof (NpFacts.exp_gt_1 (1 / 1) ltac:(lra)) as G.
  split; [| split; [| split; [| split; [| split; [| split]]]]].
  - apply (MatchingFacts.test_maximum_std_run self psi0 (sigma_z self)).
    unfold precheck_Q, quad_integrals. cbn [dblquad Example.coarse fst].
    fold psi'.
    assert (SE.function psi' (Fin 0) (Fin 0) = NaN) as Origin.
    { unfold SE.function. rewrite Em.
      change (SE.H psi' (Fin 0) (Fin 0))
        with (hamiltonian self (Fin 0) (Fin 0)).
      rewrite At0. change (SE.H0 psi') with (Fin 1).
      rewrite !NpFacts.div_fin by lra. rewrite !NpFacts.exp_small by lra.
      rewrite !NpFacts.sub_fin.
      replace (0 / 1) with 0 by field. rewrite exp_0.
      replace (1 - 1) with 0 by ring.
      rewrite NpFacts.div_zero. apply NpFacts.signed_inf_zero. }
    change (fst (z_sep self)) with (Fin 0). rewrite Origin.
    rewrite NpFacts.mul_nan_r. discriminate.
  - reflexivity.
  - exact Em.
  - change (Py.ret (hamiltonian self (Fin 1) (Fin 0)) = Py.ret (Fin 1)).
    rewrite At1. reflexivity.
  - intros k. rewrite MatchingFacts.after_Hmax. reflexivity.
  - unfold SE.function. rewrite Em.
    change (SE.H psi' (Fin 1) (Fin 0)) with (hamiltonian self (Fin 1) (Fin 0)).
    rewrite At1. change (SE.H0 psi') with (Fin 1).
    rewrite !NpFacts.div_fin by lra.
    rewrite !NpFacts.exp_small by lra.
    rewrite !NpFacts.sub_fin.
    replace (0 / 1) with 0 by field. rewrite exp_0.
    replace (1 - 1) with 0 by ring.
    rewrite NpFacts.div_zero. unfold Np.signed_inf.
    destruct (Req_dec_T (exp (1 / 1) - 1) 0) as [E | _]; [lra |].
    destruct (Rlt_dec 0 (exp (1 / 1) - 1)) as [_ | N]; [reflexivity | lra].
  - pose proof NpFacts.exp_max_bounds as B.
    rewrite (StationaryExponentialFacts.function_fin _ _ _ 1 1 1).
    + f_equal. field. lra.
    + exact At1.
    + reflexivity.
    + reflexivity.
    + lra.
    + lra.
    + lra.
    + lra.
Qed.

End EstimatorProperties.


(** ** A residual that is [nan] *)

Module ConvergenceProperties.

Import RFBucket Matching.

Section Statements.

Context {scipy : SciPy}.

(** The density of the flat Hamiltonian under a scale of [0.03 * 0.03]:
    both exponentials overflow. *)
Lemma stiff_density (psi : SE.t) (z dp : float64) :
  SE.H psi = (fun _ _ => Fin 1) -> SE.H0 psi = Fin (0.03 * 0.03) ->
  SE.Hmax psi = Fin 1 ->
  SE.function psi z dp = NaN.
Proof.
  intros EH E0 Em.
  assert (Np.exp_max < 1 / (0.03 * 0.03)) as Over.
  { pose proof NpFacts.exp_max_bounds as B.
    apply Rmult_lt_reg_r with (0.03 * 0.03); [lra |].
    unfold Rdiv. rewrite Rmult_assoc, Rinv_l by lra. lra. }
  apply (StationaryExponentialFacts.function_overflow psi z dp 1
           (0.03 * 0.03) 1).
  - rewrite EH. reflexivity.
  - exact E0.
  - exact Em.
  - lra.
  - exact Over.
  - exact Over.
Qed.

(** C2 at the input [RFBucket(0.03, Samples.stiff)], for a pre-check that
    returns.  With the target 0.03 the first scale of the loop is
    [H0 = 0.0009]: [exp(Hmax/H0)] overflows and the density is [nan]
    everywhere.  The estimate of the first pass and its residual are
    [nan], the test [abs(eps) > 1e-4] is [False] on it, and the call
    prints [*** Converged!] and returns a density whose scale is [nan]:
    the loop is left although no residual ever fell below [1e-4]. *)
Theorem converged_on_nan :
  let self := init (Fin 0.03) Samples.stiff in
  let psi0 := SE.init (hamiltonian self) in
  let m0 := start self (SE.set_Hmax psi0 (Fin 1)) (sigma_z self) in
  let m1 := next self (sigma_z self) m0 in
  precheck_Q self psi0 <> Fin 0 ->
  SE.H0 (m_psi m0) = Fin (0.03 * 0.03)
  /\ (forall z dp, SE.function (m_psi m0) z dp = NaN)
  /\ estimate self (m_psi m0) = NaN
  /\ m_eps m1 = NaN
  /\ guard m1 = false
  /\ Py.outcome (_set_target_std self psi0 (sigma_z self)) = Ok (m_psi m1)
  /\ (exists out,
        Py.output (_set_target_std self psi0 (sigma_z self))
        = (out ++ [[Int 0; Flt (Fin 0.03); Flt NaN; Flt NaN];
                   [Str "*** Converged!\n"]])%list)
  /\ SE.H0 (m_psi m1) = NaN.
Proof.
  intros self psi0 m0 m1 Pre.
  assert (forall z dp, SE.function (m_psi m0) z dp = NaN) as Dark.
  { intros z dp. apply stiff_density; reflexivity. }
  assert (estimate self (m_psi m0) = NaN) as Est.
  { unfold estimate, call_compute_std.
    change (method (_compute_std self)) with _compute_std_cumtrapz.
    rewrite (CumtrapzFacts.cumtrapz_nan (SE.function (m_psi m0))
               (separatrix self) Dark).
    reflexivity. }
  assert (m_eps m1 = NaN) as Eeps.
  { change (m_eps m1)
      with (Np.sub (estimate self (m_psi m0)) (sigma_z self)).
    rewrite Est. reflexivity. }
  assert (guard m1 = false) as Stop.
  { unfold guard. rewrite Eeps. reflexivity. }
  assert (m_zH m1 = NaN) as EzH.
  { change (m_zH m1)
      with (Np.sub (m_zH m0)
              (Np.mul (Fin 0.5)
                 (Np.sub (estimate self (m_psi m0)) (sigma_z self)))).
    rewrite Est. change (m_zH m0) with (Fin 0.03). reflexivity. }
  assert (while_loop 101 self (sigma_z self) m0
          = ([[Int 0; Flt (Fin 0.03); Flt NaN; Flt NaN]], Ok m1)) as W.
  { rewrite (MatchingFacts.while_loop_one_pass 100 self (sigma_z self) m0).
    - rewrite Est. reflexivity.
    - cbn. lia.
    - apply MatchingFacts.guard_start.
    - apply EstimatorFacts.init_estimated.
    - exact Stop. }
  destruct (MatchingFacts.set_target_std_solve self psi0 (sigma_z self) Pre)
    as [Eo Eout].
  assert (solve self psi0 (sigma_z self)
          = ([[Str "Iterative evaluation of bunch length..."];
              [Int 0; Flt (Fin 0.03); Flt NaN; Flt NaN];
              [Str "*** Converged!\n"]], Ok (m_psi m1))) as Solve.
  { unfold solve.
    change (Array.amax
              (map (fun z => hamiltonian self z (Fin 0)) (z_extrema self)))
      with (Py.ret (Fin 1)).
    rewrite MatchingFacts.bind_ret. fold psi0. fold m0. rewrite W.
    reflexivity. }
  split; [reflexivity |]. split; [exact Dark |]. split; [exact Est |].
  split; [exact Eeps |]. split; [exact Stop |]. split.
  - rewrite Eo, Solve. reflexivity.
  - split.
    + rewrite Eout, Solve. cbn [Py.output fst].
      exists (Py.output (_test_maximum_std self psi0 (sigma_z self))
              ++ [[Str "Iterative evaluation of bunch length..."]])%list.
      rewrite <- app_assoc. reflexivity.
    + change (SE.H0 (m_psi m1)) with (Np.mul (m_zH m1) (m_zH m1)).
      rewrite EzH. reflexivity.
Qed.

End Statements.

End ConvergenceProperties.
(** ** The statements at example inputs *)

Module Witnesses.

Import RFBucket Matching.

#[local] Existing Instance Example.coarse.




(** The pre-check of [RFBucket(0.03, Samples.stiff)] returns: its scale
    is [H0(circumference) = 4], the density is 1, and the one-point rule
    of the stand-in gives [Q = 2]. *)
Lemma converged_on_nan_witness :
  let self := init (Fin 0.03) Samples.stiff in
  let psi0 := SE.init (hamiltonian self) in
  let m0 := start self (SE.set_Hmax psi0 (Fin 1)) (sigma_z self) in
  let m1 := next self (sigma_z self) m0 in
  SE.H0 (m_psi m0) = Fin (0.03 * 0.03)
  /\ (forall z dp, SE.function (m_psi m0) z dp = NaN)
  /\ estimate self (m_psi m0) = NaN
  /\ m_eps m1 = NaN
  /\ guard m1 = false
  /\ Py.outcome (_set_target_std self psi0 (sigma_z self)) = Ok (m_psi m1)
  /\ (exists out,
        Py.output (_set_target_std self psi0 (sigma_z self))
        = (out ++ [[Int 0; Flt (Fin 0.03); Flt NaN; Flt NaN];
                   [Str "*** Converged!\n"]])%list)
  /\ SE.H0 (m_psi m1) = NaN.
Proof.
  intros self psi0 m0 m1.
  apply ConvergenceProperties.converged_on_nan.
  unfold precheck_Q, quad_integrals. cbn [dblquad Example.coarse fst].
  change (separatrix self (Fin (-1))) with (Fin 1).
  pose proof NpFacts.exp_max_bounds as B.
  rewrite (StationaryExponentialFacts.function_fin _ _ _ 1 (2 * 2) 1)
    by (reflexivity || lra).
  intros E. injection E as E.
  assert (exp (1 / (2 * 2)) - 1 <> 0) as D
    by (apply StationaryExponentialFacts.expm1_neq_0; lra).
  unfold Rdiv at 1 in E. rewrite Rinv_r in E by exact D. lra.
Defined.

End Witnesses.

(** ** The rejection loop *)

Module SamplingFacts.

Import RFBucket Sampling.

Lemma setitem_app_zeros (l : list float64) (m : nat) (v : float64) :
  Array.setitem (l ++ Array.zeros (S m)) (List.length l) v
  = (l ++ v :: Array.zeros m)%list.
Proof.
  induction l as [| w l IH].
  - reflexivity.
  - cbn [app List.length Array.setitem]. rewrite IH. reflexivity.
Qed.

Lemma zeros_length (n : nat) : List.length (Array.zeros n) = n.
Proof. apply repeat_length. Qed.

Section Loop.

Context {scipy : SciPy}.

Variable self : t.
Variable interp : float64 -> float64 -> float64.
Variable particles : Particles.t.
Variable g : RandomState.

Lemma accepted_among_S (i : nat) :
  accepted_among self interp g (S i)
  = (accepted_among self interp g i
     ++ (if accepted interp (nth_proposal self g i)
         then [nth_proposal self g i] else []))%list.
Proof.
  unfold accepted_among. rewrite seq_S, map_app, filter_app. reflexivity.
Qed.

(** What one pass does to the variables, in terms of the proposal it
    draws. *)
Lemma rejection_proposal (s : sampler) :
  stream (s_random s) = stream g ->
  position (s_random s) = (position g + 3 * s_i s)%nat ->
  rejection (xmin self) (lx self) (ymin self) (ly self) interp s
  = let p := nth_proposal self g (s_i s) in
    let g' := {| stream := stream g;
                 position := S (S (S (position (s_random s)))) |} in
    if accepted interp p then
      {| s_x := Array.setitem (s_x s) (s_j s) (p_u p);
         s_y := Array.setitem (s_y s) (s_j s) (p_v p);
         s_i := S (s_i s); s_j := S (s_j s);
         s_random := g'; s_particles := s_particles s |}
    else
      {| s_x := s_x s; s_y := s_y s; s_i := S (s_i s); s_j := s_j s;
         s_random := g'; s_particles := s_particles s |}.
Proof.
  intros Hs Hpos. unfold rejection, random, accepted, nth_proposal.
  cbn [stream position p_u p_v p_s]. rewrite Hs, Hpos.
  replace (S (position g + 3 * s_i s)) with (position g + 3 * s_i s + 1)%nat
    by lia.
  replace (S (position g + 3 * s_i s + 1))
    with (position g + 3 * s_i s + 2)%nat by lia.
  reflexivity.
Qed.

Lemma initial_consistent :
  consistent self interp particles g (initial particles g).
Proof.
  unfold consistent, initial, accepted_among.
  cbn [s_x s_y s_i s_j s_random s_particles seq map filter List.length app].
  rewrite Nat.sub_0_r. repeat split; lia.
Qed.

Lemma rejection_consistent (s : sampler) :
  consistent self interp particles g s ->
  (s_j s < Particles.n_macroparticles particles)%nat ->
  consistent self interp particles g
    (rejection (xmin self) (lx self) (ymin self) (ly self) interp s)
  /\ s_i (rejection (xmin self) (lx self) (ymin self) (ly self) interp s)
     = S (s_i s).
Proof.
  intros (Hp & Hs & Hpos & Hj & Hle & Hx & Hy) Lt.
  rewrite (rejection_proposal s Hs Hpos). cbv zeta.
  unfold consistent.
  destruct (accepted interp (nth_proposal self g (s_i s))) eqn:A;
    cbn [s_x s_y s_i s_j s_random s_particles stream position];
    rewrite accepted_among_S, A.
  - rewrite length_app, !map_app. cbn [List.length map].
    split; [| reflexivity].
    repeat split; try assumption; try lia.
    + rewrite Hx, Hj.
      replace (Particles.n_macroparticles particles
               - List.length (accepted_among self interp g (s_i s)))%nat
        with (S (Particles.n_macroparticles particles
                 - S (List.length (accepted_among self interp g (s_i s)))))
        by lia.
      rewrite <- (length_map p_u) at 2.
      rewrite setitem_app_zeros, <- app_assoc. reflexivity.
    + rewrite Hy, Hj.
      replace (Particles.n_macroparticles particles
               - List.length (accepted_among self interp g (s_i s)))%nat
        with (S (Particles.n_macroparticles particles
                 - S (List.length (accepted_among self interp g (s_i s)))))
        by lia.
      rewrite <- (length_map p_v) at 2.
      rewrite setitem_app_zeros, <- app_assoc. reflexivity.
  - rewrite app_nil_r. split; [| reflexivity].
    repeat split; try assumption; lia.
Qed.

Lemma rejection_loop_consistent (fuel : nat) : forall s,
  consistent self interp particles g s ->
  consistent self interp particles g
    (rejection_loop fuel (xmin self) (lx self) (ymin self) (ly self) interp s).
Proof.
  induction fuel as [| fuel IH]; intros s Inv.
  - exact Inv.
  - cbn [rejection_loop].
    destruct (s_j s <? Particles.n_macroparticles (s_particles s))%nat eqn:C.
    + apply IH. apply rejection_consistent.
      * exact Inv.
      * destruct Inv as (Hp & _). rewrite Hp in C.
        apply Nat.ltb_lt in C. exact C.
    + exact Inv.
Qed.

(** Enough passes end the loop: it stops once [n] of the proposals made
    so far were accepted. *)
Lemma rejection_loop_enough (fuel : nat) : forall s,
  consistent self interp particles g s ->
  (Particles.n_macroparticles particles
   <= List.length (accepted_among self interp g (s_i s + fuel)))%nat ->
  (s_j (rejection_loop fuel (xmin self) (lx self) (ymin self) (ly self)
          interp s)
   <? Particles.n_macroparticles particles)%nat = false.
Proof.
  induction fuel as [| fuel IH]; intros s Inv Enough.
  - cbn [rejection_loop]. apply Nat.ltb_ge.
    destruct Inv as (_ & _ & _ & Hj & _). rewrite Hj.
    rewrite Nat.add_0_r in Enough. exact Enough.
  - cbn [rejection_loop].
    destruct (s_j s <? Particles.n_macroparticles (s_particles s))%nat eqn:C.
    + destruct (rejection_consistent s Inv) as [Inv' Ei].
      * destruct Inv as (Hp & _). rewrite Hp in C.
        apply Nat.ltb_lt in C. exact C.
      * apply IH; [exact Inv' |]. rewrite Ei.
        replace (S (s_i s) + fuel)%nat with (s_i s + S fuel)%nat by lia.
        exact Enough.
    + destruct Inv as (Hp & _). rewrite Hp in C. exact C.
Qed.

Lemma accepted_among_all (i : nat) :
  (forall k, accepted interp (nth_proposal self g k) = true) ->
  List.length (accepted_among self interp g i) = i.
Proof.
  intros All. induction i as [| i IH].
  - reflexivity.
  - rewrite accepted_among_S, All, length_app, IH. cbn. lia.
Qed.

End Loop.

Section Runs.

Context {scipy : SciPy}.

(** The loop reads nothing of the generator but the draws to come, and
    nothing of the buffer but its [n_macroparticles]. *)
Lemma rejection_alike xmin lx ymin ly interp (s s' : sampler) :
  alike s s' ->
  alike (rejection xmin lx ymin ly interp s)
        (rejection xmin lx ymin ly interp s').
Proof.
  intros (Hx & Hy & Hi & Hj & Hn & Hs).
  pose proof (Hs 0%nat) as E0. pose proof (Hs 1%nat) as E1.
  pose proof (Hs 2%nat) as E2.
  rewrite !Nat.add_0_r in E0.
  replace (position (s_random s) + 1)%nat
    with (S (position (s_random s))) in E1 by lia.
  replace (position (s_random s') + 1)%nat
    with (S (position (s_random s'))) in E1 by lia.
  replace (position (s_random s) + 2)%nat
    with (S (S (position (s_random s)))) in E2 by lia.
  replace (position (s_random s') + 2)%nat
    with (S (S (position (s_random s')))) in E2 by lia.
  assert (forall k,
             stream (s_random s) (S (S (S (position (s_random s)))) + k)
             = stream (s_random s') (S (S (S (position (s_random s')))) + k))
    as Hs'.
  { intros k. pose proof (Hs (3 + k)%nat) as E.
    replace (position (s_random s) + (3 + k))%nat
      with (S (S (S (position (s_random s)))) + k)%nat in E by lia.
    replace (position (s_random s') + (3 + k))%nat
      with (S (S (S (position (s_random s')))) + k)%nat in E by lia.
    exact E. }
  unfold rejection, random. cbn [stream position].
  rewrite Hx, Hy, Hi, Hj, E0, E1, E2.
  destruct (Np.lt _ _); unfold alike;
    cbn [s_x s_y s_i s_j s_random s_particles stream position];
    repeat split; try reflexivity; assumption.
Qed.

Lemma rejection_loop_alike (fuel : nat) xmin lx ymin ly interp :
  forall s s', alike s s' ->
  alike (rejection_loop fuel xmin lx ymin ly interp s)
        (rejection_loop fuel xmin lx ymin ly interp s').
Proof.
  induction fuel as [| fuel IH]; intros s s' A.
  - exact A.
  - cbn [rejection_loop].
    pose proof A as (_ & _ & _ & Hj & Hn & _).
    rewrite <- Hj, <- Hn.
    destruct (s_j s <? Particles.n_macroparticles (s_particles s))%nat.
    + apply IH. apply rejection_alike. exact A.
    + exact A.
Qed.

(** The proposals and the interpolant of the loop are those of the box. *)
Lemma nth_proposal_box self g k (a b p : R) :
  z_sep self = (Fin a, Fin b) -> p_sep self = Fin p ->
  nth_proposal self g k = box_proposal a b p g k.
Proof.
  intros Ez Ep.
  unfold nth_proposal, box_proposal, lx, ly, xmin, xmax, ymin, ymax.
  rewrite Ez, Ep. reflexivity.
Qed.

Lemma psi_interp_box self psi (a b p : R) :
  z_sep self = (Fin a, Fin b) -> p_sep self = Fin p ->
  psi_interp self psi = box_interp a b p psi.
Proof.
  intros Ez Ep. unfold psi_interp, box_interp, xmin, xmax, ymin, ymax.
  rewrite Ez, Ep. reflexivity.
Qed.

Lemma accepted_among_box self psi g i (a b p : R) :
  z_sep self = (Fin a, Fin b) -> p_sep self = Fin p ->
  accepted_among self (psi_interp self psi) g i
  = filter (accepted (box_interp a b p psi))
           (map (box_proposal a b p g) (seq 0 i)).
Proof.
  intros Ez Ep. unfold accepted_among.
  rewrite (psi_interp_box self psi a b p Ez Ep).
  rewrite (map_ext (nth_proposal self g) (box_proposal a b p g)).
  - reflexivity.
  - intros k. apply nth_proposal_box; assumption.
Qed.

(** [generate] in terms of the variables the loop ends with. *)
Lemma generate_cases self particles g fuel :
  generate self particles g fuel
  = match _set_target_std self (SE.init (hamiltonian self)) (sigma_z self) with
    | (out, Ok psi) =>
        let s := rejection_loop fuel (xmin self) (lx self) (ymin self)
                   (ly self) (psi_interp self psi) (initial particles g) in
        if (s_j s <? Particles.n_macroparticles (s_particles s))%nat then
          ((out, Running), s_particles s)
        else
          ((out, Ok tt),
           Particles.set_psi
             (Particles.set_dp (Particles.set_z (s_particles s) (s_x s))
                               (s_y s))
             psi)
    | (out, Raise e) => ((out, Raise e), particles)
    | (out, Running) => ((out, Running), particles)
    end.
Proof. reflexivity. Qed.

End Runs.

End SamplingFacts.

(** ** What the specification states about [generate] *)

Module SamplerProperties.

Import RFBucket Sampling SamplingFacts.

Section Statements.

Context {scipy : SciPy}.

(** A proposal lies in the box when the draws lie in [0, 1). *)
Lemma proposal_in_box self g k (a b p : R) :
  z_sep self = (Fin a, Fin b) -> a <= b ->
  p_sep self = Fin p -> 0 <= p ->
  (forall j, 0 <= stream g j < 1) ->
  between a b (p_u (nth_proposal self g k))
  /\ between (- p) p (p_v (nth_proposal self g k)).
Proof.
  intros Ez Hab Ep Hp Draws.
  unfold nth_proposal, xmin, xmax, ymin, ymax, lx, ly, xmin, xmax, ymin, ymax.
  cbn [p_u p_v]. rewrite Ez, Ep. cbn [fst snd Np.neg Np.sub Np.add Np.mul].
  cbn [between].
  pose proof (Draws (position g + 3 * k)%nat) as D1.
  pose proof (Draws (position g + 3 * k + 1)%nat) as D2.
  split; nra.
Qed.

(** C5.  When [generate] returns, the arrays written to [particles.z] and
    [particles.dp] hold, in the order drawn, the [(u, v)] of exactly those
    of the proposals made that passed [s < psi_interp(u, v)], where
    proposal [k] has [u = z_sep[0] + (z_sep[1] - z_sep[0]) * r] and
    [v = -p_sep + (p_sep - -p_sep) * r'] for the draws [r], [r'] and [s]
    number [3k], [3k + 1] and [3k + 2] of the generator, and [psi_interp]
    interpolates the matched density on the 129 x 129 grid of the box.
    There are [n_macroparticles] of them, and each lies in the box
    [z_sep[0], z_sep[1]] x [-p_sep, p_sep]. *)
Theorem generate_samples self particles g fuel out particles' (a b p : R) :
  z_sep self = (Fin a, Fin b) -> a <= b ->
  p_sep self = Fin p -> 0 <= p ->
  (forall k, 0 <= stream g k < 1) ->
  generate self particles g fuel = ((out, Ok tt), particles') ->
  exists psi i,
    Py.outcome (_set_target_std self (SE.init (hamiltonian self))
                  (sigma_z self)) = Ok psi
    /\ let acc := filter (accepted (box_interp a b p psi))
                         (map (box_proposal a b p g) (seq 0 i)) in
       Particles.z particles' = map p_u acc
       /\ Particles.dp particles' = map p_v acc
       /\ List.length acc = Particles.n_macroparticles particles
       /\ List.length (Particles.z particles')
          = Particles.n_macroparticles particles
       /\ List.length (Particles.dp particles')
          = Particles.n_macroparticles particles
       /\ Forall (fun q => between a b (p_u q)
                           /\ between (- p) p (p_v q)) acc.
Proof.
  intros Ez Hab Ep Hp Draws Run. rewrite generate_cases in Run.
  destruct (_set_target_std self (SE.init (hamiltonian self)) (sigma_z self))
    as [out0 [psi | e |]]; try discriminate Run.
  cbv zeta in Run.
  pose proof (rejection_loop_consistent self (psi_interp self psi) particles g
                fuel _ (initial_consistent self _ particles g)) as Inv.
  set (s := rejection_loop fuel (xmin self) (lx self) (ymin self) (ly self)
              (psi_interp self psi) (initial particles g)) in *.
  destruct (s_j s <? Particles.n_macroparticles (s_particles s))%nat eqn:C;
    [discriminate Run |].
  injection Run as _ <-.
  destruct Inv as (Hpart & _ & _ & Hj & Hle & Hx & Hy).
  rewrite Hpart in C. apply Nat.ltb_ge in C.
  assert (s_j s = Particles.n_macroparticles particles) as En by lia.
  rewrite En, Nat.sub_diag in Hx, Hy. cbn [Array.zeros repeat] in Hx, Hy.
  rewrite app_nil_r in Hx, Hy.
  rewrite (accepted_among_box self psi g (s_i s) a b p Ez Ep) in Hx, Hy, Hj.
  exists psi, (s_i s). split; [reflexivity |]. cbv zeta.
  cbn [Particles.z Particles.dp Particles.set_psi Particles.set_dp
       Particles.set_z].
  rewrite Hx, Hy, !length_map, <- Hj. repeat split; try assumption.
  apply Forall_forall. intros q Hq.
  apply filter_In in Hq. destruct Hq as [Hq _].
  apply in_map_iff in Hq. destruct Hq as [k [<- _]].
  rewrite <- (nth_proposal_box self g k a b p Ez Ep).
  apply (proposal_in_box self g k a b p); assumption.
Qed.

(** C9.  [generate] reads the global generator and nothing else that can
    differ between two runs with the same bucket.  Take two runs whose
    generators have the same draws to come, as they have after the same
    seed, on two buffers that ask for as many macroparticles, whatever
    these buffers hold.  When the first returns, so does the second, after
    the same output; [z], [dp] and [psi] are the same in both, arrays of
    [n_macroparticles] entries; and the two generators are left with the
    same draws to come. *)
Theorem generate_reproducible self particles particles' g g' fuel out p1 :
  (forall k, stream g (position g + k) = stream g' (position g' + k)) ->
  Particles.n_macroparticles particles'
    = Particles.n_macroparticles particles ->
  generate self particles g fuel = ((out, Ok tt), p1) ->
  exists psi p2,
    Py.outcome (_set_target_std self (SE.init (hamiltonian self))
                  (sigma_z self)) = Ok psi
    /\ generate self particles' g' fuel = ((out, Ok tt), p2)
    /\ Particles.z p2 = Particles.z p1
    /\ Particles.dp p2 = Particles.dp p1
    /\ Particles.psi p2 = Particles.psi p1
    /\ List.length (Particles.z p1) = Particles.n_macroparticles particles
    /\ List.length (Particles.dp p1) = Particles.n_macroparticles particles
    /\ let gf := s_random (rejection_loop fuel (xmin self) (lx self)
                             (ymin self) (ly self) (psi_interp self psi)
                             (initial particles g)) in
       let gf' := s_random (rejection_loop fuel (xmin self) (lx self)
                              (ymin self) (ly self) (psi_interp self psi)
                              (initial particles' g')) in
       forall k, stream gf (position gf + k) = stream gf' (position gf' + k).
Proof.
  intros Hs Hn Run. rewrite generate_cases in Run.
  rewrite generate_cases.
  destruct (_set_target_std self (SE.init (hamiltonian self)) (sigma_z self))
    as [out0 [psi | e |]]; try discriminate Run.
  cbv zeta in Run. cbv zeta. exists psi.
  assert (alike (initial particles g) (initial particles' g')) as A0.
  { unfold alike, initial.
    cbn [s_x s_y s_i s_j s_random s_particles]. rewrite Hn.
    repeat split; try reflexivity; assumption. }
  pose proof (rejection_loop_alike fuel (xmin self) (lx self) (ymin self)
                (ly self) (psi_interp self psi) _ _ A0)
    as (Hx & Hy & _ & Hj & Hp & Hf).
  pose proof (rejection_loop_consistent self (psi_interp self psi) particles g
                fuel _ (initial_consistent self _ particles g)) as Inv.
  set (s := rejection_loop fuel (xmin self) (lx self) (ymin self) (ly self)
              (psi_interp self psi) (initial particles g)) in *.
  set (s' := rejection_loop fuel (xmin self) (lx self) (ymin self) (ly self)
               (psi_interp self psi) (initial particles' g')) in *.
  rewrite <- Hj, <- Hp.
  destruct (s_j s <? Particles.n_macroparticles (s_particles s))%nat eqn:C;
    [discriminate Run |].
  injection Run as <- <-.
  destruct Inv as (Hpart & _ & _ & Ej & Hle & Ex & Ey).
  rewrite Hpart in C. apply Nat.ltb_ge in C.
  eexists. split; [reflexivity |]. split; [reflexivity |].
  cbn [Particles.z Particles.dp Particles.psi Particles.set_psi
       Particles.set_dp Particles.set_z].
  rewrite <- Hx, <- Hy.
  split; [reflexivity |]. split; [reflexivity |]. split; [reflexivity |].
  rewrite Ex, Ey, !length_app, !length_map, zeros_length.
  split; [lia |]. split; [lia | exact Hf].
Qed.

(** C10.  [generate] leaves [x], [xp], [y], [yp] and [n_macroparticles] of
    the buffer as they were.  Unless the call returns the buffer is as it
    was altogether; when it returns, [z] and [dp] hold arrays of the full
    length and [psi] the matched density.  At no pass of the loop has the
    buffer been written. *)
Theorem generate_frame self particles g fuel :
  let ended := Py.outcome (fst (generate self particles g fuel)) in
  let particles' := snd (generate self particles g fuel) in
  (Particles.x particles' = Particles.x particles
   /\ Particles.xp particles' = Particles.xp particles
   /\ Particles.y particles' = Particles.y particles
   /\ Particles.yp particles' = Particles.yp particles
   /\ Particles.n_macroparticles particles'
      = Particles.n_macroparticles particles)
  /\ (ended <> Ok tt -> particles' = particles)
  /\ (ended = Ok tt ->
      List.length (Particles.z particles')
        = Particles.n_macroparticles particles
      /\ List.length (Particles.dp particles')
         = Particles.n_macroparticles particles
      /\ exists psi,
           Particles.psi particles' = Some psi
           /\ Py.outcome (_set_target_std self (SE.init (hamiltonian self))
                            (sigma_z self)) = Ok psi)
  /\ (forall interp passes,
        s_particles (rejection_loop passes (xmin self) (lx self) (ymin self)
                       (ly self) interp (initial particles g))
        = particles).
Proof.
  assert (forall interp passes,
            s_particles (rejection_loop passes (xmin self) (lx self)
                           (ymin self) (ly self) interp (initial particles g))
            = particles) as Untouched.
  { intros interp passes.
    apply (rejection_loop_consistent self interp particles g passes _
             (initial_consistent self interp particles g)). }
  cbv zeta. rewrite generate_cases.
  destruct (_set_target_std self (SE.init (hamiltonian self)) (sigma_z self))
    as [out [psi | e |]].
  - cbv zeta.
    pose proof (rejection_loop_consistent self (psi_interp self psi) particles
                  g fuel _ (initial_consistent self _ particles g)) as Inv.
    set (s := rejection_loop fuel (xmin self) (lx self) (ymin self) (ly self)
                (psi_interp self psi) (initial particles g)) in *.
    destruct Inv as (Hpart & _ & _ & Hj & Hle & Hx & Hy).
    destruct (s_j s <? Particles.n_macroparticles (s_particles s))%nat eqn:C;
      cbn [fst snd Py.outcome]; rewrite Hpart.
    + split; [repeat split | split; [| split]].
      * intros _. reflexivity.
      * intros Ended. discriminate Ended.
      * exact Untouched.
    + rewrite Hpart in C. apply Nat.ltb_ge in C.
      split; [repeat split | split; [| split]].
      * intros Ended. exfalso. apply Ended. reflexivity.
      * intros _.
        cbn [Particles.z Particles.dp Particles.psi Particles.set_psi
             Particles.set_dp Particles.set_z].
        rewrite Hx, Hy, !length_app, !length_map, zeros_length.
        split; [lia | split; [lia |]].
        exists psi. split; reflexivity.
      * exact Untouched.
  - cbn [fst snd Py.outcome].
    split; [repeat split | split; [| split]].
    + intros _. reflexivity.
    + intros Ended. discriminate Ended.
    + exact Untouched.
  - cbn [fst snd Py.outcome].
    split; [repeat split | split; [| split]].
    + intros _. reflexivity.
    + intros Ended. discriminate Ended.
    + exact Untouched.
Qed.

End Statements.

End SamplerProperties.

(** ** [generate] at an example input *)

Module SamplerWitnesses.

Import RFBucket Matching Sampling SamplingFacts.

#[local] Existing Instance Example.coarse.

(** The stand-in interpolant of the uniform density is 1. *)
Lemma coarse_interp_flat (sigma : float64) (psi : SE.t) (u v : float64) :
  Example.is_flat psi -> psi_interp (init sigma Example.flat) psi u v = Fin 1.
Proof.
  intros [EH [E0 Em]]. unfold psi_interp. cbv zeta.
  change (128 + 1)%nat with 129%nat.
  change (xmin (init sigma Example.flat)) with (Fin (-1)).
  change (xmax (init sigma Example.flat)) with (Fin 1).
  change (ymin (init sigma Example.flat)) with (Fin (- (1))).
  change (ymax (init sigma Example.flat)) with (Fin 1).
  rewrite !(CumtrapzFacts.linspace_points _ _ 127).
  rewrite !CumtrapzFacts.points_cons. cbn [interp2d Example.coarse map hd].
  apply ExampleFacts.flat_density; [apply EH | exact E0 | exact Em].
Qed.

Lemma draws_below_one (k : nat) : 0 <= stream Example.draws k < 1.
Proof.
  cbn [stream Example.draws]. pose proof (pos_INR k) as P. split.
  - left. apply Rinv_0_lt_compat. lra.
  - rewrite <- Rinv_1. apply Rinv_lt_contravar; lra.
Qed.

(** With a target equal to the estimate the matching returns after one
    pass, every proposal is accepted, and two passes fill a buffer of
    two. *)
Lemma flat_generate_returns :
  let self := init (Fin Example.flat_std) Example.flat in
  exists out particles',
    generate self (Example.buffer 2) Example.draws 2
    = ((out, Ok tt), particles').
Proof.
  intros self. rewrite generate_cases.
  destruct (ExampleFacts.flat_leaves_at_first Example.flat Example.flat_std
              (Fin Example.flat_std) eq_refl eq_refl eq_refl
              (ExampleFacts.flat_precheck_returns _)
              (ExampleFacts.flat_bucket_estimate _)) as [Eo _].
  { change (Np.lt (Fin 1e-4)
              (Fin (Rabs (Example.flat_std - Example.flat_std))) = false).
    apply NpFacts.lt_fin_false.
    replace (Example.flat_std - Example.flat_std) with 0 by ring.
    rewrite Rabs_R0. lra. }
  destruct (ExampleFacts.flat_first_pass Example.flat Example.flat_std
              (Fin Example.flat_std) eq_refl eq_refl
              (ExampleFacts.flat_bucket_estimate _)) as [F1 _].
  fold self in Eo, F1.
  set (psi := m_psi (after 1 self (Fin Example.flat_std)
                       (start self
                          (SE.set_Hmax (SE.init (hamiltonian self)) (Fin 1))
                          (Fin Example.flat_std)))) in *.
  destruct (_set_target_std self (SE.init (hamiltonian self)) (sigma_z self))
    as [out r].
  cbn [Py.outcome snd] in Eo. subst r. cbv zeta.
  pose proof (initial_consistent self (psi_interp self psi)
                (Example.buffer 2) Example.draws) as Inv0.
  pose proof (rejection_loop_consistent self (psi_interp self psi)
                (Example.buffer 2) Example.draws 2 _ Inv0) as (Hpart & _).
  rewrite Hpart.
  rewrite (rejection_loop_enough self (psi_interp self psi)
             (Example.buffer 2) Example.draws 2 _ Inv0).
  - eexists. eexists. reflexivity.
  - rewrite accepted_among_all.
    + cbn. lia.
    + intros k. unfold accepted. unfold self.
      rewrite coarse_interp_flat by exact F1.
      apply NpFacts.lt_fin. apply draws_below_one.
Qed.

(** Two macroparticles from the flat example. *)
Lemma generate_samples_witness :
  let self := init (Fin Example.flat_std) Example.flat in
  exists out particles',
    generate self (Example.buffer 2) Example.draws 2
    = ((out, Ok tt), particles')
    /\ exists psi i,
         Py.outcome (_set_target_std self (SE.init (hamiltonian self))
                       (sigma_z self)) = Ok psi
         /\ let acc := filter (accepted (box_interp (-1) 1 1 psi))
                         (map (box_proposal (-1) 1 1 Example.draws)
                              (seq 0 i)) in
            Particles.z particles' = map p_u acc
            /\ Particles.dp particles' = map p_v acc
            /\ List.length acc = 2%nat
            /\ List.length (Particles.z particles') = 2%nat
            /\ List.length (Particles.dp particles') = 2%nat
            /\ Forall (fun q => between (-1) 1 (p_u q)
                                /\ between (- (1)) 1 (p_v q)) acc.
Proof.
  intros self. destruct flat_generate_returns as [out [particles' Run]].
  fold self in Run. exists out, particles'. split; [exact Run |].
  apply (SamplerProperties.generate_samples self (Example.buffer 2)
           Example.draws 2 out particles' (-1) 1 1).
  - reflexivity.
  - lra.
  - reflexivity.
  - lra.
  - exact draws_below_one.
  - exact Run.
Defined.

(** Two generators with 1/2, 1/3, 1/4, ... to come, and two buffers of
    two: a fresh one and one that holds the coordinates of an earlier
    beam. *)
Lemma generate_reproducible_witness :
  let self := init (Fin Example.flat_std) Example.flat in
  exists out p1 psi p2,
    generate self (Example.buffer 2) Example.draws 2 = ((out, Ok tt), p1)
    /\ Py.outcome (_set_target_std self (SE.init (hamiltonian self))
                     (sigma_z self)) = Ok psi
    /\ generate self (Samples.used 2) Example.draws' 2 = ((out, Ok tt), p2)
    /\ Particles.z p2 = Particles.z p1
    /\ Particles.dp p2 = Particles.dp p1
    /\ Particles.psi p2 = Particles.psi p1
    /\ List.length (Particles.z p1) = 2%nat
    /\ List.length (Particles.dp p1) = 2%nat
    /\ let gf := s_random (rejection_loop 2 (xmin self) (lx self)
                             (ymin self) (ly self) (psi_interp self psi)
                             (initial (Example.buffer 2) Example.draws)) in
       let gf' := s_random (rejection_loop 2 (xmin self) (lx self)
                              (ymin self) (ly self) (psi_interp self psi)
                              (initial (Samples.used 2) Example.draws')) in
       forall k, stream gf (position gf + k) = stream gf' (position gf' + k).
Proof.
  intros self. destruct flat_generate_returns as [out [p1 Run]].
  fold self in Run.
  destruct (SamplerProperties.generate_reproducible self (Example.buffer 2)
              (Samples.used 2) Example.draws Example.draws' 2 out p1)
    as [psi [p2 H]].
  - intros k. cbn [stream position Example.draws Example.draws' Nat.add].
    rewrite S_INR. f_equal. lra.
  - reflexivity.
  - exact Run.
  - exists out, p1, psi, p2. split; [exact Run | exact H].
Defined.

End SamplerWitnesses.

(** * Further properties of the generators *)

(** ** The composite trapezoid estimate of a finite density *)

Module QuadratureFacts.

Import RFBucket.

(** The trapezoids of finite samples add up to the real sum. *)
Lemma fold_trapezoids_finite (g : R -> R) (ys : list R) : forall y0 acc,
  fold_left Np.add
    (Array.trapezoids (map (fun y => Fin (g y)) (y0 :: ys))
                      (map Fin (y0 :: ys)))
    (Fin acc)
  = Fin (acc + Quadrature.trapz g (y0 :: ys)).
Proof.
  induction ys as [| y1 ys IH]; intros y0 acc.
  - cbn. f_equal. ring.
  - cbn [map]. rewrite CumtrapzFacts.trapezoids_cons. cbn [fold_left].
    change (Np.sub (Fin y1) (Fin y0)) with (Fin (y1 - y0)).
    change (Np.add (Fin (g y1)) (Fin (g y0))) with (Fin (g y1 + g y0)).
    change (Np.mul (Fin (y1 - y0)) (Fin (g y1 + g y0)))
      with (Fin ((y1 - y0) * (g y1 + g y0))).
    rewrite NpFacts.div_fin by lra.
    change (Np.add (Fin acc) (Fin ((y1 - y0) * (g y1 + g y0) / 2)))
      with (Fin (acc + (y1 - y0) * (g y1 + g y0) / 2)).
    change (Fin y1 :: map Fin ys) with (map Fin (y1 :: ys)).
    change (Fin (g y1) :: map (fun y => Fin (g y)) ys)
      with (map (fun y => Fin (g y)) (y1 :: ys)).
    rewrite IH. f_equal.
    change (Quadrature.trapz g (y0 :: y1 :: ys))
      with ((y1 - y0) * (g y1 + g y0) / 2 + Quadrature.trapz g (y1 :: ys)).
    ring.
Qed.

Lemma last_cumtrapz_finite (g : R -> R) (y0 : R) (tl : list R) :
  tl <> [] ->
  Array.last (Array.cumtrapz (map (fun y => Fin (g y)) (y0 :: tl))
                             (map Fin (y0 :: tl)))
  = Fin (Quadrature.trapz g (y0 :: tl)).
Proof.
  destruct tl as [| y1 ys]; intros Ne; [contradiction |].
  unfold Array.cumtrapz. cbn [map].
  rewrite CumtrapzFacts.trapezoids_cons, CumtrapzFacts.last_cumsum.
  change (Np.sub (Fin y1) (Fin y0)) with (Fin (y1 - y0)).
  change (Np.add (Fin (g y1)) (Fin (g y0))) with (Fin (g y1 + g y0)).
  change (Np.mul (Fin (y1 - y0)) (Fin (g y1 + g y0)))
    with (Fin ((y1 - y0) * (g y1 + g y0))).
  rewrite NpFacts.div_fin by lra.
  change (Fin y1 :: map Fin ys) with (map Fin (y1 :: ys)).
  change (Fin (g y1) :: map (fun y => Fin (g y)) ys)
    with (map (fun y => Fin (g y)) (y1 :: ys)).
  rewrite fold_trapezoids_finite. reflexivity.
Qed.

Lemma trapz_scale (c : R) (g : R -> R) (ys : list R) :
  Quadrature.trapz (fun y => c * g y) ys = c * Quadrature.trapz g ys.
Proof.
  induction ys as [| y0 [| y1 ys] IH].
  - cbn. ring.
  - cbn. ring.
  - change (Quadrature.trapz (fun y => c * g y) (y0 :: y1 :: ys))
      with ((y1 - y0) * (c * g y1 + c * g y0) / 2
            + Quadrature.trapz (fun y => c * g y) (y1 :: ys)).
    change (Quadrature.trapz g (y0 :: y1 :: ys))
      with ((y1 - y0) * (g y1 + g y0) / 2 + Quadrature.trapz g (y1 :: ys)).
    rewrite IH. field.
Qed.

Lemma trapz_nonneg (g : R -> R) (ys : list R) :
  LocallySorted Rle ys ->
  (forall y, In y ys -> 0 <= g y) ->
  0 <= Quadrature.trapz g ys.
Proof.
  intros Sorted. induction Sorted as [| y0 | y0 y1 ys Sorted IH Le];
    intros Pos.
  - cbn. lra.
  - cbn. lra.
  - change (Quadrature.trapz g (y0 :: y1 :: ys))
      with ((y1 - y0) * (g y1 + g y0) / 2 + Quadrature.trapz g (y1 :: ys)).
    assert (0 <= g y0) as P0 by (apply Pos; left; reflexivity).
    assert (0 <= g y1) as P1 by (apply Pos; right; left; reflexivity).
    assert (0 <= Quadrature.trapz g (y1 :: ys)) as Pt.
    { apply IH. intros y Hy. apply Pos. right. exact Hy. }
    assert (0 <= (y1 - y0) * (g y1 + g y0)) as Pa
      by (apply Rmult_le_pos; lra).
    lra.
Qed.

(** The entries of a grid lie between its ends, in order. *)
Lemma point_between (a b : R) (n k : nat) :
  a <= b -> (k <= S n)%nat ->
  a <= INR k * ((b - a) / INR (S n)) + a <= b.
Proof.
  intros Hab Hk.
  assert (0 < INR (S n)) as Pn by (apply lt_0_INR; lia).
  assert (0 <= INR k <= INR (S n)) as Bk
    by (split; [apply pos_INR | apply le_INR; exact Hk]).
  set (t := (b - a) / INR (S n)).
  assert (0 <= t) as Pt.
  { unfold t. apply Rmult_le_pos; [lra |]. left. apply Rinv_0_lt_compat.
    exact Pn. }
  assert (INR (S n) * t = b - a) as Et by (unfold t; field; lra).
  split; nra.
Qed.

Lemma points_between (a b : R) (n : nat) (y : R) :
  a <= b -> In y (Grid.points a b (S n)) -> a <= y <= b.
Proof.
  intros Hab Hy. unfold Grid.points in Hy. apply in_app_or in Hy.
  destruct Hy as [Hy | [<- | []]].
  - apply in_map_iff in Hy. destruct Hy as [k [<- Hk]].
    apply in_seq in Hk. apply point_between; [exact Hab | lia].
  - lra.
Qed.

Lemma progression_sorted (st a b : R) (n : nat) : forall start,
  0 <= st ->
  (forall k, (k < start + n)%nat -> INR k * st + a <= b) ->
  LocallySorted Rle
    (map (fun k => INR k * st + a) (seq start n) ++ [b]).
Proof.
  induction n as [| n IH]; intros start Pst Below.
  - cbn. constructor.
  - cbn [seq map app].
    assert (LocallySorted Rle
              (map (fun k => INR k * st + a) (seq (S start) n) ++ [b]))
      as Tail.
    { apply IH; [exact Pst |]. intros k Hk. apply Below. lia. }
    destruct n as [| n].
    + cbn [seq map app] in *. constructor; [exact Tail |].
      apply Below. lia.
    + cbn [seq map app] in *. constructor; [exact Tail |].
      rewrite S_INR. nra.
Qed.

Lemma points_sorted (a b : R) (n : nat) :
  a <= b -> LocallySorted Rle (Grid.points a b (S n)).
Proof.
  intros Hab. unfold Grid.points. apply progression_sorted.
  - apply Rmult_le_pos; [lra |]. left. apply Rinv_0_lt_compat.
    apply lt_0_INR. lia.
  - intros k Hk. apply point_between; [exact Hab | lia].
Qed.

Lemma slice_V_scale (f : R -> R -> R) (s : R -> R) (x : R) :
  Quadrature.slice_V f s x = x * x * Quadrature.slice_Q f s x.
Proof.
  unfold Quadrature.slice_V, Quadrature.slice_Q.
  rewrite <- trapz_scale. reflexivity.
Qed.

(** A weighted sum of squares is at most the largest square times the sum
    of the weights. *)
Lemma total_squares_bound (q : R -> R) (M2 : R) (xs : list R) :
  (forall x, In x xs -> 0 <= q x /\ x * x <= M2) ->
  0 <= Quadrature.total (map q xs)
  /\ 0 <= Quadrature.total (map (fun x => x * x * q x) xs)
       <= M2 * Quadrature.total (map q xs).
Proof.
  induction xs as [| x xs IH]; intros Each.
  - cbn. lra.
  - cbn [map Quadrature.total fold_right].
    destruct (Each x (or_introl eq_refl)) as [Pq Px].
    destruct IH as [PQ [PV LV]].
    { intros x' Hx'. apply Each. right. exact Hx'. }
    fold (Quadrature.total (map q xs)).
    fold (Quadrature.total (map (fun x => x * x * q x) xs)).
    pose proof (Rle_0_sqr x) as Sq. unfold Rsqr in Sq.
    split; [lra |]. split; nra.
Qed.

Lemma square_below_max (a b x : R) :
  a <= x <= b ->
  x * x <= Rmax (Rabs a) (Rabs b) * Rmax (Rabs a) (Rabs b).
Proof.
  intros [Ha Hb].
  pose proof (Rmax_l (Rabs a) (Rabs b)) as Ml.
  pose proof (Rmax_r (Rabs a) (Rabs b)) as Mr.
  pose proof (Rle_abs b) as Ab.
  pose proof (Rle_abs (- a)) as Aa. rewrite Rabs_Ropp in Aa.
  nra.
Qed.

Section Finite.

Context {scipy : SciPy}.

Variable psi : float64 -> float64 -> float64.
Variable p_sep : float64 -> float64.
Variable f : R -> R -> R.
Variable s : R -> R.
Variables a b : R.

(** The separatrix function is finite and not negative on the bucket, and
    the density is finite under it. *)
Hypothesis p_sep_finite : forall x, a <= x <= b -> p_sep (Fin x) = Fin (s x).
Hypothesis s_nonneg : forall x, a <= x <= b -> 0 <= s x.
Hypothesis psi_finite :
  forall x y, a <= x <= b -> 0 <= y <= s x -> psi (Fin x) (Fin y) = Fin (f x y).

Lemma cumtrapz_slice_finite (Q V x : R) :
  a <= x <= b ->
  cumtrapz_slice psi p_sep (Fin Q, Fin V) (Fin x)
  = (Fin (Q + Quadrature.slice_Q f s x), Fin (V + Quadrature.slice_V f s x)).
Proof.
  intros Hx. unfold cumtrapz_slice, Quadrature.slice_Q, Quadrature.slice_V.
  rewrite p_sep_finite by exact Hx.
  rewrite (CumtrapzFacts.linspace_points 0 (s x) 255), !map_map.
  assert (forall y, In y (Grid.points 0 (s x) 256) ->
                    psi (Fin x) (Fin y) = Fin (f x y)) as E.
  { intros y Hy. apply psi_finite; [exact Hx |].
    apply (points_between 0 (s x) 255); [apply s_nonneg; exact Hx | exact Hy]. }
  rewrite (map_ext_in (fun y => psi (Fin x) (Fin y)) (fun y => Fin (f x y)))
    by exact E.
  rewrite (map_ext_in
             (fun y => Np.mul (square (Fin x)) (psi (Fin x) (Fin y)))
             (fun y => Fin (x * x * f x y)))
    by (intros y Hy; rewrite E by exact Hy; reflexivity).
  rewrite CumtrapzFacts.points_cons.
  rewrite (last_cumtrapz_finite (fun y => f x y))
    by (intros N; apply app_eq_nil in N; destruct N as [_ N]; discriminate N).
  rewrite (last_cumtrapz_finite (fun y => x * x * f x y))
    by (intros N; apply app_eq_nil in N; destruct N as [_ N]; discriminate N).
  reflexivity.
Qed.

Lemma fold_slices_finite (xs : list R) : forall Q V,
  Forall (fun x => a <= x <= b) xs ->
  fold_left (cumtrapz_slice psi p_sep) (map Fin xs) (Fin Q, Fin V)
  = (Fin (Q + Quadrature.total (map (Quadrature.slice_Q f s) xs)),
     Fin (V + Quadrature.total (map (Quadrature.slice_V f s) xs))).
Proof.
  induction xs as [| x xs IH]; intros Q V I.
  - cbn [map fold_left Quadrature.total fold_right]. rewrite !Rplus_0_r.
    reflexivity.
  - inversion I as [| ? ? Ix Ixs]; subst.
    cbn [map fold_left]. rewrite cumtrapz_slice_finite by exact Ix.
    rewrite IH by exact Ixs.
    cbn [Quadrature.total fold_right]. rewrite !Rplus_assoc. reflexivity.
Qed.

(** Between the ends of the bucket the two sums are the real sums. *)
Lemma cumtrapz_integrals_finite :
  a <= b ->
  cumtrapz_integrals psi p_sep (Fin a) (Fin b)
  = (Fin (Quadrature.Q f s a b), Fin (Quadrature.V f s a b)).
Proof.
  intros Hab. unfold cumtrapz_integrals, Quadrature.Q, Quadrature.V.
  rewrite (CumtrapzFacts.linspace_points a b 255).
  rewrite fold_slices_finite
    by (apply Forall_forall; intros x Hx;
        apply (points_between a b 255); [exact Hab | exact Hx]).
  replace (Array.getitem (map Fin (Grid.points a b 256)) 1)
    with (Fin (INR 1 * ((b - a) / INR 256) + a)) by reflexivity.
  replace (Array.getitem (map Fin (Grid.points a b 256)) 0)
    with (Fin (INR 0 * ((b - a) / INR 256) + a)) by reflexivity.
  change (INR 1) with 1. change (INR 0) with 0.
  cbn [Np.sub Np.add Np.neg Np.mul].
  set (st := (b - a) / INR 256).
  set (TQ := Quadrature.total (map (Quadrature.slice_Q f s)
                                   (Grid.points a b 256))).
  set (TV := Quadrature.total (map (Quadrature.slice_V f s)
                                   (Grid.points a b 256))).
  replace ((0 + TQ) * (1 * st + a + - (0 * st + a))) with (TQ * st) by ring.
  replace ((0 + TV) * (1 * st + a + - (0 * st + a))) with (TV * st) by ring.
  reflexivity.
Qed.

End Finite.

End QuadratureFacts.

(** ** What the composite trapezoid estimate shows *)

Module QuadratureProperties.

Import RFBucket QuadratureFacts.

(** X1.  Take a bucket [[a, b]] on which the separatrix function is
    finite and not negative, and a density that is finite and not negative
    on the region [0 <= y <= p_sep(x)] over it.  The composite trapezoid
    estimate is [nan] when the density sums to 0 there, and otherwise a
    finite length that does not exceed the larger of [|a|] and [|b|]: it is
    never infinite. *)
Theorem cumtrapz_estimate_bounded {scipy : SciPy}
    (psi : float64 -> float64 -> float64) (p_sep : float64 -> float64)
    (f : R -> R -> R) (s : R -> R) (a b : R) :
  a <= b ->
  (forall x, a <= x <= b -> p_sep (Fin x) = Fin (s x) /\ 0 <= s x) ->
  (forall x y, a <= x <= b -> 0 <= y <= s x ->
     psi (Fin x) (Fin y) = Fin (f x y) /\ 0 <= f x y) ->
  exists zS,
    _compute_std_cumtrapz psi p_sep (Fin a) (Fin b) = Py.ret zS
    /\ ((zS = NaN /\ Quadrature.Q f s a b = 0)
        \/ exists z, zS = Fin z
                     /\ 0 <= z <= Rmax (Rabs a) (Rabs b)
                     /\ 0 < Quadrature.Q f s a b).
Proof.
  intros Hab Hsep Hpsi.
  assert (forall x, a <= x <= b -> 0 <= s x) as Ps
    by (intros x Hx; apply Hsep; exact Hx).
  assert (forall x y, a <= x <= b -> 0 <= y <= s x -> 0 <= f x y) as Pf
    by (intros x y Hx Hy; apply Hpsi; assumption).
  unfold _compute_std_cumtrapz.
  rewrite (cumtrapz_integrals_finite psi p_sep f s a b
             (fun x Hx => proj1 (Hsep x Hx)) Ps
             (fun x y Hx Hy => proj1 (Hpsi x y Hx Hy)) Hab).
  eexists. split; [reflexivity |].
  set (M := Rmax (Rabs a) (Rabs b)).
  assert (0 <= M) as PM.
  { unfold M. pose proof (Rmax_l (Rabs a) (Rabs b)).
    pose proof (Rabs_pos a). lra. }
  set (st := (b - a) / INR 256).
  assert (0 <= st) as Pst.
  { unfold st. apply Rmult_le_pos; [lra |]. left. apply Rinv_0_lt_compat.
    apply lt_0_INR. lia. }
  destruct (total_squares_bound (Quadrature.slice_Q f s) (M * M)
              (Grid.points a b 256)) as [PQ [PV LV]].
  { intros x Hx. apply (points_between a b 255) in Hx; [| exact Hab].
    split.
    - unfold Quadrature.slice_Q. apply trapz_nonneg.
      + apply points_sorted. apply Ps. exact Hx.
      + intros y Hy. apply (points_between 0 (s x) 255) in Hy.
        * apply Pf; assumption.
        * apply Ps. exact Hx.
    - apply square_below_max. exact Hx. }
  rewrite <- (map_ext (Quadrature.slice_V f s)
                      (fun x => x * x * Quadrature.slice_Q f s x))
    in PV, LV by (intros x; apply slice_V_scale).
  unfold Quadrature.Q, Quadrature.V. fold st.
  set (TQ := Quadrature.total (map (Quadrature.slice_Q f s)
                                   (Grid.points a b 256))) in *.
  set (TV := Quadrature.total (map (Quadrature.slice_V f s)
                                   (Grid.points a b 256))) in *.
  destruct (Req_dec_T (TQ * st) 0) as [Z | NZ].
  - left. split; [| exact Z].
    assert (TV * st = 0) as ZV by nra.
    rewrite Z, ZV, NpFacts.div_zero, NpFacts.signed_inf_zero. reflexivity.
  - right. assert (0 < TQ * st) as PQs by nra.
    assert (0 < TQ /\ 0 < st) as [PTQ Pst'] by (split; nra).
    rewrite NpFacts.div_fin by exact NZ.
    assert (0 <= TV * st / (TQ * st) <= M * M) as [Lo Hi].
    { replace (TV * st / (TQ * st)) with (TV / TQ) by (field; lra).
      split.
      - apply Rmult_le_pos; [lra |]. left. apply Rinv_0_lt_compat. lra.
      - apply Rmult_le_reg_r with TQ; [lra |].
        unfold Rdiv. rewrite Rmult_assoc, Rinv_l by lra. lra. }
    rewrite NpFacts.sqrt_fin by exact Lo.
    eexists. split; [reflexivity |]. split; [split |].
    + apply sqrt_pos.
    + rewrite <- (sqrt_square M) by exact PM. apply sqrt_le_1_alt. exact Hi.
    + exact PQs.
Qed.

End QuadratureProperties.

(** ** More on the matching loop *)

Module MatcherExtras.

Import RFBucket Matching MatchingFacts.

Section Statements.

Context {scipy : SciPy}.

(** A residual that fails the test of the loop is [nan] or at most [1e-4]
    in absolute value. *)
Lemma guard_false (m : matcher) :
  guard m = false ->
  m_eps m = NaN \/ exists e, m_eps m = Fin e /\ Rabs e <= 1e-4.
Proof.
  unfold guard. destruct (m_eps m) as [e | | |]; intros G.
  - right. exists e. split; [reflexivity |].
    apply NpFacts.lt_fin_false. exact G.
  - discriminate G.
  - discriminate G.
  - left. reflexivity.
Qed.

(** X3.  When [_set_target_std] returns, the residual that ended the loop
    was computed for the density of the pass before: the density returned
    has had its scale moved once more, to the guess [zH - 0.5 * eps].
    Unless the residual is [nan], that last move of the guess is at most
    half the tolerance, [0.5e-4]. *)
Theorem returned_scale_one_step_ahead self psi sigma hmax psi_f :
  Array.amax (map (fun z => hamiltonian self z (Fin 0)) (z_extrema self))
    = Py.ret hmax ->
  Py.outcome (_set_target_std self psi sigma) = Ok psi_f ->
  exists k,
    (k < 100)%nat
    /\ let checked := after k self sigma
                        (start self (SE.set_Hmax psi hmax) sigma) in
       let final := next self sigma checked in
       psi_f = m_psi final
       /\ SE.H0 psi_f = H0 self (m_zH final)
       /\ m_eps final = Np.sub (estimate self (m_psi checked)) sigma
       /\ m_zH final = Np.sub (m_zH checked) (Np.mul (Fin 0.5) (m_eps final))
       /\ (m_eps final = NaN
           \/ exists e, m_eps final = Fin e /\ Rabs e <= 1e-4
                /\ forall z, m_zH checked = Fin z ->
                     exists z', m_zH final = Fin z'
                                /\ Rabs (z' - z) <= 0.5e-4).
Proof.
  intros Ha Run.
  pose proof (set_target_std_ok self psi sigma psi_f Run) as Pre.
  destruct (set_target_std_solve self psi sigma Pre) as [Eo _].
  rewrite Eo in Run.
  destruct (solve_returns self psi sigma hmax psi_f Ha Run)
    as [k [Hk [Epsi [Stop Before]]]].
  subst psi_f.
  destruct k as [| k]; [lia |].
  exists k. split; [lia |]. cbv zeta.
  change (after (S k) self sigma (start self (SE.set_Hmax psi hmax) sigma))
    with (next self sigma
            (after k self sigma (start self (SE.set_Hmax psi hmax) sigma)))
    in *.
  set (checked := after k self sigma
                    (start self (SE.set_Hmax psi hmax) sigma)) in *.
  split; [reflexivity |]. split; [reflexivity |].
  split; [reflexivity |]. split; [reflexivity |].
  destruct (guard_false _ Stop) as [N | [e [Ee Be]]].
  - left. exact N.
  - right. exists e. split; [exact Ee |]. split; [exact Be |].
    intros z Ez.
    change (m_zH (next self sigma checked))
      with (Np.sub (m_zH checked)
              (Np.mul (Fin 0.5) (m_eps (next self sigma checked)))).
    rewrite Ee, Ez. eexists. split; [reflexivity |].
    replace (z + - (0.5 * e) - z) with (- (0.5 * e)) by ring.
    rewrite Rabs_Ropp, Rabs_mult, (Rabs_right 0.5) by lra. lra.
Qed.

(** X4.  With no extremum to take the maximum over, a call of
    [_set_target_std] whose pre-check returns raises the [ValueError] of
    [np.amax] right after it: it prints the reports of the pre-check and
    not one line of the loop. *)
Theorem no_extrema_no_solve self psi sigma psi' :
  z_extrema self = [] ->
  Py.outcome (_test_maximum_std self psi sigma) = Ok psi' ->
  exists msg,
    Py.outcome (_set_target_std self psi sigma) = Raise (ValueError msg)
    /\ Py.output (_set_target_std self psi sigma)
       = Py.output (_test_maximum_std self psi sigma).
Proof.
  intros Ez Pre.
  pose proof (test_maximum_std_ok self psi sigma psi' Pre) as N.
  destruct (set_target_std_solve self psi sigma N) as [Eo Eout].
  rewrite Eo, Eout. unfold solve. rewrite Ez. cbn [map Array.amax].
  eexists. split.
  - reflexivity.
  - cbn [Py.bind Py.raise Py.output fst]. apply app_nil_r.
Qed.

(** X21.  The cap of the loop.  When the pre-check returns and the
    residual is still above the tolerance after each of the first 100
    passes, pass 101 prints the diagnosis that ends in "Aborting..." and
    [_set_target_std] ends there with a [NameError]: the module never
    imports [sys], so the name is not found and [sys.exit(-1)] is not
    reached. *)
Theorem set_target_std_aborts self psi sigma hmax :
  precheck_Q self psi <> Fin 0 ->
  Array.amax (map (fun z => hamiltonian self z (Fin 0)) (z_extrema self))
    = Py.ret hmax ->
  (forall k, (k <= 100)%nat ->
     guard (after k self sigma (start self (SE.set_Hmax psi hmax) sigma))
       = true) ->
  (forall k, (k <= 100)%nat ->
     estimated self
       (m_psi (after k self sigma
                 (start self (SE.set_Hmax psi hmax) sigma)))) ->
  Py.outcome (_set_target_std self psi sigma) = Raise (NameError "sys")
  /\ exists out,
       Py.output (_set_target_std self psi sigma)
       = (out ++ too_many_steps)%list.
Proof.
  intros Pre Ha All Est.
  destruct (set_target_std_solve self psi sigma Pre) as [Eo Eout].
  destruct (solve_aborts self psi sigma hmax Ha All Est) as [R [out O]].
  rewrite Eo, Eout, O. split; [exact R |].
  exists (Py.output (_test_maximum_std self psi sigma) ++ out)%list.
  apply app_assoc.
Qed.

End Statements.

End MatcherExtras.

(** ** More on the rejection loop *)

Module SamplerExtras.

Import RFBucket Sampling SamplingFacts.

Section Loop.

Context {scipy : SciPy}.

Variable self : t.
Variable interp : float64 -> float64 -> float64.
Variable particles : Particles.t.
Variable g : RandomState.

Lemma accepted_among_mono (i1 i2 : nat) :
  (i1 <= i2)%nat ->
  (List.length (accepted_among self interp g i1)
   <= List.length (accepted_among self interp g i2))%nat.
Proof.
  intros Le. induction Le as [| i2 Le IH].
  - lia.
  - rewrite accepted_among_S, length_app. lia.
Qed.

(** The loop makes proposals up to the one that brings the [n]-th
    acceptance, and none beyond. *)
Lemma rejection_loop_stops (i : nat) :
  List.length (accepted_among self interp g i)
    = Particles.n_macroparticles particles ->
  (i = O \/ (List.length (accepted_among self interp g (i - 1))
             < Particles.n_macroparticles particles)%nat) ->
  forall fuel s,
    consistent self interp particles g s ->
    (s_i s <= i)%nat ->
    let sf := rejection_loop fuel (xmin self) (lx self) (ymin self) (ly self)
                interp s in
    consistent self interp particles g sf
    /\ ((i <= s_i s + fuel)%nat -> s_i sf = i)
    /\ ((s_i s + fuel < i)%nat -> s_i sf = (s_i s + fuel)%nat).
Proof.
  intros Full First. induction fuel as [| fuel IH]; intros s Inv Le.
  - cbn [rejection_loop]. cbv zeta. split; [exact Inv |]. split; lia.
  - cbn [rejection_loop]. cbv zeta.
    pose proof Inv as (Hp & _ & _ & Hj & _).
    destruct (s_j s <? Particles.n_macroparticles (s_particles s))%nat eqn:C;
      rewrite Hp in C.
    + apply Nat.ltb_lt in C.
      assert (s_i s < i)%nat as Lt.
      { destruct (Nat.eq_dec (s_i s) i) as [E | N]; [| lia].
        rewrite E in Hj. lia. }
      destruct (rejection_consistent self interp particles g s Inv C)
        as [Inv' Ei].
      destruct (IH _ Inv' ltac:(lia)) as [Inv'' [Reach Short]].
      rewrite Ei in Reach, Short.
      split; [exact Inv'' |]. split; intros Hf.
      * apply Reach. lia.
      * rewrite Short by lia. lia.
    + apply Nat.ltb_ge in C.
      assert (s_i s = i) as E.
      { destruct (Nat.eq_dec (s_i s) i) as [E | N]; [exact E |].
        destruct First as [Z | Few]; [lia |].
        pose proof (accepted_among_mono (s_i s) (i - 1) ltac:(lia)). lia. }
      split; [exact Inv |]. split; intros Hf; lia.
Qed.

(** While fewer than [n] proposals are accepted the loop goes on. *)
Lemma rejection_loop_runs :
  (forall i, (List.length (accepted_among self interp g i)
              < Particles.n_macroparticles particles)%nat) ->
  forall fuel s,
    consistent self interp particles g s ->
    s_i (rejection_loop fuel (xmin self) (lx self) (ymin self) (ly self)
           interp s)
    = (s_i s + fuel)%nat.
Proof.
  intros Few. induction fuel as [| fuel IH]; intros s Inv.
  - cbn [rejection_loop]. lia.
  - cbn [rejection_loop].
    pose proof Inv as (Hp & _ & _ & Hj & _).
    assert (s_j s < Particles.n_macroparticles particles)%nat as Lt
      by (rewrite Hj; apply Few).
    rewrite Hp. pose proof Lt as C. apply Nat.ltb_lt in C. rewrite C.
    destruct (rejection_consistent self interp particles g s Inv Lt)
      as [Inv' Ei].
    rewrite (IH _ Inv'), Ei. lia.
Qed.

End Loop.

Section Statements.

Context {scipy : SciPy}.

(** X5.  Let proposal number [i] bring the [n]-th acceptance.  Then
    [generate] returns after exactly [i] passes of the loop: with room for
    [i] passes or more it returns the arrays of the accepted among the
    first [i] proposals, the same whatever the room, and with room for
    fewer it is still running and has not written the buffer. *)
Theorem generate_stops_at_nth_acceptance self particles g out psi i :
  _set_target_std self (SE.init (hamiltonian self)) (sigma_z self)
    = (out, Ok psi) ->
  List.length (accepted_among self (psi_interp self psi) g i)
    = Particles.n_macroparticles particles ->
  (i = O
   \/ (List.length (accepted_among self (psi_interp self psi) g (i - 1))
       < Particles.n_macroparticles particles)%nat) ->
  forall fuel,
    ((i <= fuel)%nat ->
     generate self particles g fuel
     = ((out, Ok tt),
        Particles.set_psi
          (Particles.set_dp
             (Particles.set_z particles
                (map p_u (accepted_among self (psi_interp self psi) g i)))
             (map p_v (accepted_among self (psi_interp self psi) g i)))
          psi))
    /\ ((fuel < i)%nat ->
        generate self particles g fuel = ((out, Running), particles)).
Proof.
  intros Run Full First fuel. rewrite generate_cases, Run. cbv zeta.
  destruct (rejection_loop_stops self (psi_interp self psi) particles g i
              Full First fuel (initial particles g)
              (initial_consistent self _ particles g) ltac:(cbn; lia))
    as [Inv [Reach Short]].
  cbn [initial s_i] in Reach, Short.
  set (sf := rejection_loop fuel (xmin self) (lx self) (ymin self) (ly self)
               (psi_interp self psi) (initial particles g)) in *.
  destruct Inv as (Hp & _ & _ & Hj & Hle & Hx & Hy). rewrite Hp.
  split; intros Hf.
  - pose proof (Reach ltac:(lia)) as Ei. rewrite Ei in Hj, Hx, Hy.
    assert (s_j sf = Particles.n_macroparticles particles) as En
      by (rewrite Hj; exact Full).
    rewrite En in Hx, Hy. rewrite Nat.sub_diag in Hx, Hy.
    cbn [Array.zeros repeat] in Hx, Hy. rewrite app_nil_r in Hx, Hy.
    rewrite En, Nat.ltb_irrefl, Hx, Hy. reflexivity.
  - pose proof (Short ltac:(lia)) as Ei. cbn [Nat.add] in Ei.
    rewrite Ei in Hj.
    assert (s_j sf < Particles.n_macroparticles particles)%nat as Lt.
    { rewrite Hj. destruct First as [Z | Few]; [lia |].
      pose proof (accepted_among_mono self (psi_interp self psi) g fuel
                    (i - 1) ltac:(lia)). lia. }
    apply Nat.ltb_lt in Lt. rewrite Lt. reflexivity.
Qed.

(** X6.  A buffer that asks for no macroparticle gets empty arrays as soon
    as the matching has returned: the loop is not entered, whatever the
    room, and nothing is drawn. *)
Theorem generate_nothing self particles g out psi fuel :
  _set_target_std self (SE.init (hamiltonian self)) (sigma_z self)
    = (out, Ok psi) ->
  Particles.n_macroparticles particles = O ->
  generate self particles g fuel
  = ((out, Ok tt),
     Particles.set_psi (Particles.set_dp (Particles.set_z particles []) [])
                       psi)
  /\ s_random (rejection_loop fuel (xmin self) (lx self) (ymin self)
                 (ly self) (psi_interp self psi) (initial particles g))
     = g.
Proof.
  intros Run Zero. rewrite generate_cases, Run. cbv zeta.
  assert (rejection_loop fuel (xmin self) (lx self) (ymin self) (ly self)
            (psi_interp self psi) (initial particles g)
          = initial particles g) as E.
  { destruct fuel as [| fuel]; [reflexivity |].
    cbn [rejection_loop initial s_j s_particles]. rewrite Zero. reflexivity. }
  rewrite E. cbn [initial s_j s_particles s_x s_y s_random].
  rewrite Zero. split; reflexivity.
Qed.

Lemma lt_above_zero (s : R) (a : float64) :
  0 <= s -> Np.lt (Fin 0) a = false -> Np.lt (Fin s) a = false.
Proof.
  intros Ps. destruct a as [r | | |]; cbn [Np.lt]; intros Z;
    try reflexivity; try discriminate Z.
  apply NpFacts.lt_fin_false. apply NpFacts.lt_fin_false in Z. lra.
Qed.

(** X7.  The loop has no cap.  When the interpolated density is nowhere
    above 0 (or is [nan]) and a macroparticle is asked for, no draw is
    ever accepted: [generate] is still running after any number of passes,
    and the buffer is as it was. *)
Theorem generate_never_returns self particles g out psi fuel :
  _set_target_std self (SE.init (hamiltonian self)) (sigma_z self)
    = (out, Ok psi) ->
  (forall u v, Np.lt (Fin 0) (psi_interp self psi u v) = false) ->
  (forall k, 0 <= stream g k) ->
  (0 < Particles.n_macroparticles particles)%nat ->
  generate self particles g fuel = ((out, Running), particles)
  /\ s_i (rejection_loop fuel (xmin self) (lx self) (ymin self) (ly self)
            (psi_interp self psi) (initial particles g))
     = fuel.
Proof.
  intros Run Dark Draws Asked.
  assert (forall i, accepted_among self (psi_interp self psi) g i = []) as No.
  { intros i. induction i as [| i IH]; [reflexivity |].
    rewrite accepted_among_S, IH. unfold accepted at 1.
    cbn [nth_proposal p_s p_u p_v].
    rewrite lt_above_zero; [reflexivity | apply Draws | apply Dark]. }
  pose proof (rejection_loop_consistent self (psi_interp self psi) particles
                g fuel _ (initial_consistent self _ particles g)) as Inv.
  pose proof (rejection_loop_runs self (psi_interp self psi) particles g
                ltac:(intros i; rewrite No; exact Asked) fuel
                (initial particles g)
                (initial_consistent self _ particles g)) as Ei.
  rewrite generate_cases, Run. cbv zeta.
  set (sf := rejection_loop fuel (xmin self) (lx self) (ymin self) (ly self)
               (psi_interp self psi) (initial particles g)) in *.
  destruct Inv as (Hp & _ & _ & Hj & _). rewrite Hp, Hj, No.
  cbn [List.length]. apply Nat.ltb_lt in Asked. rewrite Asked.
  split; [reflexivity | exact Ei].
Qed.

End Statements.

End SamplerExtras.

(** ** Vectors of draws *)

Module DrawsFacts.

Import RFBucket.

Lemma take_length (g : RandomState) (n : nat) :
  List.length (fst (Draws.take g n)) = n.
Proof. unfold Draws.take. cbn [fst]. rewrite length_map, length_seq. reflexivity. Qed.

Lemma scale_length (c : float64) (a : list float64) :
  List.length (Draws.scale c a) = List.length a.
Proof. apply length_map. Qed.

(** [c + r * d] for the draws [r], between finite ends. *)
Lemma affine_take (a d : R) (g : RandomState) (n : nat) :
  Draws.affine (Fin a) (Fin d) (fst (Draws.take g n))
  = map (fun k => Fin (a + stream g (position g + k) * d)) (seq 0 n).
Proof. unfold Draws.affine, Draws.take. cbn [fst]. apply map_map. Qed.

(** [0. * a] is an array of zeros when [a] is finite. *)
Lemma scale_zero (h : nat -> R) (l : list nat) :
  Draws.scale (Fin 0) (map (fun k => Fin (h k)) l)
  = Array.zeros (List.length l).
Proof.
  unfold Draws.scale, Array.zeros. rewrite map_map.
  induction l as [| k l IH].
  - reflexivity.
  - cbn [map List.length repeat]. rewrite IH. f_equal. cbn [Np.mul].
    f_equal. ring.
Qed.

(** A draw in [0, 1) lands between the two ends. *)
Lemma affine_between (a b r : R) :
  0 <= r < 1 -> Rmin a b <= a + r * (b - a) <= Rmax a b.
Proof.
  intros [Lo Hi].
  pose proof (Rmin_l a b). pose proof (Rmin_r a b).
  pose proof (Rmax_l a b). pose proof (Rmax_r a b).
  split; nra.
Qed.

Lemma affine_box (a b : R) (g : RandomState) (n : nat) :
  (forall k, 0 <= stream g k < 1) ->
  Forall (Sampling.between (Rmin a b) (Rmax a b))
    (map (fun k => Fin (a + stream g (position g + k) * (b - a))) (seq 0 n)).
Proof.
  intros Draws. apply Forall_forall. intros v Hv. apply in_map_iff in Hv.
  destruct Hv as [k [<- _]]. cbn [Sampling.between].
  apply affine_between. apply Draws.
Qed.

End DrawsFacts.

(** ** The uniform generators *)

Module UniformProperties.

Import RFBucket DrawsFacts.

Lemma uniform_x_eq self particles g :
  UniformX.generate self particles g
  = let n := Particles.n_macroparticles particles in
    let v := Draws.affine (UniformX.x_min self)
               (Np.sub (UniformX.x_max self) (UniformX.x_min self))
               (fst (Draws.take g n)) in
    (Beam.set_xp (Beam.set_x particles v) (Draws.scale (Fin 0) v),
     snd (Draws.take g n)).
Proof. reflexivity. Qed.

Lemma uniform_y_eq self particles g :
  UniformY.generate self particles g
  = let n := Particles.n_macroparticles particles in
    let v := Draws.affine (UniformY.y_min self)
               (Np.sub (UniformY.y_max self) (UniformY.y_min self))
               (fst (Draws.take g n)) in
    (Beam.set_yp (Beam.set_y particles v) (Draws.scale (Fin 0) v),
     snd (Draws.take g n)).
Proof. reflexivity. Qed.

Lemma uniform_z_eq self particles g :
  UniformZ.generate self particles g
  = let n := Particles.n_macroparticles particles in
    let v := Draws.affine (UniformZ.z_min self)
               (Np.sub (UniformZ.z_max self) (UniformZ.z_min self))
               (fst (Draws.take g n)) in
    (Particles.set_dp (Particles.set_z particles v) (Draws.scale (Fin 0) v),
     snd (Draws.take g n)).
Proof. reflexivity. Qed.

(** X8.  [UniformX.generate] with finite bounds writes [n_macroparticles]
    positions [x_min + r * (x_max - x_min)], one per draw [r]: they lie
    between the two bounds, these included, in whichever order they
    come.  [xp] is all zeros.  Nothing else of the buffer is written, and
    the global generator has moved on by [n_macroparticles] draws. *)
Theorem uniform_x_generate self particles g (a b : R) :
  UniformX.x_min self = Fin a -> UniformX.x_max self = Fin b ->
  (forall k, 0 <= stream g k < 1) ->
  let n := Particles.n_macroparticles particles in
  let particles' := fst (UniformX.generate self particles g) in
  let g' := snd (UniformX.generate self particles g) in
  Particles.x particles'
    = map (fun k => Fin (a + stream g (position g + k) * (b - a))) (seq 0 n)
  /\ List.length (Particles.x particles') = n
  /\ Forall (Sampling.between (Rmin a b) (Rmax a b)) (Particles.x particles')
  /\ Particles.xp particles' = Array.zeros n
  /\ (Particles.y particles' = Particles.y particles
      /\ Particles.yp particles' = Particles.yp particles
      /\ Particles.z particles' = Particles.z particles
      /\ Particles.dp particles' = Particles.dp particles
      /\ Particles.n_macroparticles particles' = n
      /\ Particles.psi particles' = Particles.psi particles)
  /\ position g' = (position g + n)%nat
  /\ stream g' = stream g.
Proof.
  intros Ea Eb Draws n particles' g'.
  assert (Particles.x particles'
          = map (fun k => Fin (a + stream g (position g + k) * (b - a)))
                (seq 0 n)) as Ex.
  { unfold particles'. rewrite uniform_x_eq. cbv zeta. rewrite Ea, Eb.
    change (Np.sub (Fin b) (Fin a)) with (Fin (b - a)).
    rewrite (affine_take a (b - a) g). reflexivity. }
  pose proof (affine_box a b g n Draws) as Box.
  split; [exact Ex |]. rewrite Ex.
  split; [rewrite length_map, length_seq; reflexivity |].
  split; [exact Box |].
  split.
  - unfold particles'. rewrite uniform_x_eq. cbv zeta. rewrite Ea, Eb.
    change (Np.sub (Fin b) (Fin a)) with (Fin (b - a)).
    rewrite (affine_take a (b - a) g).
    cbn [fst Particles.x Particles.xp Particles.y Particles.yp Particles.z
         Particles.dp Beam.set_x Beam.set_xp Beam.set_y Beam.set_yp
         Particles.set_z Particles.set_dp].
    rewrite (scale_zero (fun k => a + stream g (position g + k) * (b - a))).
    rewrite length_seq. reflexivity.
  - repeat split.
Qed.

(** X9.  [UniformY.generate] with finite bounds writes [n_macroparticles]
    positions [y_min + r * (y_max - y_min)], one per draw [r]: they lie
    between the two bounds, these included, in whichever order they
    come.  [yp] is all zeros.  Nothing else of the buffer is written, and
    the global generator has moved on by [n_macroparticles] draws. *)
Theorem uniform_y_generate self particles g (a b : R) :
  UniformY.y_min self = Fin a -> UniformY.y_max self = Fin b ->
  (forall k, 0 <= stream g k < 1) ->
  let n := Particles.n_macroparticles particles in
  let particles' := fst (UniformY.generate self particles g) in
  let g' := snd (UniformY.generate self particles g) in
  Particles.y particles'
    = map (fun k => Fin (a + stream g (position g + k) * (b - a))) (seq 0 n)
  /\ List.length (Particles.y particles') = n
  /\ Forall (Sampling.between (Rmin a b) (Rmax a b)) (Particles.y particles')
  /\ Particles.yp particles' = Array.zeros n
  /\ (Particles.x particles' = Particles.x particles
      /\ Particles.xp particles' = Particles.xp particles
      /\ Particles.z particles' = Particles.z particles
      /\ Particles.dp particles' = Particles.dp particles
      /\ Particles.n_macroparticles particles' = n
      /\ Particles.psi particles' = Particles.psi particles)
  /\ position g' = (position g + n)%nat
  /\ stream g' = stream g.
Proof.
  intros Ea Eb Draws n particles' g'.
  assert (Particles.y particles'
          = map (fun k => Fin (a + stream g (position g + k) * (b - a)))
                (seq 0 n)) as Ey.
  { unfold particles'. rewrite uniform_y_eq. cbv zeta. rewrite Ea, Eb.
    change (Np.sub (Fin b) (Fin a)) with (Fin (b - a)).
    rewrite (affine_take a (b - a) g). reflexivity. }
  pose proof (affine_box a b g n Draws) as Box.
  split; [exact Ey |]. rewrite Ey.
  split; [rewrite length_map, length_seq; reflexivity |].
  split; [exact Box |].
  split.
  - unfold particles'. rewrite uniform_y_eq. cbv zeta. rewrite Ea, Eb.
    change (Np.sub (Fin b) (Fin a)) with (Fin (b - a)).
    rewrite (affine_take a (b - a) g).
    cbn [fst Particles.x Particles.xp Particles.y Particles.yp Particles.z
         Particles.dp Beam.set_x Beam.set_xp Beam.set_y Beam.set_yp
         Particles.set_z Particles.set_dp].
    rewrite (scale_zero (fun k => a + stream g (position g + k) * (b - a))).
    rewrite length_seq. reflexivity.
  - repeat split.
Qed.

(** X10.  [UniformZ.generate] with finite bounds writes [n_macroparticles]
    positions [z_min + r * (z_max - z_min)], one per draw [r]: they lie
    between the two bounds, these included, in whichever order they
    come.  [dp] is all zeros.  Nothing else of the buffer is written, and
    the global generator has moved on by [n_macroparticles] draws. *)
Theorem uniform_z_generate self particles g (a b : R) :
  UniformZ.z_min self = Fin a -> UniformZ.z_max self = Fin b ->
  (forall k, 0 <= stream g k < 1) ->
  let n := Particles.n_macroparticles particles in
  let particles' := fst (UniformZ.generate self particles g) in
  let g' := snd (UniformZ.generate self particles g) in
  Particles.z particles'
    = map (fun k => Fin (a + stream g (position g + k) * (b - a))) (seq 0 n)
  /\ List.length (Particles.z particles') = n
  /\ Forall (Sampling.between (Rmin a b) (Rmax a b)) (Particles.z particles')
  /\ Particles.dp particles' = Array.zeros n
  /\ (Particles.x particles' = Particles.x particles
      /\ Particles.xp particles' = Particles.xp particles
      /\ Particles.y particles' = Particles.y particles
      /\ Particles.yp particles' = Particles.yp particles
      /\ Particles.n_macroparticles particles' = n
      /\ Particles.psi particles' = Particles.psi particles)
  /\ position g' = (position g + n)%nat
  /\ stream g' = stream g.
Proof.
  intros Ea Eb Draws n particles' g'.
  assert (Particles.z particles'
          = map (fun k => Fin (a + stream g (position g + k) * (b - a)))
                (seq 0 n)) as Ez.
  { unfold particles'. rewrite uniform_z_eq. cbv zeta. rewrite Ea, Eb.
    change (Np.sub (Fin b) (Fin a)) with (Fin (b - a)).
    rewrite (affine_take a (b - a) g). reflexivity. }
  pose proof (affine_box a b g n Draws) as Box.
  split; [exact Ez |]. rewrite Ez.
  split; [rewrite length_map, length_seq; reflexivity |].
  split; [exact Box |].
  split.
  - unfold particles'. rewrite uniform_z_eq. cbv zeta. rewrite Ea, Eb.
    change (Np.sub (Fin b) (Fin a)) with (Fin (b - a)).
    rewrite (affine_take a (b - a) g).
    cbn [fst Particles.x Particles.xp Particles.y Particles.yp Particles.z
         Particles.dp Beam.set_x Beam.set_xp Beam.set_y Beam.set_yp
         Particles.set_z Particles.set_dp].
    rewrite (scale_zero (fun k => a + stream g (position g + k) * (b - a))).
    rewrite length_seq. reflexivity.
  - repeat split.
Qed.

End UniformProperties.

(** ** The Gaussian generators *)

Module GaussianFacts.

Import RFBucket DrawsFacts.

(** The draws [k], [k+1], ... of a generator read from a later position. *)
Lemma take_take (g : RandomState) (m n : nat) :
  fst (Draws.take (snd (Draws.take g m)) n)
  = map (fun k => Fin (stream g (position g + (m + k)))) (seq 0 n).
Proof.
  unfold Draws.take. cbn [fst snd stream position].
  apply map_ext. intros k. rewrite Nat.add_assoc. reflexivity.
Qed.

Lemma scale_take (c : float64) (h : nat -> R) (n : nat) :
  Draws.scale c (map (fun k => Fin (h k)) (seq 0 n))
  = map (fun k => Np.mul c (Fin (h k))) (seq 0 n).
Proof. unfold Draws.scale. apply map_map. Qed.

(** The standard deviations [from_optics] computes from [beta], [epsn]
    and a divisor. *)
Lemma optics (b q : R) :
  0 < b -> 0 <= q ->
  exists sx sxp : R,
    Np.sqrt (Fin (b * q)) = Fin sx
    /\ Np.div (Np.sqrt (Fin (b * q))) (Fin b) = Fin sxp
    /\ 0 <= sx /\ 0 <= sxp
    /\ sx * sxp = q /\ sx = b * sxp.
Proof.
  intros Hb Hq.
  assert (0 <= b * q) as Hx by nra.
  exists (sqrt (b * q)), (sqrt (b * q) / b).
  rewrite (NpFacts.sqrt_fin _ Hx).
  rewrite NpFacts.div_fin by lra.
  pose proof (sqrt_pos (b * q)) as Sp.
  pose proof (sqrt_sqrt _ Hx) as Ss.
  split; [reflexivity |]. split; [reflexivity |].
  split; [exact Sp |].
  split.
  - unfold Rdiv. apply Rmult_le_pos; [exact Sp |].
    left. apply Rinv_0_lt_compat. exact Hb.
  - split.
    + unfold Rdiv. rewrite <- Rmult_assoc, Ss. field. lra.
    + field. lra.
Qed.

Lemma setitem_array_some (a : list float64) (i : nat) (v a' : list float64) :
  GaussianZ.setitem_array a i v = Some a' -> List.length v = 1%nat.
Proof.
  destruct v as [| w [| w' v]]; cbn [GaussianZ.setitem_array].
  - discriminate.
  - reflexivity.
  - discriminate.
Qed.

Lemma setitem_array_long (a : list float64) (i : nat) (v : list float64) :
  List.length v <> 1%nat -> GaussianZ.setitem_array a i v = None.
Proof.
  intros Hv. destruct (GaussianZ.setitem_array a i v) as [a' |] eqn:E.
  - apply setitem_array_some in E. contradiction.
  - reflexivity.
Qed.

Section Resample.

Variables (sz sdp : float64).
Variable accept : float64 -> float64 -> Particles.t -> bool.
Variable n : nat.

Lemma resample_accepted fuel i beam rs :
  GaussianZ.passes accept beam i = true ->
  GaussianZ.resample fuel sz sdp accept n i beam rs
  = {| GaussianZ.ended := Ok tt; GaussianZ.beam := beam;
       GaussianZ.generator := rs |}.
Proof.
  unfold GaussianZ.passes. intros A.
  destruct fuel; cbn [GaussianZ.resample]; rewrite A; reflexivity.
Qed.

Lemma resample_rejected fuel i beam rs :
  GaussianZ.passes accept beam i = false -> (2 <= n)%nat ->
  GaussianZ.resample (S fuel) sz sdp accept n i beam rs
  = {| GaussianZ.ended := Raise GaussianZ.sequence_error;
       GaussianZ.beam := beam;
       GaussianZ.generator := snd (Draws.take rs n) |}.
Proof.
  unfold GaussianZ.passes. intros A Hn. cbn [GaussianZ.resample]. rewrite A.
  unfold Draws.take at 1.
  rewrite setitem_array_long.
  - reflexivity.
  - rewrite scale_length, length_map, length_seq. lia.
Qed.

(** A pass of the loop that returns leaves the particle accepted, and has
    written nothing unless the buffer holds one particle. *)
Lemma resample_returns fuel i beam rs r :
  GaussianZ.resample fuel sz sdp accept n i beam rs = r ->
  GaussianZ.ended r = Ok tt ->
  GaussianZ.passes accept (GaussianZ.beam r) i = true
  /\ (n <> 1%nat -> GaussianZ.beam r = beam /\ GaussianZ.generator r = rs).
Proof.
  revert beam rs. induction fuel as [| fuel IH]; intros beam rs Er.
  - cbn [GaussianZ.resample] in Er.
    fold (GaussianZ.passes accept beam i) in Er.
    destruct (GaussianZ.passes accept beam i) eqn:A; subst r;
      cbn [GaussianZ.ended GaussianZ.beam GaussianZ.generator].
    + intros _. split; [exact A |]. intros _. split; reflexivity.
    + discriminate.
  - cbn [GaussianZ.resample] in Er.
    fold (GaussianZ.passes accept beam i) in Er.
    destruct (GaussianZ.passes accept beam i) eqn:A.
    + subst r. cbn [GaussianZ.ended GaussianZ.beam GaussianZ.generator].
      intros _. split; [exact A |]. intros _. split; reflexivity.
    + unfold Draws.take at 1 in Er.
      destruct (GaussianZ.setitem_array (Particles.z beam) i
                  (Draws.scale sz
                     (map (fun k => Fin (stream rs (position rs + k)))
                        (seq 0 n)))) as [z' |] eqn:Ez.
      * apply setitem_array_some in Ez.
        rewrite scale_length, length_map, length_seq in Ez.
        unfold Draws.take at 1 in Er.
        match type of Er with
        | context [GaussianZ.setitem_array ?a ?j ?v] =>
            destruct (GaussianZ.setitem_array a j v) as [dp' |]
        end.
        -- intros E. destruct (IH _ _ Er E) as [P _].
           split; [exact P |]. intros Hn. contradiction.
        -- subst r. cbn [GaussianZ.ended]. discriminate.
      * subst r. cbn [GaussianZ.ended]. discriminate.
Qed.

(** The loop over the indices: a first rejected particle ends it. *)
Lemma redistribute_raises fuel indices beam rs :
  (2 <= n)%nat ->
  (exists i, In i indices /\ GaussianZ.passes accept beam i = false) ->
  GaussianZ.redistribute_from (S fuel) sz sdp accept n indices beam rs
  = {| GaussianZ.ended := Raise GaussianZ.sequence_error;
       GaussianZ.beam := beam;
       GaussianZ.generator := snd (Draws.take rs n) |}.
Proof.
  intros Hn. induction indices as [| j indices IH]; intros [i [Hi R]].
  - destruct Hi.
  - cbn [GaussianZ.redistribute_from].
    destruct (GaussianZ.passes accept beam j) eqn:A.
    + rewrite (resample_accepted _ _ _ _ A).
      cbn [GaussianZ.ended GaussianZ.beam GaussianZ.generator].
      apply IH. destruct Hi as [<- | Hi].
      * rewrite A in R. discriminate.
      * exists i. split; assumption.
    + rewrite (resample_rejected _ _ _ _ A Hn). reflexivity.
Qed.

Lemma redistribute_accepted fuel indices beam rs :
  (forall i, In i indices -> GaussianZ.passes accept beam i = true) ->
  GaussianZ.redistribute_from fuel sz sdp accept n indices beam rs
  = {| GaussianZ.ended := Ok tt; GaussianZ.beam := beam;
       GaussianZ.generator := rs |}.
Proof.
  induction indices as [| j indices IH]; intros All.
  - reflexivity.
  - cbn [GaussianZ.redistribute_from].
    rewrite (resample_accepted _ _ _ _ (All j (or_introl eq_refl))).
    cbn [GaussianZ.ended GaussianZ.beam GaussianZ.generator].
    apply IH. intros i Hi. apply All. right. exact Hi.
Qed.

(** With more or fewer than one particle, a loop that returns has written
    nothing and found every particle accepted. *)
Lemma redistribute_returns fuel indices beam rs :
  n <> 1%nat ->
  GaussianZ.ended
    (GaussianZ.redistribute_from fuel sz sdp accept n indices beam rs) = Ok tt ->
  let r := GaussianZ.redistribute_from fuel sz sdp accept n indices beam rs in
  GaussianZ.beam r = beam /\ GaussianZ.generator r = rs
  /\ forall i, In i indices -> GaussianZ.passes accept beam i = true.
Proof.
  intros Hn. revert beam rs.
  induction indices as [| j indices IH]; intros beam rs.
  - intros _. cbn. split; [reflexivity |]. split; [reflexivity |].
    intros i [].
  - cbn [GaussianZ.redistribute_from].
    destruct (GaussianZ.ended
                (GaussianZ.resample fuel sz sdp accept n j beam rs)) as [[] | e |]
      eqn:E.
    + destruct (resample_returns _ _ _ _ _ eq_refl E) as [P Same].
      destruct (Same Hn) as [Eb Eg]. rewrite Eb, Eg. rewrite Eb in P.
      intros E'. destruct (IH _ _ E') as [Eb' [Eg' All]].
      split; [exact Eb' |]. split; [exact Eg' |].
      intros i [<- | Hi]; [exact P | apply All; exact Hi].
    + rewrite E. discriminate.
    + rewrite E. discriminate.
Qed.

End Resample.

Lemma generate_eq fuel self beam :
  GaussianZ.generate fuel self beam
  = let n := Particles.n_macroparticles beam in
    let rs := snd (Draws.take (snd (Draws.take (GaussianZ.random_state self) n))
                     n) in
    match GaussianZ.is_accepted self with
    | Some accept =>
        GaussianZ.redistribute_from fuel (GaussianZ.sigma_z self)
          (GaussianZ.sigma_dp self) accept n (seq 0 n)
          (GaussianZ.drawn self beam) rs
    | None =>
        {| GaussianZ.ended := Ok tt;
           GaussianZ.beam := GaussianZ.drawn self beam;
           GaussianZ.generator := rs |}
    end.
Proof. reflexivity. Qed.

Lemma drawn_arrays self beam :
  let n := Particles.n_macroparticles beam in
  let g := GaussianZ.random_state self in
  Particles.z (GaussianZ.drawn self beam)
    = map (fun k => Np.mul (GaussianZ.sigma_z self)
                      (Fin (stream g (position g + k)))) (seq 0 n)
  /\ Particles.dp (GaussianZ.drawn self beam)
    = map (fun k => Np.mul (GaussianZ.sigma_dp self)
                      (Fin (stream g (position g + (n + k))))) (seq 0 n).
Proof.
  intros n g. split.
  - unfold GaussianZ.drawn, Draws.take, Draws.scale.
    cbn [Particles.z Particles.set_z Particles.set_dp]. apply map_map.
  - unfold GaussianZ.drawn, Draws.take, Draws.scale.
    cbn [Particles.dp Particles.set_z Particles.set_dp stream position].
    rewrite map_map. apply map_ext. intros k. rewrite Nat.add_assoc.
    reflexivity.
Qed.

End GaussianFacts.

Module GaussianProperties.

Import RFBucket DrawsFacts GaussianFacts.

(** X11.  Two successive calls of [GaussianX.generate] on the same buffer
    of [n] particles: the first writes [sigma_x] times the deviates
    0..n-1 of the object's stream to [x] and [sigma_xp] times the deviates
    n..2n-1 to [xp]; the second continues with the deviates 2n..3n-1 and
    3n..4n-1, so no deviate is used twice.  Every array has [n] entries,
    and nothing but [x] and [xp] is written. *)
Theorem gaussian_x_successive self beam :
  let n := Particles.n_macroparticles beam in
  let g := GaussianX.random_state self in
  let d k := Fin (stream g (position g + k)) in
  let first := GaussianX.generate self beam in
  let second := GaussianX.generate (fst first) (snd first) in
  Particles.x (snd first)
    = map (fun k => Np.mul (GaussianX.sigma_x self) (d k)) (seq 0 n)
  /\ Particles.xp (snd first)
    = map (fun k => Np.mul (GaussianX.sigma_xp self) (d (n + k)%nat)) (seq 0 n)
  /\ Particles.x (snd second)
    = map (fun k => Np.mul (GaussianX.sigma_x self) (d (2 * n + k)%nat))
          (seq 0 n)
  /\ Particles.xp (snd second)
    = map (fun k => Np.mul (GaussianX.sigma_xp self) (d (3 * n + k)%nat))
          (seq 0 n)
  /\ (List.length (Particles.x (snd second)) = n
      /\ List.length (Particles.xp (snd second)) = n)
  /\ (Particles.y (snd second) = Particles.y beam
      /\ Particles.yp (snd second) = Particles.yp beam
      /\ Particles.z (snd second) = Particles.z beam
      /\ Particles.dp (snd second) = Particles.dp beam
      /\ Particles.n_macroparticles (snd second) = n
      /\ Particles.psi (snd second) = Particles.psi beam).
Proof.
  intros n g d first second.
  assert (forall (c : float64) (m : nat),
            map (fun v => Np.mul c v)
                (map (fun k => Fin (stream g (position g + m + k))) (seq 0 n))
            = map (fun k => Np.mul c (d (m + k)%nat)) (seq 0 n)) as Sc.
  { intros c m. rewrite map_map. apply map_ext. intros k. unfold d.
    rewrite Nat.add_assoc. reflexivity. }
  split; [| split; [| split; [| split; [| split]]]].
  - unfold first, GaussianX.generate, Draws.take, Draws.scale.
    cbn [snd Particles.x Beam.set_x Beam.set_xp]. apply map_map.
  - unfold first, GaussianX.generate, Draws.take, Draws.scale.
    cbn [snd Particles.xp Beam.set_x Beam.set_xp stream position
         Particles.n_macroparticles].
    apply (Sc _ n).
  - unfold second, first, GaussianX.generate, Draws.take, Draws.scale.
    cbn [fst snd Particles.x Beam.set_x Beam.set_xp stream position
         Particles.n_macroparticles GaussianX.sigma_x GaussianX.sigma_xp
         GaussianX.random_state].
    fold n g. rewrite <- (Sc _ (2 * n)%nat).
    replace (position g + n + n)%nat with (position g + 2 * n)%nat by lia.
    reflexivity.
  - unfold second, first, GaussianX.generate, Draws.take, Draws.scale.
    cbn [fst snd Particles.xp Beam.set_x Beam.set_xp stream position
         Particles.n_macroparticles GaussianX.sigma_x GaussianX.sigma_xp
         GaussianX.random_state].
    fold n g. rewrite <- (Sc _ (3 * n)%nat).
    replace (position g + n + n + n)%nat with (position g + 3 * n)%nat by lia.
    reflexivity.
  - unfold second, first, GaussianX.generate, Draws.take, Draws.scale.
    cbn [fst snd Particles.x Particles.xp Beam.set_x Beam.set_xp
         Particles.n_macroparticles].
    rewrite !length_map, length_seq. split; reflexivity.
  - repeat split.
Qed.

(** X12.  Two successive calls of [GaussianY.generate] on the same buffer
    of [n] particles: the first writes [sigma_y] times the deviates
    0..n-1 of the object's stream to [y] and [sigma_yp] times the deviates
    n..2n-1 to [yp]; the second continues with the deviates 2n..3n-1 and
    3n..4n-1, so no deviate is used twice.  Every array has [n] entries,
    and nothing but [y] and [yp] is written. *)
Theorem gaussian_y_successive self beam :
  let n := Particles.n_macroparticles beam in
  let g := GaussianY.random_state self in
  let d k := Fin (stream g (position g + k)) in
  let first := GaussianY.generate self beam in
  let second := GaussianY.generate (fst first) (snd first) in
  Particles.y (snd first)
    = map (fun k => Np.mul (GaussianY.sigma_y self) (d k)) (seq 0 n)
  /\ Particles.yp (snd first)
    = map (fun k => Np.mul (GaussianY.sigma_yp self) (d (n + k)%nat)) (seq 0 n)
  /\ Particles.y (snd second)
    = map (fun k => Np.mul (GaussianY.sigma_y self) (d (2 * n + k)%nat))
          (seq 0 n)
  /\ Particles.yp (snd second)
    = map (fun k => Np.mul (GaussianY.sigma_yp self) (d (3 * n + k)%nat))
          (seq 0 n)
  /\ (List.length (Particles.y (snd second)) = n
      /\ List.length (Particles.yp (snd second)) = n)
  /\ (Particles.x (snd second) = Particles.x beam
      /\ Particles.xp (snd second) = Particles.xp beam
      /\ Particles.z (snd second) = Particles.z beam
      /\ Particles.dp (snd second) = Particles.dp beam
      /\ Particles.n_macroparticles (snd second) = n
      /\ Particles.psi (snd second) = Particles.psi beam).
Proof.
  intros n g d first second.
  assert (forall (c : float64) (m : nat),
            map (fun v => Np.mul c v)
                (map (fun k => Fin (stream g (position g + m + k))) (seq 0 n))
            = map (fun k => Np.mul c (d (m + k)%nat)) (seq 0 n)) as Sc.
  { intros c m. rewrite map_map. apply map_ext. intros k. unfold d.
    rewrite Nat.add_assoc. reflexivity. }
  split; [| split; [| split; [| split; [| split]]]].
  - unfold first, GaussianY.generate, Draws.take, Draws.scale.
    cbn [snd Particles.y Beam.set_y Beam.set_yp]. apply map_map.
  - unfold first, GaussianY.generate, Draws.take, Draws.scale.
    cbn [snd Particles.yp Beam.set_y Beam.set_yp stream position
         Particles.n_macroparticles].
    apply (Sc _ n).
  - unfold second, first, GaussianY.generate, Draws.take, Draws.scale.
    cbn [fst snd Particles.y Beam.set_y Beam.set_yp stream position
         Particles.n_macroparticles GaussianY.sigma_y GaussianY.sigma_yp
         GaussianY.random_state].
    fold n g. rewrite <- (Sc _ (2 * n)%nat).
    replace (position g + n + n)%nat with (position g + 2 * n)%nat by lia.
    reflexivity.
  - unfold second, first, GaussianY.generate, Draws.take, Draws.scale.
    cbn [fst snd Particles.yp Beam.set_y Beam.set_yp stream position
         Particles.n_macroparticles GaussianY.sigma_y GaussianY.sigma_yp
         GaussianY.random_state].
    fold n g. rewrite <- (Sc _ (3 * n)%nat).
    replace (position g + n + n + n)%nat with (position g + 3 * n)%nat by lia.
    reflexivity.
  - unfold second, first, GaussianY.generate, Draws.take, Draws.scale.
    cbn [fst snd Particles.y Particles.yp Beam.set_y Beam.set_yp
         Particles.n_macroparticles].
    rewrite !length_map, length_seq. split; reflexivity.
  - repeat split.
Qed.

(** X13.  [GaussianX.from_optics] with positive [beta_x] and [betagamma]
    and a non-negative [epsn_x]: both standard deviations are finite and
    non-negative, their product is the geometric emittance
    [epsn_x * 1e-6 / betagamma], their ratio is [beta_x], and [alpha_x]
    plays no part. *)
Theorem gaussian_x_from_optics (alpha alpha' : float64) (b ep bg : R)
    (deviates : nat -> R) :
  0 < b -> 0 <= ep -> 0 < bg ->
  let self := GaussianX.from_optics alpha (Fin b) (Fin ep) (Fin bg) deviates in
  (exists sx sxp : R,
     GaussianX.sigma_x self = Fin sx /\ GaussianX.sigma_xp self = Fin sxp
     /\ 0 <= sx /\ 0 <= sxp
     /\ sx * sxp = ep * 1e-6 / bg /\ sx = b * sxp)
  /\ GaussianX.from_optics alpha' (Fin b) (Fin ep) (Fin bg) deviates = self.
Proof.
  intros Hb Hep Hbg self. split; [| reflexivity].
  assert (0 <= ep * 1e-6 / bg) as Hq.
  { apply Rmult_le_pos; [lra |]. left. apply Rinv_0_lt_compat. exact Hbg. }
  destruct (optics b (ep * 1e-6 / bg) Hb Hq)
    as [sx [sxp [E1 [E2 [P1 [P2 [Pr Ra]]]]]]].
  assert (Np.div (Np.mul (Np.mul (Fin b) (Fin ep)) (Fin 1e-6)) (Fin bg)
          = Fin (b * (ep * 1e-6 / bg))) as Arg.
  { cbn [Np.mul]. rewrite NpFacts.div_fin by lra. f_equal. field. lra. }
  exists sx, sxp.
  unfold self, GaussianX.from_optics, GaussianX.init.
  cbn [GaussianX.sigma_x GaussianX.sigma_xp]. rewrite Arg.
  repeat split; assumption.
Qed.

(** X14.  [GaussianY.from_optics] with positive [beta_y] and [betagamma]
    and a non-negative [epsn_y]: both standard deviations are finite and
    non-negative, their product is the geometric emittance
    [epsn_y * 1e-6 / betagamma], their ratio is [beta_y], and [alpha_y]
    plays no part. *)
Theorem gaussian_y_from_optics (alpha alpha' : float64) (b ep bg : R)
    (deviates : nat -> R) :
  0 < b -> 0 <= ep -> 0 < bg ->
  let self := GaussianY.from_optics alpha (Fin b) (Fin ep) (Fin bg) deviates in
  (exists sy syp : R,
     GaussianY.sigma_y self = Fin sy /\ GaussianY.sigma_yp self = Fin syp
     /\ 0 <= sy /\ 0 <= syp
     /\ sy * syp = ep * 1e-6 / bg /\ sy = b * syp)
  /\ GaussianY.from_optics alpha' (Fin b) (Fin ep) (Fin bg) deviates = self.
Proof.
  intros Hb Hep Hbg self. split; [| reflexivity].
  assert (0 <= ep * 1e-6 / bg) as Hq.
  { apply Rmult_le_pos; [lra |]. left. apply Rinv_0_lt_compat. exact Hbg. }
  destruct (optics b (ep * 1e-6 / bg) Hb Hq)
    as [sy [syp [E1 [E2 [P1 [P2 [Pr Ra]]]]]]].
  assert (Np.div (Np.mul (Np.mul (Fin b) (Fin ep)) (Fin 1e-6)) (Fin bg)
          = Fin (b * (ep * 1e-6 / bg))) as Arg.
  { cbn [Np.mul]. rewrite NpFacts.div_fin by lra. f_equal. field. lra. }
  exists sy, syp.
  unfold self, GaussianY.from_optics, GaussianY.init.
  cbn [GaussianY.sigma_y GaussianY.sigma_yp]. rewrite Arg.
  repeat split; assumption.
Qed.

(** X15.  [GaussianZ.from_optics] with positive [beta_z], [p0] and
    elementary charge and a non-negative [epsn_z]: both standard
    deviations are finite and non-negative, their product is
    [epsn_z * e / (4 pi p0)] and their ratio is [beta_z]. *)
Theorem gaussian_z_from_optics (e b ep p0 : R) is_accepted
    (deviates : nat -> R) :
  0 < e -> 0 < b -> 0 <= ep -> 0 < p0 ->
  let self :=
    GaussianZ.from_optics (Fin e) (Fin b) (Fin ep) (Fin p0) is_accepted
      deviates in
  exists sz sdp : R,
    GaussianZ.sigma_z self = Fin sz /\ GaussianZ.sigma_dp self = Fin sdp
    /\ 0 <= sz /\ 0 <= sdp
    /\ sz * sdp = ep * e / (4 * PI * p0) /\ sz = b * sdp.
Proof.
  intros He Hb Hep Hp self.
  pose proof PI_RGT_0 as Pi.
  assert (0 <= ep * e / (4 * PI * p0)) as Hq.
  { apply Rmult_le_pos; [nra |]. left. apply Rinv_0_lt_compat. nra. }
  destruct (optics b (ep * e / (4 * PI * p0)) Hb Hq)
    as [sz [sdp [E1 [E2 [P1 [P2 [Pr Ra]]]]]]].
  assert (Np.div (Np.mul (Np.div (Np.mul (Fin b) (Fin ep))
                            (Np.mul (Fin 4) (Fin PI))) (Fin e)) (Fin p0)
          = Fin (b * (ep * e / (4 * PI * p0)))) as Arg.
  { cbn [Np.mul]. rewrite NpFacts.div_fin by lra. cbn [Np.mul].
    rewrite NpFacts.div_fin by lra. f_equal. field. lra. }
  exists sz, sdp.
  unfold self, GaussianZ.from_optics, GaussianZ.init.
  cbn [GaussianZ.sigma_z GaussianZ.sigma_dp]. rewrite Arg.
  repeat split; assumption.
Qed.

(** X16.  [GaussianZ.generate] without an acceptance test, or with one
    that every drawn particle passes: it returns, [z] is [sigma_z] times
    the deviates 0..n-1 of the object's stream and [dp] is [sigma_dp]
    times the deviates n..2n-1, and the generator has moved on by 2n
    deviates. *)
Theorem gaussian_z_all_accepted fuel self beam :
  (forall accept i,
     GaussianZ.is_accepted self = Some accept ->
     (i < Particles.n_macroparticles beam)%nat ->
     accept (Array.getitem (Particles.z (GaussianZ.drawn self beam)) i)
            (Array.getitem (Particles.dp (GaussianZ.drawn self beam)) i)
            (GaussianZ.drawn self beam) = true) ->
  let n := Particles.n_macroparticles beam in
  let g := GaussianZ.random_state self in
  let r := GaussianZ.generate fuel self beam in
  GaussianZ.ended r = Ok tt
  /\ Particles.z (GaussianZ.beam r)
     = map (fun k => Np.mul (GaussianZ.sigma_z self)
                       (Fin (stream g (position g + k)))) (seq 0 n)
  /\ Particles.dp (GaussianZ.beam r)
     = map (fun k => Np.mul (GaussianZ.sigma_dp self)
                       (Fin (stream g (position g + (n + k))))) (seq 0 n)
  /\ position (GaussianZ.generator r) = (position g + 2 * n)%nat
  /\ stream (GaussianZ.generator r) = stream g.
Proof.
  intros All n g r.
  destruct (drawn_arrays self beam) as [Ez Edp].
  assert (r = {| GaussianZ.ended := Ok tt;
                 GaussianZ.beam := GaussianZ.drawn self beam;
                 GaussianZ.generator :=
                   snd (Draws.take (snd (Draws.take g n)) n) |}) as Er.
  { unfold r. rewrite generate_eq. cbv zeta. fold n g.
    destruct (GaussianZ.is_accepted self) as [accept |] eqn:Ea.
    - apply redistribute_accepted. intros i Hi. apply in_seq in Hi.
      apply (All accept i eq_refl). fold n. lia.
    - reflexivity. }
  rewrite Er. cbn [GaussianZ.ended GaussianZ.beam GaussianZ.generator].
  split; [reflexivity |]. split; [exact Ez |]. split; [exact Edp |].
  unfold Draws.take. cbn [snd position stream]. split; [lia | reflexivity].
Qed.

(** X17.  [GaussianZ.generate] with an acceptance test, two or more
    particles and a drawn particle that fails the test: the first pass of
    the loop of [_redistribute] assigns an array of [n] values to one
    entry, so the call raises [ValueError].  The buffer keeps the arrays
    drawn at first, and the generator has moved on by 3n deviates. *)
Theorem gaussian_z_rejection_raises fuel self beam accept i :
  GaussianZ.is_accepted self = Some accept ->
  (2 <= Particles.n_macroparticles beam)%nat ->
  (i < Particles.n_macroparticles beam)%nat ->
  accept (Array.getitem (Particles.z (GaussianZ.drawn self beam)) i)
         (Array.getitem (Particles.dp (GaussianZ.drawn self beam)) i)
         (GaussianZ.drawn self beam) = false ->
  let n := Particles.n_macroparticles beam in
  let g := GaussianZ.random_state self in
  let r := GaussianZ.generate (S fuel) self beam in
  GaussianZ.ended r = Raise GaussianZ.sequence_error
  /\ GaussianZ.beam r = GaussianZ.drawn self beam
  /\ position (GaussianZ.generator r) = (position g + 3 * n)%nat
  /\ stream (GaussianZ.generator r) = stream g.
Proof.
  intros Ea Hn Hi Rej n g r.
  assert (r = {| GaussianZ.ended := Raise GaussianZ.sequence_error;
                 GaussianZ.beam := GaussianZ.drawn self beam;
                 GaussianZ.generator :=
                   snd (Draws.take
                          (snd (Draws.take (snd (Draws.take g n)) n)) n) |})
    as Er.
  { unfold r. rewrite generate_eq. cbv zeta. fold n g. rewrite Ea.
    apply redistribute_raises; [exact Hn |].
    exists i. split; [apply in_seq; fold n; lia | exact Rej]. }
  rewrite Er. cbn [GaussianZ.ended GaussianZ.beam GaussianZ.generator].
  split; [reflexivity |]. split; [reflexivity |].
  unfold Draws.take. cbn [snd position stream]. split; [lia | reflexivity].
Qed.

(** X18.  Whenever [GaussianZ.generate] with an acceptance test returns,
    every particle of the buffer passes the test; and the buffer holds
    exactly one particle, or the loop has redrawn nothing: the buffer is
    the one drawn at first. *)
Theorem gaussian_z_returns_accepted fuel self beam accept :
  GaussianZ.is_accepted self = Some accept ->
  GaussianZ.ended (GaussianZ.generate fuel self beam) = Ok tt ->
  let n := Particles.n_macroparticles beam in
  let beam' := GaussianZ.beam (GaussianZ.generate fuel self beam) in
  (forall i, (i < n)%nat ->
     accept (Array.getitem (Particles.z beam') i)
            (Array.getitem (Particles.dp beam') i) beam' = true)
  /\ (n = 1%nat \/ beam' = GaussianZ.drawn self beam).
Proof.
  intros Ea. rewrite generate_eq. cbv zeta. rewrite Ea.
  set (n := Particles.n_macroparticles beam).
  set (rs := snd (Draws.take (snd (Draws.take _ n)) n)).
  intros E. cbv zeta.
  destruct (Nat.eq_dec n 1) as [One | Many].
  - split; [| left; exact One].
    revert E. rewrite One. cbn [seq GaussianZ.redistribute_from].
    destruct (GaussianZ.ended
                (GaussianZ.resample fuel (GaussianZ.sigma_z self)
                   (GaussianZ.sigma_dp self) accept 1 0
                   (GaussianZ.drawn self beam) rs)) as [[] | e |] eqn:E0.
    + intros _. cbn [GaussianZ.beam].
      destruct (resample_returns _ _ _ _ _ _ _ _ _ eq_refl E0) as [P _].
      intros i Hi. assert (i = O) as -> by lia. exact P.
    + rewrite E0. discriminate.
    + rewrite E0. discriminate.
  - destruct (redistribute_returns _ _ _ _ _ _ _ _ Many E) as [Eb [_ All]].
    split; [| right; exact Eb].
    rewrite Eb. intros i Hi. apply All. apply in_seq. lia.
Qed.

End GaussianProperties.

(** ** More on the density *)

Module StationaryExponentialExtras.

Import StationaryExponential.


(** X20.  The object as the constructor leaves it has [H0 = 1] and
    [Hmax = H(0, 0)].  When [H(0, 0)] is 0 its denominator
    [exp(Hmax/H0) - 1] is 0, and the density is finite nowhere: at every
    point it is [nan], [inf] or [-inf]. *)
Theorem init_degenerate (h : float64 -> float64 -> float64) (c : R)
    (z dp : float64) :
  h (Fin 0) (Fin 0) = Fin c -> c = 0 ->
  function (init h) z dp = NaN
  \/ function (init h) z dp = PInf
  \/ function (init h) z dp = NInf.
Proof.
  intros Ec Zc. subst c.
  assert (Np.sub (Np.exp (Np.div (Hmax (init h)) (H0 (init h)))) (Fin 1)
          = Fin 0) as Den.
  { unfold init. cbn [H H0 Hmax]. rewrite Ec.
    rewrite NpFacts.div_fin by lra.
    rewrite NpFacts.exp_small by lra.
    rewrite NpFacts.sub_fin. f_equal.
    replace (0 / 1) with 0 by lra. rewrite exp_0. ring. }
  unfold function. rewrite Den. apply NpFacts.div_by_zero.
Qed.

End StationaryExponentialExtras.

(** ** Example runs *)

Module SamplesFacts.

Import RFBucket Matching Sampling SamplingFacts.

#[local] Existing Instance Example.coarse.

(** The matching of the flat example with a target equal to the estimate
    returns a flat density. *)
Lemma flat_matching_returns :
  let self := init (Fin Example.flat_std) Example.flat in
  exists out psi,
    _set_target_std self (SE.init (hamiltonian self)) (sigma_z self)
      = (out, Ok psi)
    /\ Example.is_flat psi.
Proof.
  intros self.
  destruct (ExampleFacts.flat_leaves_at_first Example.flat Example.flat_std
              (Fin Example.flat_std) eq_refl eq_refl eq_refl
              (ExampleFacts.flat_precheck_returns _)
              (ExampleFacts.flat_bucket_estimate _)) as [Eo _].
  { change (Np.lt (Fin 1e-4)
              (Fin (Rabs (Example.flat_std - Example.flat_std))) = false).
    apply NpFacts.lt_fin_false.
    replace (Example.flat_std - Example.flat_std) with 0 by ring.
    rewrite Rabs_R0. lra. }
  destruct (ExampleFacts.flat_first_pass Example.flat Example.flat_std
              (Fin Example.flat_std) eq_refl eq_refl
              (ExampleFacts.flat_bucket_estimate _)) as [F1 _].
  fold self in Eo, F1.
  destruct (_set_target_std self (SE.init (hamiltonian self)) (sigma_z self))
    as [out r].
  cbn [Py.outcome snd] in Eo. subst r.
  eexists. eexists. split; [reflexivity | exact F1].
Qed.

(** The flat example with target 1: the estimate does not depend on the
    scale, so the residual is the same after every pass. *)
Lemma flat_stays (k : nat) :
  let self := init (Fin 1) Example.flat in
  let m := after k self (Fin 1)
             (start self (SE.set_Hmax (SE.init (hamiltonian self)) (Fin 1))
                    (Fin 1)) in
  Example.is_flat (m_psi m) /\ guard m = true.
Proof.
  intros self. induction k as [| k [F G]]; cbv zeta.
  - split.
    + apply ExampleFacts.flat_start; reflexivity.
    + apply MatchingFacts.guard_start.
  - cbn [after]. split.
    + apply ExampleFacts.flat_next; [reflexivity | exact F].
    + unfold guard.
      match goal with
      | |- context [m_eps (next ?s ?z ?m)] =>
          change (m_eps (next s z m))
            with (Np.sub (estimate s (m_psi m)) z)
      end.
      unfold self. rewrite (ExampleFacts.flat_bucket_estimate _ _ F).
      change (Np.lt (Fin 1e-4) (Fin (Rabs (Example.flat_std - 1))) = true).
      pose proof ExampleFacts.flat_std_bounds as B.
      apply NpFacts.lt_fin. rewrite Rabs_left by lra. lra.
Qed.

(** Every proposal of the flat example is accepted. *)
Lemma flat_all_accepted (psi : SE.t) (k : nat) :
  Example.is_flat psi ->
  let self := init (Fin Example.flat_std) Example.flat in
  accepted (psi_interp self psi) (nth_proposal self Example.draws k) = true.
Proof.
  intros Flat self. unfold accepted, self.
  rewrite SamplerWitnesses.coarse_interp_flat by exact Flat.
  apply NpFacts.lt_fin. apply SamplerWitnesses.draws_below_one.
Qed.

Lemma draws_nonneg (k : nat) : 0 <= stream Example.draws k.
Proof. apply SamplerWitnesses.draws_below_one. Qed.

(** The density of the inverted example is negative on the box. *)
Lemma depth_negative : Samples.depth < 0.
Proof.
  unfold Samples.depth.
  pose proof (NpFacts.exp_gt_1 (1 / 1) ltac:(lra)) as G.
  assert (exp (-1 / 1) < 1) as L.
  { apply Rlt_le_trans with (exp 0).
    - apply exp_increasing. lra.
    - rewrite exp_0. lra. }
  apply Ropp_lt_cancel. rewrite Ropp_0.
  replace (- ((exp (-1 / 1) - 1) / (exp (1 / 1) - 1)))
    with ((1 - exp (-1 / 1)) / (exp (1 / 1) - 1)) by (field; lra).
  apply Rdiv_lt_0_compat; lra.
Qed.

Lemma inverted_box (x : R) (dp : float64) :
  x <= 2 -> rf_hamiltonian Samples.inverted (Fin x) dp = Fin (-1).
Proof.
  intros L. cbn [rf_hamiltonian Samples.inverted].
  rewrite (proj2 (NpFacts.lt_fin_false 2 x)) by exact L. reflexivity.
Qed.

Lemma inverted_density (psi : SE.t) (x y : R) :
  Samples.is_inverted psi -> x <= 2 -> SE.function psi (Fin x) (Fin y) = Fin Samples.depth.
Proof.
  intros [EH [E0 Em]] L.
  pose proof NpFacts.exp_max_bounds as B.
  apply (StationaryExponentialFacts.function_fin psi (Fin x) (Fin y)
           (-1) 1 1); try assumption; try lra.
  rewrite EH. apply inverted_box. exact L.
Qed.

Lemma points_in_box : Forall (fun x => x <= 2) (Grid.points (-1) 1 256).
Proof.
  unfold Grid.points. apply Forall_app. split.
  - apply Forall_forall. intros x Hx. apply in_map_iff in Hx.
    destruct Hx as [k [<- Hk]]. apply in_seq in Hk.
    assert (INR k <= INR 256) as Le by (apply le_INR; lia).
    rewrite ExampleFacts.INR_256 in *. lra.
  - constructor; [lra | constructor].
Qed.

Lemma inverted_squares :
  Grid.weighted_squares (Samples.depth * 1) (Grid.points (-1) 1 256) 0
  = Samples.depth * (33153 / 384).
Proof.
  unfold Grid.points.
  rewrite ExampleFacts.weighted_squares_app, ExampleFacts.squares_closed_form.
  unfold Grid.weighted_squares. cbn [fold_left].
  rewrite ExampleFacts.INR_256. field.
Qed.

Lemma inverted_estimate (sigma : float64) (psi : SE.t) :
  Samples.is_inverted psi -> estimate (init sigma Samples.inverted) psi = Fin Example.flat_std.
Proof.
  intros Inv. unfold estimate, call_compute_std.
  change (method (_compute_std (init sigma Samples.inverted)))
    with _compute_std_cumtrapz.
  change (separatrix (init sigma Samples.inverted)) with (fun _ : float64 => Fin 1).
  change (fst (z_sep (init sigma Samples.inverted))) with (Fin (-1)).
  change (snd (z_sep (init sigma Samples.inverted))) with (Fin 1).
  unfold _compute_std_cumtrapz.
  rewrite (CumtrapzFacts.cumtrapz_region (SE.function psi) (fun _ => Fin 1) Samples.depth 1
             (fun x => x <= 2)
             (fun x y L => inverted_density psi x y Inv L)
             (fun _ => eq_refl) (-1) 1 points_in_box).
  pose proof depth_negative as N.
  rewrite inverted_squares, ExampleFacts.INR_256, ExampleFacts.INR_257.
  rewrite NpFacts.div_fin by lra.
  replace (Samples.depth * (33153 / 384) * ((1 - -1) / 256)
           / (257 * (Samples.depth * 1) * ((1 - -1) / 256)))
    with (43 / 128) by (field; lra).
  rewrite NpFacts.sqrt_fin by lra. reflexivity.
Qed.

Lemma inverted_amax (sigma : float64) :
  Array.amax (map (fun z => hamiltonian (init sigma Samples.inverted) z (Fin 0))
                  (z_extrema (init sigma Samples.inverted)))
  = Py.ret (Fin 1).
Proof.
  unfold init. cbn [hamiltonian z_extrema rf_hamiltonian rf_z_extrema
                    Samples.inverted map].
  rewrite (proj2 (NpFacts.lt_fin 2 3)) by lra. reflexivity.
Qed.

Lemma inverted_precheck (sigma : float64) :
  precheck_Q (init sigma Samples.inverted)
    (SE.init (hamiltonian (init sigma Samples.inverted)))
  <> Fin 0.
Proof.
  unfold precheck_Q, quad_integrals. cbn [dblquad Example.coarse fst].
  pose proof NpFacts.exp_max_bounds as B.
  rewrite (StationaryExponentialFacts.function_fin _ _ _ (-1) 1 (-1)).
  - change (Fin ((1 - -1) * (1 - 0)
                 * ((exp (-1 / 1) - 1) / (exp (-1 / 1) - 1))) <> Fin 0).
    assert (exp (-1 / 1) < 1) as L.
    { apply Rlt_le_trans with (exp 0).
      - apply exp_increasing. lra.
      - rewrite exp_0. lra. }
    replace ((exp (-1 / 1) - 1) / (exp (-1 / 1) - 1)) with 1 by (field; lra).
    intros E. injection E as E. lra.
  - apply inverted_box. lra.
  - reflexivity.
  - unfold SE.set_H0, SE.init, init.
    cbn [SE.Hmax hamiltonian rf_hamiltonian Samples.inverted].
    rewrite (proj2 (NpFacts.lt_fin_false 2 0)) by lra. reflexivity.
  - lra.
  - lra.
  - lra.
  - lra.
Qed.

Lemma inverted_start (sigma : float64) :
  Samples.is_inverted (m_psi (start (init sigma Samples.inverted)
                 (SE.set_Hmax (SE.init (hamiltonian (init sigma Samples.inverted)))
                    (Fin 1))
                 sigma)).
Proof. repeat split. Qed.

Lemma inverted_next (sigma z0 : float64) (m : matcher) :
  Samples.is_inverted (m_psi m) ->
  Samples.is_inverted (m_psi (next (init sigma Samples.inverted) z0 m)).
Proof.
  intros [EH [_ Em]]. unfold Samples.is_inverted, next, init, SE.set_H0.
  cbn [m_psi SE.H SE.H0 SE.Hmax H0]. repeat split.
  - exact EH.
  - exact Em.
Qed.

(** The matching of the Samples.inverted example with a target equal to the
    estimate returns after one pass. *)
Lemma inverted_matching_returns :
  let self := init (Fin Example.flat_std) Samples.inverted in
  exists out psi,
    _set_target_std self (SE.init (hamiltonian self)) (sigma_z self)
      = (out, Ok psi)
    /\ Samples.is_inverted psi.
Proof.
  intros self.
  set (m0 := start self (SE.set_Hmax (SE.init (hamiltonian self)) (Fin 1))
                   (Fin Example.flat_std)).
  set (m1 := after 1 self (Fin Example.flat_std) m0).
  assert (Samples.is_inverted (m_psi m0)) as I0 by apply inverted_start.
  assert (Samples.is_inverted (m_psi m1)) as I1 by (apply inverted_next; exact I0).
  assert (Py.outcome (_set_target_std self (SE.init (hamiltonian self))
                        (sigma_z self)) = Ok (m_psi m1)) as Eo.
  { change (sigma_z self) with (Fin Example.flat_std).
    destruct (MatchingFacts.set_target_std_solve self
                (SE.init (hamiltonian self)) (Fin Example.flat_std)
                (inverted_precheck _)) as [-> _].
    apply (MatchingFacts.solve_leaves self (SE.init (hamiltonian self))
             (Fin Example.flat_std) (Fin 1) 1).
    - apply inverted_amax.
    - lia.
    - fold m0. fold m1. unfold guard.
      change (m_eps m1)
        with (Np.sub (estimate self (m_psi m0)) (Fin Example.flat_std)).
      unfold self. rewrite (inverted_estimate _ _ I0).
      change (Np.lt (Fin 1e-4)
                (Fin (Rabs (Example.flat_std - Example.flat_std))) = false).
      apply NpFacts.lt_fin_false.
      replace (Example.flat_std - Example.flat_std) with 0 by ring.
      rewrite Rabs_R0. lra.
    - intros j Hj. replace j with O by lia. apply MatchingFacts.guard_start.
    - intros j Hj. apply EstimatorFacts.init_estimated. }
  destruct (_set_target_std self (SE.init (hamiltonian self)) (sigma_z self))
    as [out r].
  cbn [Py.outcome snd] in Eo. subst r.
  eexists. eexists. split; [reflexivity | exact I1].
Qed.

(** The stand-in interpolant of the Samples.inverted density is below 0. *)
Lemma inverted_interp (psi : SE.t) (u v : float64) :
  Samples.is_inverted psi ->
  Np.lt (Fin 0) (psi_interp (init (Fin Example.flat_std) Samples.inverted) psi u v)
  = false.
Proof.
  intros Inv. unfold psi_interp. cbv zeta.
  change (128 + 1)%nat with 129%nat.
  change (xmin (init (Fin Example.flat_std) Samples.inverted)) with (Fin (-1)).
  change (xmax (init (Fin Example.flat_std) Samples.inverted)) with (Fin 1).
  change (ymin (init (Fin Example.flat_std) Samples.inverted)) with (Fin (- (1))).
  change (ymax (init (Fin Example.flat_std) Samples.inverted)) with (Fin 1).
  rewrite !(CumtrapzFacts.linspace_points _ _ 127).
  rewrite !CumtrapzFacts.points_cons. cbn [interp2d Example.coarse map hd].
  rewrite inverted_density.
  - apply NpFacts.lt_fin_false. pose proof depth_negative. lra.
  - exact Inv.
  - change (INR 0) with 0. lra.
Qed.

(** One particle whose first deviate fails the test and whose second
    passes it. *)
Lemma redrawn_once :
  let self := GaussianZ.init (Fin 1) (Fin 1) (Some Samples.below_one)
                Samples.steps in
  GaussianZ.generate 1 self (Example.buffer 1)
  = {| GaussianZ.ended := Ok tt;
       GaussianZ.beam :=
         Particles.set_dp (Particles.set_z (Example.buffer 1) [Fin (1 * 0)])
           [Fin (1 * 0)];
       GaussianZ.generator :=
         {| stream := Samples.steps; position := 4 |} |}.
Proof.
  intros self. rewrite GaussianFacts.generate_eq. cbv zeta.
  cbn -[Np.lt]. unfold Samples.below_one.
  rewrite (proj2 (NpFacts.lt_fin_false (1 * 2) 1)) by lra.
  rewrite (proj2 (NpFacts.lt_fin (1 * 0) 1)) by lra.
  reflexivity.
Qed.

End SamplesFacts.

Module ExtraWitnesses.

Import RFBucket Matching Sampling SamplingFacts.

#[local] Existing Instance Example.coarse.

(** The uniform density on the box [-1, 1] x [0, 1]. *)
Lemma cumtrapz_estimate_bounded_witness :
  exists zS,
    _compute_std_cumtrapz (fun _ _ => Fin 1) (fun _ => Fin 1) (Fin (-1))
      (Fin 1) = Py.ret zS
    /\ ((zS = NaN /\ Quadrature.Q (fun _ _ => 1) (fun _ => 1) (-1) 1 = 0)
        \/ exists z, zS = Fin z
                     /\ 0 <= z <= Rmax (Rabs (-1)) (Rabs 1)
                     /\ 0 < Quadrature.Q (fun _ _ => 1) (fun _ => 1) (-1) 1).
Proof.
  apply (QuadratureProperties.cumtrapz_estimate_bounded
           (fun _ _ => Fin 1) (fun _ => Fin 1) (fun _ _ => 1) (fun _ => 1)
           (-1) 1).
  - lra.
  - intros x _. split; [reflexivity | lra].
  - intros x y _ _. split; [reflexivity | lra].
Defined.

(** The flat example with a target equal to the estimate: the loop is
    left after its first pass. *)
Lemma returned_scale_one_step_ahead_witness :
  let self := init (Fin Example.flat_std) Example.flat in
  let psi := SE.init (hamiltonian self) in
  let sigma := Fin Example.flat_std in
  exists k,
    (k < 100)%nat
    /\ let checked := after k self sigma
                        (start self (SE.set_Hmax psi (Fin 1)) sigma) in
       let final := next self sigma checked in
       m_psi (after 1 self sigma (start self (SE.set_Hmax psi (Fin 1)) sigma))
         = m_psi final
       /\ SE.H0 (m_psi (after 1 self sigma
                          (start self (SE.set_Hmax psi (Fin 1)) sigma)))
          = H0 self (m_zH final)
       /\ m_eps final = Np.sub (estimate self (m_psi checked)) sigma
       /\ m_zH final = Np.sub (m_zH checked) (Np.mul (Fin 0.5) (m_eps final))
       /\ (m_eps final = NaN
           \/ exists e, m_eps final = Fin e /\ Rabs e <= 1e-4
                /\ forall z, m_zH checked = Fin z ->
                     exists z', m_zH final = Fin z'
                                /\ Rabs (z' - z) <= 0.5e-4).
Proof.
  intros self psi sigma.
  apply (MatcherExtras.returned_scale_one_step_ahead self psi sigma (Fin 1)).
  - reflexivity.
  - apply (ExampleFacts.flat_leaves_at_first Example.flat Example.flat_std
             (Fin Example.flat_std) eq_refl eq_refl eq_refl
             (ExampleFacts.flat_precheck_returns _)
             (ExampleFacts.flat_bucket_estimate _)).
    change (Np.lt (Fin 1e-4)
              (Fin (Rabs (Example.flat_std - Example.flat_std))) = false).
    apply NpFacts.lt_fin_false.
    replace (Example.flat_std - Example.flat_std) with 0 by ring.
    rewrite Rabs_R0. lra.
Defined.

(** The flat Hamiltonian with an empty list of extrema: the pre-check
    returns, the one-point rule of the stand-in giving [Q = 2]. *)
Lemma no_extrema_no_solve_witness :
  let self := init (Fin 1) Samples.no_extrema in
  let psi := SE.init (hamiltonian self) in
  exists msg,
    Py.outcome (_set_target_std self psi (Fin 1)) = Raise (ValueError msg)
    /\ Py.output (_set_target_std self psi (Fin 1))
       = Py.output (_test_maximum_std self psi (Fin 1)).
Proof.
  intros self psi.
  destruct (MatchingFacts.test_maximum_std_run self psi (Fin 1))
    as [zq [zc [zr [_ [_ [_ Pre]]]]]].
  { unfold precheck_Q, quad_integrals. cbn [dblquad Example.coarse fst].
    change (separatrix self (Fin (-1))) with (Fin 1).
    rewrite ExampleFacts.flat_density by reflexivity.
    intros E. injection E as E. lra. }
  apply (MatcherExtras.no_extrema_no_solve self psi (Fin 1)
           (SE.set_H0 psi (H0 self (circumference self)))).
  - reflexivity.
  - rewrite Pre. reflexivity.
Defined.

(** Two macroparticles from the flat example: the second proposal brings
    the second acceptance. *)
Lemma generate_stops_at_nth_acceptance_witness :
  let self := init (Fin Example.flat_std) Example.flat in
  exists out psi,
    forall fuel,
      ((2 <= fuel)%nat ->
       generate self (Example.buffer 2) Example.draws fuel
       = ((out, Ok tt),
          Particles.set_psi
            (Particles.set_dp
               (Particles.set_z (Example.buffer 2)
                  (map p_u (accepted_among self (psi_interp self psi)
                              Example.draws 2)))
               (map p_v (accepted_among self (psi_interp self psi)
                           Example.draws 2)))
            psi))
      /\ ((fuel < 2)%nat ->
          generate self (Example.buffer 2) Example.draws fuel
          = ((out, Running), Example.buffer 2)).
Proof.
  intros self.
  destruct SamplesFacts.flat_matching_returns as [out [psi [Run Flat]]].
  fold self in Run. exists out, psi.
  apply (SamplerExtras.generate_stops_at_nth_acceptance self
           (Example.buffer 2) Example.draws out psi 2 Run).
  - apply accepted_among_all. intros k.
    apply SamplesFacts.flat_all_accepted. exact Flat.
  - right. change (2 - 1)%nat with 1%nat.
    rewrite accepted_among_all.
    + cbn. lia.
    + intros k. apply SamplesFacts.flat_all_accepted. exact Flat.
Defined.

(** The flat example with a buffer that asks for nothing. *)
Lemma generate_nothing_witness :
  let self := init (Fin Example.flat_std) Example.flat in
  exists out psi,
    generate self (Example.buffer 0) Example.draws 5
    = ((out, Ok tt),
       Particles.set_psi
         (Particles.set_dp (Particles.set_z (Example.buffer 0) []) []) psi)
    /\ s_random (rejection_loop 5 (xmin self) (lx self) (ymin self)
                   (ly self) (psi_interp self psi)
                   (initial (Example.buffer 0) Example.draws))
       = Example.draws.
Proof.
  intros self.
  destruct SamplesFacts.flat_matching_returns as [out [psi [Run _]]].
  fold self in Run. exists out, psi.
  apply (SamplerExtras.generate_nothing self (Example.buffer 0) Example.draws
           out psi 5 Run).
  reflexivity.
Defined.

(** The inverted example: five passes, and any other number, accept
    nothing. *)
Lemma generate_never_returns_witness :
  let self := init (Fin Example.flat_std) Samples.inverted in
  exists out psi,
    generate self (Example.buffer 1) Example.draws 5
    = ((out, Running), Example.buffer 1)
    /\ s_i (rejection_loop 5 (xmin self) (lx self) (ymin self) (ly self)
              (psi_interp self psi)
              (initial (Example.buffer 1) Example.draws))
       = 5%nat.
Proof.
  intros self.
  destruct SamplesFacts.inverted_matching_returns as [out [psi [Run Inv]]].
  fold self in Run. exists out, psi.
  apply (SamplerExtras.generate_never_returns self (Example.buffer 1)
           Example.draws out psi 5 Run).
  - intros u v. apply SamplesFacts.inverted_interp. exact Inv.
  - exact SamplesFacts.draws_nonneg.
  - cbn. lia.
Defined.

(** Two positions between 0 and 1. *)
Lemma uniform_x_generate_witness :
  let self := UniformX.init (Fin 0) (Fin 1) in
  let particles := Example.buffer 2 in
  let g := Example.draws in
  let particles' := fst (UniformX.generate self particles g) in
  let g' := snd (UniformX.generate self particles g) in
  Particles.x particles'
    = map (fun k => Fin (0 + stream g (position g + k) * (1 - 0))) (seq 0 2)
  /\ List.length (Particles.x particles') = 2%nat
  /\ Forall (Sampling.between (Rmin 0 1) (Rmax 0 1)) (Particles.x particles')
  /\ Particles.xp particles' = Array.zeros 2
  /\ (Particles.y particles' = Particles.y particles
      /\ Particles.yp particles' = Particles.yp particles
      /\ Particles.z particles' = Particles.z particles
      /\ Particles.dp particles' = Particles.dp particles
      /\ Particles.n_macroparticles particles' = 2%nat
      /\ Particles.psi particles' = Particles.psi particles)
  /\ position g' = (position g + 2)%nat
  /\ stream g' = stream g.
Proof.
  intros self particles g.
  apply (UniformProperties.uniform_x_generate self particles g 0 1).
  - reflexivity.
  - reflexivity.
  - exact SamplerWitnesses.draws_below_one.
Defined.

Lemma uniform_y_generate_witness :
  let self := UniformY.init (Fin 0) (Fin 1) in
  let particles := Example.buffer 2 in
  let g := Example.draws in
  let particles' := fst (UniformY.generate self particles g) in
  let g' := snd (UniformY.generate self particles g) in
  Particles.y particles'
    = map (fun k => Fin (0 + stream g (position g + k) * (1 - 0))) (seq 0 2)
  /\ List.length (Particles.y particles') = 2%nat
  /\ Forall (Sampling.between (Rmin 0 1) (Rmax 0 1)) (Particles.y particles')
  /\ Particles.yp particles' = Array.zeros 2
  /\ (Particles.x particles' = Particles.x particles
      /\ Particles.xp particles' = Particles.xp particles
      /\ Particles.z particles' = Particles.z particles
      /\ Particles.dp particles' = Particles.dp particles
      /\ Particles.n_macroparticles particles' = 2%nat
      /\ Particles.psi particles' = Particles.psi particles)
  /\ position g' = (position g + 2)%nat
  /\ stream g' = stream g.
Proof.
  intros self particles g.
  apply (UniformProperties.uniform_y_generate self particles g 0 1).
  - reflexivity.
  - reflexivity.
  - exact SamplerWitnesses.draws_below_one.
Defined.

Lemma uniform_z_generate_witness :
  let self := UniformZ.init (Fin 0) (Fin 1) in
  let particles := Example.buffer 2 in
  let g := Example.draws in
  let particles' := fst (UniformZ.generate self particles g) in
  let g' := snd (UniformZ.generate self particles g) in
  Particles.z particles'
    = map (fun k => Fin (0 + stream g (position g + k) * (1 - 0))) (seq 0 2)
  /\ List.length (Particles.z particles') = 2%nat
  /\ Forall (Sampling.between (Rmin 0 1) (Rmax 0 1)) (Particles.z particles')
  /\ Particles.dp particles' = Array.zeros 2
  /\ (Particles.x particles' = Particles.x particles
      /\ Particles.xp particles' = Particles.xp particles
      /\ Particles.y particles' = Particles.y particles
      /\ Particles.yp particles' = Particles.yp particles
      /\ Particles.n_macroparticles particles' = 2%nat
      /\ Particles.psi particles' = Particles.psi particles)
  /\ position g' = (position g + 2)%nat
  /\ stream g' = stream g.
Proof.
  intros self particles g.
  apply (UniformProperties.uniform_z_generate self particles g 0 1).
  - reflexivity.
  - reflexivity.
  - exact SamplerWitnesses.draws_below_one.
Defined.

(** [beta = 2], [epsn = 1], [betagamma = 4]. *)
Lemma gaussian_x_from_optics_witness :
  let self :=
    GaussianX.from_optics (Fin 0) (Fin 2) (Fin 1) (Fin 4) Samples.ramp in
  (exists sx sxp : R,
     GaussianX.sigma_x self = Fin sx /\ GaussianX.sigma_xp self = Fin sxp
     /\ 0 <= sx /\ 0 <= sxp
     /\ sx * sxp = 1 * 1e-6 / 4 /\ sx = 2 * sxp)
  /\ GaussianX.from_optics (Fin 3) (Fin 2) (Fin 1) (Fin 4) Samples.ramp = self.
Proof.
  apply (GaussianProperties.gaussian_x_from_optics (Fin 0) (Fin 3) 2 1 4
           Samples.ramp).
  - lra.
  - lra.
  - lra.
Defined.

Lemma gaussian_y_from_optics_witness :
  let self :=
    GaussianY.from_optics (Fin 0) (Fin 2) (Fin 1) (Fin 4) Samples.ramp in
  (exists sy syp : R,
     GaussianY.sigma_y self = Fin sy /\ GaussianY.sigma_yp self = Fin syp
     /\ 0 <= sy /\ 0 <= syp
     /\ sy * syp = 1 * 1e-6 / 4 /\ sy = 2 * syp)
  /\ GaussianY.from_optics (Fin 3) (Fin 2) (Fin 1) (Fin 4) Samples.ramp = self.
Proof.
  apply (GaussianProperties.gaussian_y_from_optics (Fin 0) (Fin 3) 2 1 4
           Samples.ramp).
  - lra.
  - lra.
  - lra.
Defined.

(** [beta_z = 2], [epsn_z = 1], [p0 = 4], with 1 for the charge. *)
Lemma gaussian_z_from_optics_witness :
  let self :=
    GaussianZ.from_optics (Fin 1) (Fin 2) (Fin 1) (Fin 4) None Samples.ramp in
  exists sz sdp : R,
    GaussianZ.sigma_z self = Fin sz /\ GaussianZ.sigma_dp self = Fin sdp
    /\ 0 <= sz /\ 0 <= sdp
    /\ sz * sdp = 1 * 1 / (4 * PI * 4) /\ sz = 2 * sdp.
Proof.
  apply (GaussianProperties.gaussian_z_from_optics 1 2 1 4 None Samples.ramp).
  - lra.
  - lra.
  - lra.
  - lra.
Defined.

(** Two particles and a test that every finite [z] passes. *)
Lemma gaussian_z_all_accepted_witness :
  let self := GaussianZ.init (Fin 1) (Fin 1) (Some Samples.finite)
                Samples.ramp in
  let beam := Example.buffer 2 in
  let g := GaussianZ.random_state self in
  let r := GaussianZ.generate 0 self beam in
  GaussianZ.ended r = Ok tt
  /\ Particles.z (GaussianZ.beam r)
     = map (fun k => Np.mul (GaussianZ.sigma_z self)
                       (Fin (stream g (position g + k)))) (seq 0 2)
  /\ Particles.dp (GaussianZ.beam r)
     = map (fun k => Np.mul (GaussianZ.sigma_dp self)
                       (Fin (stream g (position g + (2 + k))))) (seq 0 2)
  /\ position (GaussianZ.generator r) = (position g + 2 * 2)%nat
  /\ stream (GaussianZ.generator r) = stream g.
Proof.
  intros self beam g r.
  apply (GaussianProperties.gaussian_z_all_accepted 0 self beam).
  intros accept i Ea Hi. injection Ea as <-.
  destruct i as [| [| i]].
  - reflexivity.
  - reflexivity.
  - cbn in Hi. lia.
Defined.

(** Two particles and a test that nothing passes. *)
Lemma gaussian_z_rejection_raises_witness :
  let self := GaussianZ.init (Fin 1) (Fin 1) (Some Samples.none)
                Samples.ramp in
  let beam := Example.buffer 2 in
  let g := GaussianZ.random_state self in
  let r := GaussianZ.generate 1 self beam in
  GaussianZ.ended r = Raise GaussianZ.sequence_error
  /\ GaussianZ.beam r = GaussianZ.drawn self beam
  /\ position (GaussianZ.generator r) = (position g + 3 * 2)%nat
  /\ stream (GaussianZ.generator r) = stream g.
Proof.
  intros self beam g r.
  apply (GaussianProperties.gaussian_z_rejection_raises 0 self beam
           Samples.none 0).
  - reflexivity.
  - cbn. lia.
  - cbn. lia.
  - reflexivity.
Defined.

(** Two particles and a test that every finite [z] passes; and one
    particle that is drawn again, once. *)
Lemma gaussian_z_returns_accepted_witness :
  (let self := GaussianZ.init (Fin 1) (Fin 1) (Some Samples.finite)
                 Samples.ramp in
   let beam := Example.buffer 2 in
   let beam' := GaussianZ.beam (GaussianZ.generate 0 self beam) in
   (forall i, (i < 2)%nat ->
      Samples.finite (Array.getitem (Particles.z beam') i)
        (Array.getitem (Particles.dp beam') i) beam' = true)
   /\ (2%nat = 1%nat \/ beam' = GaussianZ.drawn self beam))
  /\ (let self := GaussianZ.init (Fin 1) (Fin 1) (Some Samples.below_one)
                    Samples.steps in
      let beam := Example.buffer 1 in
      let beam' := GaussianZ.beam (GaussianZ.generate 1 self beam) in
      Particles.z (GaussianZ.drawn self beam) = [Fin (1 * 2)]
      /\ Particles.z beam' = [Fin (1 * 0)]
      /\ (forall i, (i < 1)%nat ->
            Samples.below_one (Array.getitem (Particles.z beam') i)
              (Array.getitem (Particles.dp beam') i) beam' = true)
      /\ (1%nat = 1%nat \/ beam' = GaussianZ.drawn self beam)).
Proof.
  split.
  - intros self beam.
    apply (GaussianProperties.gaussian_z_returns_accepted 0 self beam
             Samples.finite).
    + reflexivity.
    + reflexivity.
  - intros self beam beam'.
    split; [reflexivity |].
    split; [unfold beam', self, beam; rewrite SamplesFacts.redrawn_once;
            reflexivity |].
    apply (GaussianProperties.gaussian_z_returns_accepted 1 self beam
             Samples.below_one).
    + reflexivity.
    + unfold self, beam. rewrite SamplesFacts.redrawn_once. reflexivity.
Defined.


(** The well centred at [z = 1], whose Hamiltonian is 0 at the origin,
    at its extremum [(1, 0)]. *)
Lemma init_degenerate_witness :
  let psi := SE.init (rf_hamiltonian Example.shifted) in
  SE.function psi (Fin 1) (Fin 0) = NaN
  \/ SE.function psi (Fin 1) (Fin 0) = PInf
  \/ SE.function psi (Fin 1) (Fin 0) = NInf.
Proof.
  intros psi.
  apply (StationaryExponentialExtras.init_degenerate
           (rf_hamiltonian Example.shifted)
           (1 - (0 - 1) * (0 - 1) - 0 * 0) (Fin 1) (Fin 0)).
  - reflexivity.
  - lra.
Defined.

(** The flat example with target 1: no pass brings the estimate nearer. *)
Lemma set_target_std_aborts_witness :
  let self := init (Fin 1) Example.flat in
  let psi := SE.init (hamiltonian self) in
  Py.outcome (_set_target_std self psi (Fin 1)) = Raise (NameError "sys")
  /\ exists out,
       Py.output (_set_target_std self psi (Fin 1))
       = (out ++ too_many_steps)%list.
Proof.
  intros self psi.
  apply (MatcherExtras.set_target_std_aborts self psi (Fin 1) (Fin 1)).
  - apply ExampleFacts.flat_precheck_returns.
  - reflexivity.
  - intros k _. apply SamplesFacts.flat_stays.
  - intros k _. apply EstimatorFacts.init_estimated.
Defined.

End ExtraWitnesses.

